(** * FakeDonald's inventory manager: a shallow embedding and its properties

  The program [mcd_inventory_critical_threshold.py] is a console loop over
  one dictionary of items, loaded from and saved to [inventory.csv].

  Modelling choices, all visible in the definitions below:
  - Python [int] is [Z]; Python [float] is the kernel's binary64 [float],
    with the conversions [int -> float] that the mixed operations of the
    source perform written out ([float_of_Z], which raises [OverflowError]).
  - Text is ASCII: a Python [str] is a [string]; the string methods the
    source calls ([lower], [strip], [isdigit], [title]) are defined on
    ASCII characters.
  - [int(str)] skips its own white space (TAB..CR and the space, not the
    separators FS..US that [strip] removes) and refuses more than 4300
    digits, the default limit of Python 3.11 and later.  [str(int)] has
    the same limit: it is modelled where [csv.writer] converts the cells
    of a record, so that saving can fail half way.
  - [sum] over floats is modelled for both behaviours of the interpreter,
    left to right (up to Python 3.11) and compensated (from 3.12 on); the
    class [Python] says which, and the theorems hold for either.
  - A [dict] is an association list in insertion order with unique keys.
  - The console and the file system are explicit state: the lines still to
    be typed, the text printed so far, the files, and the one dictionary
    object that [main] shares with its handlers.
  - The [csv] module is taken at the level of records: a file is the list
    of records (lists of cells) that [csv.reader] yields from it and that
    [csv.writer] is given to write, one [writerow] at a time.
  - [float(str)] and [repr(float)] are an interface ([FloatText]).
  - Not modelled: the digit limit where a count is formatted into a line
    for the console (a count of more than 4300 digits is printed here,
    where Python raises [ValueError]), and errors of the operating system
    other than a missing file. *)

From Stdlib Require Import ZArith Arith List String Ascii Bool Lia Floats.
From Stdlib Require Import DecimalString DecimalZ DecimalN DecimalPos DecimalFacts.
Import ListNotations.

Local Open Scope string_scope.
Local Open Scope Z_scope.

Set Implicit Arguments.
Set Warnings "-inexact-float".

(** ** Python strings (ASCII) *)

Module PyStr.

Definition code (c : ascii) : N := N_of_ascii c.

(** [str.isspace] on ASCII: TAB..CR, FS..US and the space. *)
Definition is_space (c : ascii) : bool :=
  let n := code c in
  ((9 <=? n) && (n <=? 13) || (28 <=? n) && (n <=? 32))%N.

Definition is_digit (c : ascii) : bool :=
  let n := code c in ((48 <=? n) && (n <=? 57))%N.

Definition is_upper (c : ascii) : bool :=
  let n := code c in ((65 <=? n) && (n <=? 90))%N.

Definition is_lower (c : ascii) : bool :=
  let n := code c in ((97 <=? n) && (n <=? 122))%N.

Definition is_cased (c : ascii) : bool := is_upper c || is_lower c.

Definition lower_char (c : ascii) : ascii :=
  if is_upper c then ascii_of_N (code c + 32) else c.

Definition upper_char (c : ascii) : ascii :=
  if is_lower c then ascii_of_N (code c - 32) else c.

(** [s.lower()] *)
Fixpoint lower (s : string) : string :=
  match s with
  | EmptyString => EmptyString
  | String c r => String (lower_char c) (lower r)
  end.

Fixpoint lstrip (s : string) : string :=
  match s with
  | EmptyString => EmptyString
  | String c r => if is_space c then lstrip r else s
  end.

Fixpoint rstrip (s : string) : string :=
  match s with
  | EmptyString => EmptyString
  | String c r =>
      match rstrip r with
      | EmptyString => if is_space c then EmptyString else String c EmptyString
      | r' => String c r'
      end
  end.

(** [s.strip()] *)
Definition strip (s : string) : string := rstrip (lstrip s).

(** The white space [int(s)] skips around an ASCII literal: TAB..CR and
    the space.  It is not the white space of [str.strip]: FS..US stay. *)
Definition is_int_space (c : ascii) : bool :=
  let n := code c in
  ((9 <=? n) && (n <=? 13) || (n =? 32))%N.

Fixpoint int_lstrip (s : string) : string :=
  match s with
  | EmptyString => EmptyString
  | String c r => if is_int_space c then int_lstrip r else s
  end.

Fixpoint int_rstrip (s : string) : string :=
  match s with
  | EmptyString => EmptyString
  | String c r =>
      match int_rstrip r with
      | EmptyString => if is_int_space c then EmptyString else String c EmptyString
      | r' => String c r'
      end
  end.

Definition int_strip (s : string) : string := int_rstrip (int_lstrip s).

Fixpoint all_chars (p : ascii -> bool) (s : string) : bool :=
  match s with
  | EmptyString => true
  | String c r => p c && all_chars p r
  end.

Definition is_ascii (c : ascii) : bool := (code c <? 128)%N.

(** [s.isascii()] *)
Definition isascii (s : string) : bool := all_chars is_ascii s.

(** [s.isdigit()]: at least one character, all of them digits. *)
Definition isdigit (s : string) : bool :=
  match s with
  | EmptyString => false
  | _ => all_chars is_digit s
  end.

(** [s.title()]: a cased character is upper-cased when it follows an
    uncased one (or starts the string) and lower-cased otherwise. *)
Fixpoint title_from (prev_cased : bool) (s : string) : string :=
  match s with
  | EmptyString => EmptyString
  | String c r =>
      if is_cased c
      then String (if prev_cased then lower_char c else upper_char c) (title_from true r)
      else String c (title_from false r)
  end.

Definition title (s : string) : string := title_from false s.

(** [s * n] *)
Fixpoint repeat_str (s : string) (n : nat) : string :=
  match n with
  | O => EmptyString
  | S k => s ++ repeat_str s k
  end.

(** The format specification [:<w]: pad on the right up to width [w]. *)
Definition ljust (w : nat) (s : string) : string :=
  s ++ repeat_str " " (w - String.length s).

Definition nl : string := String (ascii_of_nat 10) EmptyString.

(** The body of a decimal integer literal as [int(str)] accepts it: digits,
    with single underscores allowed between two digits.  Returns the digits. *)
Fixpoint int_body (prev_digit : bool) (s : string) : option string :=
  match s with
  | EmptyString => if prev_digit then Some EmptyString else None
  | String c r =>
      if is_digit c then option_map (String c) (int_body true r)
      else if (Ascii.eqb c "_" && prev_digit)%bool then
        match r with
        | EmptyString => None
        | String c' _ => if is_digit c' then int_body false r else None
        end
      else None
  end.

Definition digits_value (ds : string) : option Z :=
  option_map (fun u => Z.of_N (N.of_uint u)) (NilEmpty.uint_of_string ds).

(** The most digits a decimal text of an [int] may have when it is read
    or written ([sys.get_int_max_str_digits()], 4300 unless it is set). *)
Definition max_str_digits : nat := 4300.

(** More digits than that (leading zeros count, underscores do not) are
    refused. *)
Definition unsigned_int (s : string) : option Z :=
  match int_body false s with
  | Some ds =>
      if (String.length ds <=? max_str_digits)%nat then digits_value ds else None
  | None => None
  end.

(** [int(s)] in base 10: surrounding white space, an optional sign, then
    the digits; [None] stands for [ValueError]. *)
Definition py_int (s : string) : option Z :=
  match int_strip s with
  | EmptyString => None
  | String c r =>
      if Ascii.eqb c "-" then option_map Z.opp (unsigned_int r)
      else if Ascii.eqb c "+" then unsigned_int r
      else unsigned_int (String c r)
  end.

(** The decimal text of an [int]. *)
Definition str_int (z : Z) : string := NilZero.string_of_int (Z.to_int z).

(** The text has no more digits than may be written. *)
Definition digits_fit (z : Z) : bool :=
  (String.length (str_int (Z.abs z)) <=? max_str_digits)%nat.

(** [str(n)] for an [int]: [None] stands for the [ValueError] of a number
    of more than [max_str_digits] digits. *)
Definition py_str_int (z : Z) : option string :=
  if digits_fit z then Some (str_int z) else None.

End PyStr.

Import PyStr.

(** ** Python floats (binary64) *)

Module PyFloat.

(** [float(n)] for an [int]: rounded to nearest-even; an [int] beyond the
    range of binary64 raises [OverflowError] ([None]). *)
Definition float_of_Z (z : Z) : option float :=
  match binary_normalize prec emax z 0 false with
  | S754_infinity _ => None
  | sf => Some (SF2Prim sf)
  end.

(** [m * 2^e] rounded to an integer, ties to even. *)
Definition round_half_even (m e : Z) : Z :=
  if 0 <=? e then m * 2 ^ e
  else
    let d := 2 ^ (- e) in
    let q := m / d in
    let r := m mod d in
    if 2 * r <? d then q
    else if d <? 2 * r then q + 1
    else if Z.even q then q else q + 1.

Fixpoint take_str (n : nat) (s : string) : string :=
  match n, s with
  | S k, String c r => String c (take_str k r)
  | _, _ => EmptyString
  end.

Fixpoint drop_str (n : nat) (s : string) : string :=
  match n, s with
  | S k, String _ r => drop_str k r
  | _, _ => s
  end.

(** The decimal text of [n / 10^d] for a natural [n], with [d] decimals. *)
Definition fixed_digits (d : nat) (n : Z) : string :=
  let ds := str_int n in
  let ds := repeat_str "0" (S d - String.length ds) ++ ds in
  let k := (String.length ds - d)%nat in
  match d with
  | O => ds
  | _ => take_str k ds ++ "." ++ drop_str k ds
  end.

Definition sign_str (s : bool) : string := if s then "-" else "".

(** The format specification [.df]: the exact value of the float, rounded
    to [d] decimals (ties to even), in positional notation. *)
Definition format_fixed (d : nat) (x : float) : string :=
  match Prim2SF x with
  | S754_nan => "nan"
  | S754_infinity s => sign_str s ++ "inf"
  | S754_zero s => sign_str s ++ fixed_digits d 0
  | S754_finite s m e =>
      sign_str s ++ fixed_digits d (round_half_even (Zpos m * 10 ^ Z.of_nat d) e)
  end.

(** What differs between the versions of the interpreter: up to Python
    3.11 [sum] adds floats left to right; from Python 3.12 on it carries a
    compensation for the rounding errors (Neumaier's algorithm). *)
Class Python : Type :=
  { compensated_sum : bool }.

(** [sum(xs)] up to Python 3.11: left to right from the integer [0]. *)
Definition sum_left (xs : list float) : float :=
  fold_left PrimFloat.add xs 0%float.

(** One step of the compensated loop: the running sum [f], the running
    compensation [c] and the next float [x]. *)
Definition neumaier_step (acc : float * float) (x : float) : float * float :=
  let (f, c) := acc in
  let t := PrimFloat.add f x in
  if PrimFloat.leb (PrimFloat.abs x) (PrimFloat.abs f)
  then (t, PrimFloat.add c (PrimFloat.add (PrimFloat.sub f t) x))
  else (t, PrimFloat.add c (PrimFloat.add (PrimFloat.sub x t) f)).

(** [sum(xs)] from Python 3.12 on: the first float is added to the integer
    [0], the others by the compensated loop; the compensation is added at
    the end when it is finite and not zero. *)
Definition sum_compensated (xs : list float) : float :=
  match xs with
  | [] => 0%float
  | x :: r =>
      let (f, c) := fold_left neumaier_step r (PrimFloat.add 0%float x, 0%float) in
      if negb (PrimFloat.is_zero c) && PrimFloat.is_finite c
      then PrimFloat.add f c
      else f
  end.

(** [sum(xs)] over floats. *)
Definition py_sum {PY : Python} (xs : list float) : float :=
  if compensated_sum then sum_compensated xs else sum_left xs.

Definition python311 : Python := {| compensated_sum := false |}.

Definition python312 : Python := {| compensated_sum := true |}.

(** [float(str)] ([None] stands for [ValueError]) and [repr(float)], which
    [csv.writer] applies to a float cell. *)
Class FloatText : Type :=
  { float_of_string : string -> option float;
    repr_float : float -> string }.

End PyFloat.

Import PyFloat.

(** ** Dictionaries in insertion order *)

Section Dict.

Variable V : Type.

Definition dict : Type := list (string * V).

Fixpoint dict_get (k : string) (d : dict) : option V :=
  match d with
  | [] => None
  | (k', v) :: r => if String.eqb k k' then Some v else dict_get k r
  end.

(** [d[k] = v]: an existing key keeps its place, a new key goes last. *)
Fixpoint dict_set (k : string) (v : V) (d : dict) : dict :=
  match d with
  | [] => [(k, v)]
  | (k', v') :: r =>
      if String.eqb k k' then (k, v) :: r else (k', v') :: dict_set k v r
  end.

Definition keys (d : dict) : list string := map fst d.

Definition values (d : dict) : list V := map snd d.

End Dict.

(** [enumerate(xs, start)] *)
Fixpoint enumerate {X : Type} (start : Z) (xs : list X) : list (Z * X) :=
  match xs with
  | [] => []
  | x :: r => (start, x) :: enumerate (start + 1) r
  end.

(** ** The data of the program *)

(** The value stored under an item name by [load_inventory]. *)
Record Item : Type :=
  { quantity : Z;
    price : float;
    units_per_box : Z;
    critical_level : Z;
    per_unit_price : float }.

Definition Inventory : Type := dict Item.

Definition with_quantity (q : Z) (it : Item) : Item :=
  {| quantity := q;
     price := price it;
     units_per_box := units_per_box it;
     critical_level := critical_level it;
     per_unit_price := per_unit_price it |}.

(** The value stored under an item name in [order] by [place_order]. *)
Record OrderLine : Type :=
  { qty : Z;
    unit_price : float;
    subtotal : float }.

(** A CSV file: its records, each a list of cells. *)
Definition csv_file : Type := list (list string).

(** ** The world: console, files and the shared table *)

Inductive event : Type :=
| Printed (line : string)
| Prompted (prompt : string).

Record World : Type :=
  { stdin : list string;
    stdout : list event;
    files : dict csv_file;
    table : Inventory }.

Definition emit (e : event) (w : World) : World :=
  {| stdin := stdin w; stdout := stdout w ++ [e]; files := files w; table := table w |}.

Definition with_stdin (l : list string) (w : World) : World :=
  {| stdin := l; stdout := stdout w; files := files w; table := table w |}.

Definition with_files (f : dict csv_file) (w : World) : World :=
  {| stdin := stdin w; stdout := stdout w; files := f; table := table w |}.

Definition with_table (t : Inventory) (w : World) : World :=
  {| stdin := stdin w; stdout := stdout w; files := files w; table := t |}.

Inductive exn : Type :=
| EOFError
| ValueError
| KeyError
| TypeError
| AttributeError
| IndexError
| ZeroDivisionError
| OverflowError
| FileNotFoundError.

Definition exn_eqb (a b : exn) : bool :=
  match a, b with
  | EOFError, EOFError | ValueError, ValueError | KeyError, KeyError
  | TypeError, TypeError | AttributeError, AttributeError
  | IndexError, IndexError | ZeroDivisionError, ZeroDivisionError
  | OverflowError, OverflowError | FileNotFoundError, FileNotFoundError => true
  | _, _ => false
  end.

(** How a computation ends: a value, an exception that propagates, or a
    loop that used up its fuel. *)
Inductive outcome (A : Type) : Type :=
| Ok (a : A)
| Raise (e : exn)
| OutOfFuel.

Arguments Raise {A} e.
Arguments OutOfFuel {A}.

Definition M (A : Type) : Type := World -> outcome A * World.

Definition ret {A : Type} (a : A) : M A := fun w => (Ok a, w).

Definition bind {A B : Type} (m : M A) (f : A -> M B) : M B :=
  fun w =>
    match m w with
    | (Ok a, w') => f a w'
    | (Raise e, w') => (Raise e, w')
    | (OutOfFuel, w') => (OutOfFuel, w')
    end.

Definition raise {A : Type} (e : exn) : M A := fun w => (Raise e, w).

Declare Scope py_scope.
Delimit Scope py_scope with py.
Notation "x <- m ;; k" := (bind m (fun x => k))
  (at level 100, m at next level, right associativity) : py_scope.
Notation "m ;; k" := (bind m (fun _ => k))
  (at level 100, right associativity) : py_scope.
Local Open Scope py_scope.

(** [try: body except e: handler] *)
Definition try_except {A : Type} (body : M A) (e : exn) (handler : M A) : M A :=
  fun w =>
    match body w with
    | (Raise e', w') => if exn_eqb e' e then handler w' else (Raise e', w')
    | r => r
    end.

(** [print(s)] *)
Definition print (s : string) : M unit := fun w => (Ok tt, emit (Printed s) w).

(** [input(prompt)]: writes the prompt, then reads one line; end of input
    raises [EOFError]. *)
Definition input (prompt : string) : M string :=
  fun w =>
    let w' := emit (Prompted prompt) w in
    match stdin w' with
    | [] => (Raise EOFError, w')
    | l :: r => (Ok l, with_stdin r w')
    end.

Definition get_table : M Inventory := fun w => (Ok (table w), w).

Definition set_table (t : Inventory) : M unit := fun w => (Ok tt, with_table t w).

(** [open(filename, mode='r')] followed by reading every record. *)
Definition read_csv (filename : string) : M csv_file :=
  fun w =>
    match dict_get filename (files w) with
    | None => (Raise FileNotFoundError, w)
    | Some rows => (Ok rows, w)
    end.

(** [open(filename, mode='w')]: the file is there and empty from then on. *)
Definition open_write (filename : string) : M unit :=
  fun w => (Ok tt, with_files (dict_set filename [] (files w)) w).

(** One record written to the file opened for writing; the records written
    before an exception stay in the file when the [with] block closes it. *)
Definition write_record (filename : string) (row : list string) : M unit :=
  fun w =>
    let rows := match dict_get filename (files w) with
                | Some rows => rows
                | None => []
                end in
    (Ok tt, with_files (dict_set filename (rows ++ [row])%list (files w)) w).

(** [for x in xs: body], with the local variables the body assigns as [s]. *)
Fixpoint for_each {X S : Type} (xs : list X) (body : X -> S -> M S) (s : S) : M S :=
  match xs with
  | [] => ret s
  | x :: r => s' <- body x s ;; for_each r body s'
  end.

(** What one iteration of a [while True] loop does next. *)
Inductive ctl (S R : Type) : Type :=
| Continue (s : S)
| Break (r : R).

Arguments Continue {S R} s.
Arguments Break {S R} r.

Fixpoint while_fuel {S R : Type} (fuel : nat) (body : S -> M (ctl S R)) (s : S) : M R :=
  fun w =>
    match fuel with
    | O => (OutOfFuel, w)
    | Datatypes.S k =>
        match body s w with
        | (Ok (Continue s'), w') => while_fuel k body s' w'
        | (Ok (Break r), w') => (Ok r, w')
        | (Raise e, w') => (Raise e, w')
        | (OutOfFuel, w') => (OutOfFuel, w')
        end
    end.

(** [while True: body] for a body that reads a line of input before it
    goes round again: one more round than there are lines left is enough. *)
Definition while_input {S R : Type} (body : S -> M (ctl S R)) (s : S) : M R :=
  fun w => while_fuel (Datatypes.S (List.length (stdin w))) body s w.

(** ** The program *)

Section Program.

Context {FT : FloatText} {PY : Python}.

(** GST rate used in final invoice *)
Definition GST_RATE : float := 0.05%float.

(** [x * n] and [n * x] for a float [x] and an int [n]. *)
Definition mul_float_int (x : float) (n : Z) : M float :=
  match float_of_Z n with
  | None => raise OverflowError
  | Some f => ret (PrimFloat.mul x f)
  end.

Definition mul_int_float (n : Z) (x : float) : M float :=
  match float_of_Z n with
  | None => raise OverflowError
  | Some f => ret (PrimFloat.mul f x)
  end.

(** [x / n] for a float [x] and an int [n]. *)
Definition div_float_int (x : float) (n : Z) : M float :=
  match float_of_Z n with
  | None => raise OverflowError
  | Some f => if PrimFloat.eqb f 0%float then raise ZeroDivisionError else ret (PrimFloat.div x f)
  end.

(** [int(s)] for a string read from the console. *)
Definition int_of_str (s : string) : M Z :=
  match py_int s with
  | None => raise ValueError
  | Some z => ret z
  end.

(** *** csv.DictReader *)

(** The dictionary [DictReader] builds from the field names and one record:
    [dict(zip(fieldnames, row))], then [None] for the fields a short record
    lacks.  (The entry a long record gets under the key [None] is left out:
    no string key reads it.) *)
Definition row_dict (fieldnames row : list string) : dict (option string) :=
  let d := fold_left (fun d kv => dict_set (fst kv) (Some (snd kv)) d) (combine fieldnames row) [] in
  fold_left (fun d k => dict_set k None d) (skipn (List.length row) fieldnames) d.

Definition is_blank (row : list string) : bool :=
  match row with
  | [] => true
  | _ => false
  end.

(** The rows [DictReader] yields: the first record gives the field names,
    blank records after it are skipped. *)
Definition dict_reader (rows : csv_file) : list (dict (option string)) :=
  match rows with
  | [] => []
  | fieldnames :: rest => map (row_dict fieldnames) (filter (fun r => negb (is_blank r)) rest)
  end.

(** [row[key]] *)
Definition row_cell (row : dict (option string)) (key : string) : M (option string) :=
  match dict_get key row with
  | None => raise KeyError
  | Some c => ret c
  end.

(** [int(row[key])] *)
Definition int_cell (row : dict (option string)) (key : string) : M Z :=
  c <- row_cell row key ;;
  match c with
  | None => raise TypeError
  | Some s => int_of_str s
  end.

(** [float(row[key])] *)
Definition float_cell (row : dict (option string)) (key : string) : M float :=
  c <- row_cell row key ;;
  match c with
  | None => raise TypeError
  | Some s =>
      match float_of_string s with
      | None => raise ValueError
      | Some x => ret x
      end
  end.

(** *** load_inventory *)

(** The body of the loop over the rows. *)
Definition load_row (row : dict (option string)) (inventory : Inventory) : M Inventory :=
  c <- row_cell row "name" ;;
  name <- match c with
          | None => raise AttributeError
          | Some s => ret (lower s)
          end ;;
  quantity <- int_cell row "quantity" ;;
  price <- float_cell row "price" ;;
  units <- int_cell row "units_per_box" ;;
  critical <- int_cell row "critical_level" ;;
  per_unit <- div_float_int price units ;;
  ret (dict_set name
         {| quantity := quantity;
            price := price;
            units_per_box := units;
            critical_level := critical;
            per_unit_price := per_unit |}
         inventory).

(** Only [open] raises [FileNotFoundError], with [inventory] still empty,
    which is what the function then returns. *)
Definition load_inventory (filename : string) : M Inventory :=
  try_except
    (rows <- read_csv filename ;;
     for_each (dict_reader rows) load_row [])
    FileNotFoundError
    (print "inventory.csv not found." ;;
     ret []).

(** *** save_inventory *)

Definition fieldnames : list string :=
  ["name"; "quantity"; "price"; "units_per_box"; "critical_level"].

(** The record [DictWriter.writerow] writes for one item: the values of the
    field names in order, each through [str]. *)
Definition item_record (entry : string * Item) : list string :=
  let (name, data) := entry in
  [name;
   str_int (quantity data);
   repr_float (price data);
   str_int (units_per_box data);
   str_int (critical_level data)].

(** [str] of an [int] cell, which raises [ValueError] beyond the digit
    limit. *)
Definition str_cell (z : Z) : M string :=
  match py_str_int z with
  | None => raise ValueError
  | Some s => ret s
  end.

(** [writer.writerow({...})] for one item: every cell is converted before
    anything of the record is written. *)
Definition save_row (filename : string) (entry : string * Item) (_ : unit) : M unit :=
  let (name, data) := entry in
  q <- str_cell (quantity data) ;;
  u <- str_cell (units_per_box data) ;;
  c <- str_cell (critical_level data) ;;
  write_record filename [name; q; repr_float (price data); u; c].

(** [open] empties the file, [writeheader] writes the field names, then
    the loop writes one record for each item. *)
Definition save_inventory (filename : string) : M unit :=
  inventory <- get_table ;;
  open_write filename ;;
  write_record filename fieldnames ;;
  for_each inventory (save_row filename) tt.

(** *** show_inventory *)

Definition inventory_line (entry : Z * (string * Item)) : string :=
  let '(i, (name, item)) := entry in
  ljust 3 (str_int i) ++ " " ++ ljust 20 (title name) ++ " "
  ++ ljust 8 (str_int (quantity item)) ++ " $" ++ ljust 9 (format_fixed 2 (price item))
  ++ " $" ++ ljust 10 (format_fixed 3 (per_unit_price item)).

Definition show_inventory : M unit :=
  inventory <- get_table ;;
  print (nl ++ "======================== INVENTORY ========================") ;;
  print (ljust 3 "No." ++ " " ++ ljust 20 "Item" ++ " " ++ ljust 8 "Boxes" ++ " "
         ++ ljust 10 "Box Price" ++ " " ++ ljust 10 "Per Unit") ;;
  for_each (enumerate 1 inventory) (fun entry _ => print (inventory_line entry)) tt ;;
  print (repeat_str "=" 40).

(** *** show_low_stock_alerts *)

Definition alert_line (name : string) (item : Item) : string :=
  "- " ++ title name ++ ": Only " ++ str_int (quantity item)
  ++ " boxes left (Critical: " ++ str_int (critical_level item) ++ ")".

(** The body of the loop, with the local variable [found]. *)
Definition alert_body (entry : string * Item) (found : bool) : M bool :=
  let (name, item) := entry in
  if quantity item <? critical_level item
  then print (alert_line name item) ;; ret true
  else ret found.

Definition show_low_stock_alerts : M unit :=
  inventory <- get_table ;;
  print (nl ++ " !!! LOW STOCK ALERTS !!!") ;;
  found <- for_each inventory alert_body false ;;
  if negb found then print "All products are sufficiently stocked." else ret tt.

(** [inventory[name]['quantity'] = q] *)
Definition set_quantity (name : string) (q : Z) : M unit :=
  inventory <- get_table ;;
  match dict_get name inventory with
  | None => raise KeyError
  | Some item => set_table (dict_set name (with_quantity q item) inventory)
  end.

(** [inventory[name]] *)
Definition get_item (name : string) : M Item :=
  inventory <- get_table ;;
  match dict_get name inventory with
  | None => raise KeyError
  | Some item => ret item
  end.

(** *** daily_inventory_entry *)

Definition daily_entry_body (entry : Z * (string * Item)) (_ : unit) : M unit :=
  let '(i, (name, item)) := entry in
  try_except
    (line <- input (str_int i ++ ". " ++ title name ++ " - Boxes on hand: ") ;;
     new_qty <- int_of_str line ;;
     set_quantity name new_qty)
    ValueError
    (print "Invalid input, skipping.").

Definition daily_inventory_entry : M unit :=
  inventory <- get_table ;;
  print (nl ++ "================= Daily Inventory Entry =================") ;;
  for_each (enumerate 1 inventory) daily_entry_body tt.

(** *** place_order *)

Definition Order : Type := dict OrderLine.

(** One round of the [while True] loop that collects the picks. *)
Definition order_body (items : list string) (order : Order) : M (ctl Order Order) :=
  line <- input "Enter product number to order (or 'done'): " ;;
  let choice := lower (strip line) in
  if String.eqb choice "done" then ret (Break order)
  else if negb (isdigit choice) then print "Invalid choice." ;; ret (Continue order)
  else
    n <- int_of_str choice ;;
    if negb ((1 <=? n) && (n <=? Z.of_nat (List.length items))) then
      print "Invalid choice." ;; ret (Continue order)
    else
      let idx := n - 1 in
      name <- match nth_error items (Z.to_nat idx) with
              | None => raise IndexError
              | Some name => ret name
              end ;;
      try_except
        (line <- input ("How many boxes of " ++ title name ++ " to order? ") ;;
         qty <- int_of_str line ;;
         if qty <=? 0 then print "Must be > 0" ;; ret (Continue order)
         else
           item <- get_item name ;;
           let box_price := price item in
           sub <- mul_float_int box_price qty ;;
           let order := dict_set name {| qty := qty; unit_price := box_price; subtotal := sub |} order in
           item <- get_item name ;;
           set_quantity name (quantity item + qty) ;;
           ret (Continue order))
        ValueError
        (print "Invalid quantity." ;; ret (Continue order)).

Definition order_line (entry : string * OrderLine) : string :=
  let (name, item) := entry in
  ljust 20 (title name) ++ " " ++ ljust 6 (str_int (qty item)) ++ " $"
  ++ ljust 11 (format_fixed 2 (unit_price item)) ++ " $"
  ++ ljust 10 (format_fixed 2 (subtotal item)).

Definition order_total (order : Order) : float :=
  py_sum (map subtotal (values order)).

Definition order_gst (order : Order) : float :=
  PrimFloat.mul (order_total order) GST_RATE.

Definition order_grand_total (order : Order) : float :=
  PrimFloat.add (order_total order) (order_gst order).

Definition order_summary (order : Order) : M unit :=
  match order with
  | [] => ret tt
  | _ =>
      print (nl ++ "=== Order Summary ===") ;;
      let total := order_total order in
      let gst := order_gst order in
      let grand_total := order_grand_total order in
      print (ljust 20 "Item" ++ " " ++ ljust 6 "Boxes" ++ " " ++ ljust 12 "Unit Price"
             ++ " " ++ ljust 10 "Subtotal") ;;
      for_each order (fun entry _ => print (order_line entry)) tt ;;
      print (repeat_str "-" 50) ;;
      print ("Subtotal: $" ++ format_fixed 2 total) ;;
      print ("GST (5%): $" ++ format_fixed 2 gst) ;;
      print ("Total: $" ++ format_fixed 2 grand_total)
  end.

Definition place_order : M unit :=
  show_inventory ;;
  print (nl ++ "================= Place Order =================") ;;
  inventory <- get_table ;;
  let items := keys inventory in
  order <- while_input (order_body items) [] ;;
  order_summary order.

(** *** waste_entry *)

(** [total_waste_cost] starts as the int [0]; as a float that is [0.0],
    which adds and prints the same. *)
Definition waste_body (entry : Z * (string * Item)) (total_waste_cost : float) : M float :=
  let '(i, (name, item)) := entry in
  try_except
    (line <- input (str_int i ++ ". " ++ title name ++ " - Units wasted: ") ;;
     units_wasted <- int_of_str line ;;
     cost <- mul_int_float units_wasted (per_unit_price item) ;;
     ret (PrimFloat.add total_waste_cost cost))
    ValueError
    (print "Invalid input, skipping." ;; ret total_waste_cost).

Definition waste_entry : M unit :=
  inventory <- get_table ;;
  print (nl ++ "=== Waste Tracking ===") ;;
  total_waste_cost <- for_each (enumerate 1 inventory) waste_body 0%float ;;
  print ("Total cost of waste: $" ++ format_fixed 2 total_waste_cost).

(** *** main *)

Definition menu_text : string :=
  nl ++ "========== MENU ==========" ++ nl
  ++ "1. View Inventory" ++ nl
  ++ "2. Daily Inventory Entry" ++ nl
  ++ "3. Place Order (with GST)" ++ nl
  ++ "4. Log Wasted Products" ++ nl
  ++ "5. Save and Exit" ++ nl
  ++ "==========================" ++ nl.

(** One round of the menu loop. *)
Definition menu_body (filename : string) (_ : unit) : M (ctl unit unit) :=
  print menu_text ;;
  line <- input "Choose an option: " ;;
  let option := strip line in
  if String.eqb option "1" then
    show_low_stock_alerts ;; show_inventory ;; ret (Continue tt)
  else if String.eqb option "2" then
    show_low_stock_alerts ;; daily_inventory_entry ;; ret (Continue tt)
  else if String.eqb option "3" then
    show_low_stock_alerts ;; place_order ;; ret (Continue tt)
  else if String.eqb option "4" then
    waste_entry ;; ret (Continue tt)
  else if String.eqb option "5" then
    save_inventory filename ;; print "Saved and exiting." ;; ret (Break tt)
  else
    print "Invalid option." ;; ret (Continue tt).

Definition main : M unit :=
  let filename := "inventory.csv" in
  inventory <- load_inventory filename ;;
  set_table inventory ;;
  show_low_stock_alerts ;;
  while_input (menu_body filename) tt.

End Program.

(** ** A float/text instance to run the model with

    Plain decimal literals ([-]digits[.digits]) read with correct rounding,
    as [float] reads them, and floats written as their exact decimal
    expansion, which reads back as the same float and is what [repr] gives
    for floats such as 20.0 or 12.5. *)

Module DecimalText.

Fixpoint split_dot (s : string) : string * option string :=
  match s with
  | EmptyString => (EmptyString, None)
  | String c r =>
      if Ascii.eqb c "." then (EmptyString, Some r)
      else let (a, b) := split_dot r in (String c a, b)
  end.

Definition ratio_float (neg : bool) (n : Z) (k : nat) : float :=
  match n with
  | Zpos p =>
      match 10 ^ Z.of_nat k with
      | Zpos q => SF2Prim (SFdiv prec emax (S754_finite neg p 0) (S754_finite false q 0))
      | _ => SF2Prim S754_nan
      end
  | _ => SF2Prim (S754_zero neg)
  end.

Definition unsigned_of_string (neg : bool) (s : string) : option float :=
  let (ip, fp) := split_dot s in
  let fp := match fp with Some f => f | None => EmptyString end in
  if isdigit ip && all_chars is_digit fp then
    option_map (fun n => ratio_float neg n (String.length fp)) (digits_value (ip ++ fp))
  else None.

Definition of_string (s : string) : option float :=
  match strip s with
  | String "-" r => unsigned_of_string true r
  | r => unsigned_of_string false r
  end.

Fixpoint rstrip_zeros (s : string) : string :=
  match s with
  | EmptyString => EmptyString
  | String c r =>
      match rstrip_zeros r with
      | EmptyString => if Ascii.eqb c "0" then EmptyString else String c EmptyString
      | r' => String c r'
      end
  end.

Definition to_string (x : float) : string :=
  match Prim2SF x with
  | S754_nan => "nan"
  | S754_infinity s => sign_str s ++ "inf"
  | S754_zero s => sign_str s ++ "0.0"
  | S754_finite s m e =>
      if 0 <=? e then sign_str s ++ str_int (Zpos m * 2 ^ e) ++ ".0"
      else
        let k := Z.to_nat (- e) in
        let ds := fixed_digits k (Zpos m * 5 ^ (- e)) in
        let ip := fst (split_dot ds) in
        let fp := match snd (split_dot ds) with Some f => rstrip_zeros f | None => EmptyString end in
        sign_str s ++ ip ++ "." ++ (if String.eqb fp "" then "0" else fp)
  end.

#[export] Instance text : FloatText :=
  {| float_of_string := of_string; repr_float := to_string |}.

End DecimalText.

(** ** Vocabulary of the statements *)

(** The world after the events [l] were written to the console. *)
Definition emits (l : list event) (w : World) : World :=
  {| stdin := stdin w; stdout := (stdout w ++ l)%list; files := files w; table := table w |}.

(** An item is low on stock: [item['quantity'] < item['critical_level']]. *)
Definition is_low (entry : string * Item) : bool :=
  quantity (snd entry) <? critical_level (snd entry).

Definition alert_event (entry : string * Item) : event :=
  Printed (alert_line (fst entry) (snd entry)).

Definition scan_header : event := Printed (nl ++ " !!! LOW STOCK ALERTS !!!").

Definition stocked_event : event := Printed "All products are sufficiently stocked.".

(** The store is untouched: same table, same files. *)
Definition same_store (w w' : World) : Prop :=
  table w' = table w /\ files w' = files w.

(** Everything about a table except the quantities. *)
Definition fixed_fields (it : Item) : float * Z * Z * float :=
  (price it, units_per_box it, critical_level it, per_unit_price it).

Definition frozen (t : Inventory) : list (string * (float * Z * Z * float)) :=
  map (fun e => (fst e, fixed_fields (snd e))) t.

(** Only quantities may differ between the tables of the two worlds. *)
Definition only_quantities (w w' : World) : Prop :=
  frozen (table w') = frozen (table w).

(** No line was put back on the input. *)
Definition reads_on (w w' : World) : Prop :=
  (List.length (stdin w') <= List.length (stdin w))%nat.

(** *** Picks

    A line typed at the product prompt selects the item [name] of the
    list [items] shown: it is the row number of that item. *)
Definition selects (items : list string) (line name : string) : Prop :=
  let choice := lower (strip line) in
  isdigit choice = true
  /\ exists n, py_int choice = Some n
             /\ 1 <= n <= Z.of_nat (List.length items)
             /\ nth_error items (Z.to_nat (n - 1)) = Some name.

(** What the loop makes of a line typed at the product prompt. *)
Inductive choice : Type :=
| ChDone
| ChInvalid
| ChItem (name : string)
| ChError.

Definition read_choice (items : list string) (line : string) : choice :=
  let c := lower (strip line) in
  if String.eqb c "done" then ChDone
  else if negb (isdigit c) then ChInvalid
  else
    match py_int c with
    | None => ChError
    | Some n =>
        if negb ((1 <=? n) && (n <=? Z.of_nat (List.length items))) then ChInvalid
        else
          match nth_error items (Z.to_nat (n - 1)) with
          | Some name => ChItem name
          | None => ChError
          end
    end.

(** The picks the loop records from the lines typed, in order, until the
    sentinel, an exception or the end of the input: an item chosen and a
    positive number of boxes for it. *)
Fixpoint accepted_picks (items lines : list string) : list (string * Z) :=
  match lines with
  | [] => []
  | line :: rest =>
      match read_choice items line with
      | ChDone | ChError => []
      | ChInvalid => accepted_picks items rest
      | ChItem name =>
          match rest with
          | [] => []
          | ql :: rest' =>
              match py_int ql with
              | None => accepted_picks items rest'
              | Some q =>
                  if q <=? 0 then accepted_picks items rest'
                  else (name, q) :: accepted_picks items rest'
              end
          end
      end
  end.

(** The quantities picked for the item [name], in order. *)
Definition picked_for (name : string) (picks : list (string * Z)) : list Z :=
  map snd (filter (fun p => String.eqb (fst p) name) picks).

Definition sum_Z (l : list Z) : Z := fold_right Z.add 0 l.

(** The order line the source builds for [q] boxes of an item. *)
Definition line_for (item : Item) (q : Z) (fq : float) : OrderLine :=
  {| qty := q; unit_price := price item; subtotal := PrimFloat.mul (price item) fq |}.

Definition prompt_choice : event := Prompted "Enter product number to order (or 'done'): ".

Definition prompt_boxes (name : string) : event :=
  Prompted ("How many boxes of " ++ title name ++ " to order? ").

(** *** Counts

    What the count updater makes of the line typed for one item. *)
Definition entered (entry : string * Item) (line : string) : string * Item :=
  match py_int line with
  | Some v => (fst entry, with_quantity v (snd entry))
  | None => entry
  end.

Definition count_update (t : Inventory) (lines : list string) : Inventory :=
  map (fun p => entered (fst p) (snd p)) (combine t lines).

(** *** Rows

    A row of the file is well formed when all five cells are there and
    parse, and the division by the units per box is defined; it then
    stands for the item [item] under the key [name]. *)
Definition row_parses {FT : FloatText} (row : dict (option string)) (name : string) (item : Item) : Prop :=
  exists name_s qs ps us cs fu,
    dict_get "name" row = Some (Some name_s) /\ name = lower name_s
    /\ dict_get "quantity" row = Some (Some qs) /\ py_int qs = Some (quantity item)
    /\ dict_get "price" row = Some (Some ps) /\ float_of_string ps = Some (price item)
    /\ dict_get "units_per_box" row = Some (Some us) /\ py_int us = Some (units_per_box item)
    /\ dict_get "critical_level" row = Some (Some cs) /\ py_int cs = Some (critical_level item)
    /\ float_of_Z (units_per_box item) = Some fu
    /\ PrimFloat.eqb fu 0%float = false
    /\ per_unit_price item = PrimFloat.div (price item) fu.

(** The table built from the entries of the rows, first to last. *)
Definition table_of (entries : list (string * Item)) (start : Inventory) : Inventory :=
  fold_left (fun d e => dict_set (fst e) (snd e) d) entries start.

(** What [show_inventory] prints for a table. *)
Definition listing (t : Inventory) : list event :=
  (Printed (nl ++ "======================== INVENTORY ========================")
   :: Printed (ljust 3 "No." ++ " " ++ ljust 20 "Item" ++ " " ++ ljust 8 "Boxes" ++ " "
               ++ ljust 10 "Box Price" ++ " " ++ ljust 10 "Per Unit")
   :: map (fun entry => Printed (inventory_line entry)) (enumerate 1 t)
   ++ [Printed (repeat_str "=" 40)])%list.

(** The three lines that close the order summary: the sum of the line
    subtotals, 5% of it, and the two added, each with two decimals. *)
Definition totals {PY : Python} (order : Order) : list event :=
  let t := py_sum (map (fun e => subtotal (snd e)) order) in
  [Printed ("Subtotal: $" ++ format_fixed 2 t);
   Printed ("GST (5%): $" ++ format_fixed 2 (PrimFloat.mul t 0.05%float));
   Printed ("Total: $" ++ format_fixed 2 (PrimFloat.add t (PrimFloat.mul t 0.05%float)))].

(** *** Saving

    The counts of an item can be written: none has more digits than [str]
    accepts. *)
Definition writable (it : Item) : bool :=
  digits_fit (quantity it) && digits_fit (units_per_box it)
  && digits_fit (critical_level it).

(** The quantities of a table can be listed: none has more digits than
    a formatted line may show. *)
Definition listable (t : Inventory) : bool :=
  forallb (fun e => digits_fit (quantity (snd e))) t.

(** The items written before the first whose counts cannot be. *)
Fixpoint written (t : Inventory) : Inventory :=
  match t with
  | [] => []
  | e :: r => if writable (snd e) then e :: written r else []
  end.

(** *** Sample data *)

Definition sample_file : csv_file :=
  [ ["name"; "quantity"; "price"; "units_per_box"; "critical_level"];
    ["Patty"; "10"; "20.00"; "50"; "5"];
    ["Big Mac Bun"; "2"; "12.50"; "48"; "5"] ].

Definition sample_world (lines : list string) : World :=
  {| stdin := lines;
     stdout := [];
     files := [("inventory.csv", sample_file)];
     table := [] |}.

Definition sample_patty : Item :=
  {| quantity := 10; price := 20%float; units_per_box := 50; critical_level := 5;
     per_unit_price := 0.4%float |}.

Definition sample_bun : Item :=
  {| quantity := 2; price := 12.5%float; units_per_box := 48; critical_level := 5;
     per_unit_price := PrimFloat.div 12.5%float 48%float |}.

(** The table the sample file loads as. *)
Definition sample_table : Inventory :=
  [("patty", sample_patty); ("big mac bun", sample_bun)].

(** The world of a running session over the sample table. *)
Definition session (lines : list string) : World :=
  {| stdin := lines;
     stdout := [];
     files := [("inventory.csv", sample_file)];
     table := sample_table |}.

(** A file with two rows for one name. *)
Definition collision_file : csv_file :=
  [ ["name"; "quantity"; "price"; "units_per_box"; "critical_level"];
    ["Patty"; "10"; "20.00"; "50"; "5"];
    ["PATTY"; "3"; "21.00"; "50"; "5"] ].

Definition collision_world : World :=
  {| stdin := [];
     stdout := [];
     files := [("inventory.csv", collision_file)];
     table := [] |}.

(** The table the file with the collision loads as. *)
Definition collision_table : Inventory :=
  [("patty",
    {| quantity := 3; price := 21%float; units_per_box := 50; critical_level := 5;
       per_unit_price := PrimFloat.div 21%float 50%float |})].

(** A session over one item priced 1.50 a box. *)
Definition fries_table : Inventory :=
  [("fries",
    {| quantity := 10; price := 1.5%float; units_per_box := 10; critical_level := 2;
       per_unit_price := 0.15%float |})].

Definition fries_session (lines : list string) : World :=
  {| stdin := lines; stdout := []; files := []; table := fries_table |}.

(** A file whose one item has as many boxes as 4300 digits can say. *)
Definition brim_world (lines : list string) : World :=
  {| stdin := lines;
     stdout := [];
     files := [("inventory.csv",
                [ ["name"; "quantity"; "price"; "units_per_box"; "critical_level"];
                  ["Patty"; repeat_str "9" 4300; "20.00"; "50"; "5"] ])];
     table := [] |}.

(** A table whose second item has a count of 4301 digits. *)
Definition overfull_table : Inventory :=
  [("patty", sample_patty);
   ("big mac bun",
    {| quantity := 10 ^ 4300; price := 12.5%float; units_per_box := 48; critical_level := 5;
       per_unit_price := PrimFloat.div 12.5%float 48%float |});
   ("fries",
    {| quantity := 10; price := 1.5%float; units_per_box := 10; critical_level := 2;
       per_unit_price := 0.15%float |})].

(** *** More vocabulary: files, input and the menu *)

(** The files are untouched. *)
Definition same_files (w w' : World) : Prop := files w' = files w.

(** The lines still to be read are the last of the lines there were. *)
Definition input_suffix (w w' : World) : Prop :=
  exists pre, stdin w = (pre ++ stdin w')%list.

(** The world after option 5 was typed at the menu of the world [w]. *)
Definition saved_world {FT : FloatText} (filename : string) (rest : list string) (w : World) : World :=
  with_files (dict_set filename (fieldnames :: map item_record (table w)) (files w))
    (with_stdin rest
       (emits [Printed menu_text; Prompted "Choose an option: ";
               Printed "Saved and exiting."] w)).

(** A line typed at the menu that is none of the five options. *)
Definition no_option (line : string) : Prop :=
  let o := strip line in
  o <> "1" /\ o <> "2" /\ o <> "3" /\ o <> "4" /\ o <> "5".

(** The total the waste logger reaches from [acc] over the items still
    to be asked about: a line that is an integer adds
    [float(units) * per_unit_price], any other line adds nothing, and an
    integer beyond the floats ends the logger ([None]). *)
Fixpoint waste_total (t : Inventory) (lines : list string) (acc : float) : option float :=
  match t, lines with
  | (_, item) :: t', line :: lines' =>
      match py_int line with
      | None => waste_total t' lines' acc
      | Some u =>
          match float_of_Z u with
          | None => None
          | Some f => waste_total t' lines' (PrimFloat.add acc (PrimFloat.mul f (per_unit_price item)))
          end
      end
  | _, _ => Some acc
  end.

(** What the low-stock scan prints for a table. *)
Definition scan_events (t : Inventory) : list event :=
  (scan_header :: map alert_event (filter is_low t)
   ++ (if existsb is_low t then [] else [stocked_event]))%list.

(** Files that do not load: a quantity that is no number, and zero units. *)
Definition bad_quantity_world : World :=
  {| stdin := ["5"];
     stdout := [];
     files := [("inventory.csv",
                [ ["name"; "quantity"; "price"; "units_per_box"; "critical_level"];
                  ["Patty"; "ten"; "20.00"; "50"; "5"] ])];
     table := [] |}.

Definition zero_units_world : World :=
  {| stdin := ["5"];
     stdout := [];
     files := [("inventory.csv",
                [ ["name"; "quantity"; "price"; "units_per_box"; "critical_level"];
                  ["Patty"; "10"; "20.00"; "0"; "5"] ])];
     table := [] |}.

(** A file with the header and blank records only. *)
Definition blank_world : World :=
  {| stdin := [];
     stdout := [];
     files := [("inventory.csv",
                [ ["name"; "quantity"; "price"; "units_per_box"; "critical_level"]; []; [] ])];
     table := [] |}.

(** * Properties *)

Unset Implicit Arguments.
Local Open Scope py_scope.

(** ** Strings and integers *)

Lemma all_chars_impl (p q : ascii -> bool) (s : string) :
  (forall c, p c = true -> q c = true) -> all_chars p s = true -> all_chars q s = true.
Proof.
  intros Hpq; induction s as [|c r IH]; simpl; auto.
  intros H; apply andb_true_iff in H as [Hc Hr].
  rewrite (Hpq _ Hc), (IH Hr); reflexivity.
Qed.




Lemma digit_not_int_space (c : ascii) : is_digit c = true -> is_int_space c = false.
Proof.
  unfold is_digit, is_int_space; intros H.
  apply andb_true_iff in H as [H1 H2].
  apply N.leb_le in H1; apply N.leb_le in H2.
  destruct (9 <=? code c)%N eqn:E1, (code c <=? 13)%N eqn:E2,
    (code c =? 32)%N eqn:E3; simpl; try reflexivity;
    repeat match goal with
      | H : (_ <=? _)%N = true |- _ => apply N.leb_le in H
      | H : (_ <=? _)%N = false |- _ => apply N.leb_gt in H
      | H : (_ =? _)%N = true |- _ => apply N.eqb_eq in H
      end; lia.
Qed.

Lemma int_rstrip_no_space (s : string) :
  all_chars (fun c => negb (is_int_space c)) s = true -> int_rstrip s = s.
Proof.
  induction s as [|c r IH]; simpl; auto.
  intros H; apply andb_true_iff in H as [Hc Hr].
  rewrite (IH Hr). apply negb_true_iff in Hc. rewrite Hc.
  destruct r; reflexivity.
Qed.

Lemma int_strip_no_space (s : string) :
  all_chars (fun c => negb (is_int_space c)) s = true -> int_strip s = s.
Proof.
  intros H; unfold int_strip.
  replace (int_lstrip s) with s; [apply int_rstrip_no_space, H|].
  destruct s as [|c r]; simpl in *; auto.
  apply andb_true_iff in H as [Hc _]; apply negb_true_iff in Hc; rewrite Hc; auto.
Qed.

Lemma int_strip_digits (s : string) : all_chars is_digit s = true -> int_strip s = s.
Proof.
  intros H; apply int_strip_no_space.
  apply all_chars_impl with (p := is_digit); auto.
  intros c Hc; rewrite (digit_not_int_space c Hc); reflexivity.
Qed.

Lemma int_body_digits (s : string) (b : bool) :
  s <> EmptyString -> all_chars is_digit s = true -> int_body b s = Some s.
Proof.
  revert b; induction s as [|c r IH]; intros b Hne H; [congruence|].
  simpl in *; apply andb_true_iff in H as [Hc Hr]; rewrite Hc.
  destruct r as [|c' r'].
  - reflexivity.
  - rewrite IH; auto; discriminate.
Qed.

Lemma string_of_uint_digits (u : Decimal.uint) :
  all_chars is_digit (NilEmpty.string_of_uint u) = true.
Proof. induction u; simpl; auto. Qed.

Lemma string_of_uint_nonempty (u : Decimal.uint) :
  u <> Decimal.Nil -> NilEmpty.string_of_uint u <> EmptyString.
Proof. destruct u; simpl; congruence. Qed.

Lemma string_of_uint_length (u : Decimal.uint) :
  String.length (NilEmpty.string_of_uint u) = Decimal.nb_digits u.
Proof. induction u; simpl; auto. Qed.

Lemma nilzero_string_of_uint (u : Decimal.uint) :
  u <> Decimal.Nil -> NilZero.string_of_uint u = NilEmpty.string_of_uint u.
Proof. destruct u; simpl; congruence. Qed.

Lemma unsigned_int_string_of_uint (u : Decimal.uint) :
  u <> Decimal.Nil ->
  (String.length (NilEmpty.string_of_uint u) <=? max_str_digits)%nat = true ->
  unsigned_int (NilEmpty.string_of_uint u) = Some (Z.of_N (N.of_uint u)).
Proof.
  intros Hu Hlen; unfold unsigned_int.
  rewrite int_body_digits;
    auto using string_of_uint_digits, string_of_uint_nonempty.
  rewrite Hlen.
  unfold digits_value; rewrite NilEmpty.usu; reflexivity.
Qed.

Lemma py_int_unsigned (s : string) :
  s <> EmptyString -> all_chars is_digit s = true -> py_int s = unsigned_int s.
Proof.
  intros Hne Hd; unfold py_int.
  rewrite int_strip_digits by assumption.
  destruct s as [|c r]; [congruence|].
  simpl in Hd; apply andb_true_iff in Hd as [Hc _].
  destruct (Ascii.eqb c "-") eqn:E1.
  { apply Ascii.eqb_eq in E1; subst c; discriminate. }
  destruct (Ascii.eqb c "+") eqn:E2.
  { apply Ascii.eqb_eq in E2; subst c; discriminate. }
  reflexivity.
Qed.

(** [int(str(n)) == n] for an [n] that [str] accepts. *)
Lemma py_int_str_int (z : Z) : digits_fit z = true -> py_int (str_int z) = Some z.
Proof.
  unfold digits_fit, str_int; destruct z as [|p|p]; intros Hfit.
  - reflexivity.
  - cbn [Z.abs Z.to_int NilZero.string_of_int] in *.
    pose proof (Unsigned.to_uint_nonnil p) as Hn.
    rewrite nilzero_string_of_uint in * by assumption.
    rewrite py_int_unsigned
      by auto using string_of_uint_nonempty, string_of_uint_digits.
    rewrite unsigned_int_string_of_uint by assumption.
    rewrite Unsigned.of_to; reflexivity.
  - cbn [Z.abs Z.to_int NilZero.string_of_int] in *.
    pose proof (Unsigned.to_uint_nonnil p) as Hn.
    rewrite nilzero_string_of_uint in * by assumption.
    unfold py_int.
    assert (Hs : int_strip (String "-" (NilEmpty.string_of_uint (Pos.to_uint p)))
                 = String "-" (NilEmpty.string_of_uint (Pos.to_uint p))).
    { apply int_strip_no_space; simpl.
      apply all_chars_impl with (p := is_digit);
        [ intros c Hc; rewrite (digit_not_int_space c Hc); reflexivity
        | apply string_of_uint_digits ]. }
    rewrite Hs; simpl.
    rewrite unsigned_int_string_of_uint by assumption.
    rewrite Unsigned.of_to; reflexivity.
Qed.

Lemma unsigned_int_fits (s : string) (z : Z) :
  unsigned_int s = Some z -> 0 <= z /\ digits_fit z = true.
Proof.
  unfold unsigned_int, digits_value.
  destruct (int_body false s) as [ds|]; [|discriminate].
  destruct (String.length ds <=? max_str_digits)%nat eqn:Hlen; [|discriminate].
  destruct (NilEmpty.uint_of_string ds) as [u|] eqn:Hu; [|discriminate].
  simpl; intros H; injection H as <-.
  split; [lia|].
  apply NilEmpty.sus in Hu; subst ds.
  rewrite string_of_uint_length in Hlen.
  unfold digits_fit, str_int.
  rewrite Z.abs_eq by lia.
  destruct (N.of_uint u) as [|p] eqn:Hp; [reflexivity|].
  cbn [Z.of_N Z.to_int NilZero.string_of_int].
  pose proof (DecimalN.Unsigned.to_of u) as Hto.
  rewrite Hp in Hto; cbn [N.to_uint] in Hto.
  rewrite Hto.
  assert (Hnil : u <> Decimal.Nil) by (intros ->; discriminate).
  rewrite nilzero_string_of_uint, string_of_uint_length
    by (rewrite <- Hto; apply Unsigned.to_uint_nonnil).
  apply Nat.leb_le; apply Nat.leb_le in Hlen.
  pose proof (nb_digits_unorm u Hnil); lia.
Qed.

(** What [int] reads, [str] writes. *)
Lemma py_int_fits (s : string) (z : Z) : py_int s = Some z -> digits_fit z = true.
Proof.
  unfold py_int; destruct (int_strip s) as [|c r]; [discriminate|].
  destruct (Ascii.eqb c "-").
  - destruct (unsigned_int r) as [z'|] eqn:E; [|discriminate].
    simpl; intros H; injection H as <-.
    apply unsigned_int_fits in E as [_ E].
    unfold digits_fit in *; rewrite Z.abs_opp; exact E.
  - destruct (Ascii.eqb c "+"); intros H; apply unsigned_int_fits in H; tauto.
Qed.

(** More digits than the limit are not read. *)
Lemma py_int_overlong (s : string) :
  isdigit s = true -> (max_str_digits < String.length s)%nat -> py_int s = None.
Proof.
  intros Hd Hlen.
  assert (Hne : s <> EmptyString) by (intros ->; discriminate).
  assert (Hall : all_chars is_digit s = true) by (destruct s; [discriminate | exact Hd]).
  rewrite py_int_unsigned by assumption.
  unfold unsigned_int; rewrite int_body_digits by assumption.
  apply Nat.leb_gt in Hlen; rewrite Hlen; reflexivity.
Qed.

Lemma py_int_reread (s : string) (z : Z) : py_int s = Some z -> py_int (str_int z) = Some z.
Proof. intros H; apply py_int_str_int, (py_int_fits s z H). Qed.

Lemma lower_char_idem (c : ascii) : lower_char (lower_char c) = lower_char c.
Proof.
  destruct c as [[] [] [] [] [] [] [] []]; reflexivity.
Qed.

(** [s.lower().lower() == s.lower()] *)
Lemma lower_idem (s : string) : lower (lower s) = lower s.
Proof.
  induction s as [|c r IH]; simpl; [reflexivity|].
  rewrite lower_char_idem, IH; reflexivity.
Qed.

(** ** Dictionaries *)

Section DictFacts.

Variable V : Type.
Implicit Types (d : dict V) (k : string) (v : V).

Lemma dict_get_set_same k v d : dict_get k (dict_set k v d) = Some v.
Proof.
  induction d as [|[k' v'] r IH]; simpl.
  - rewrite String.eqb_refl; reflexivity.
  - destruct (String.eqb k k') eqn:E; simpl.
    + rewrite String.eqb_refl; reflexivity.
    + rewrite E; exact IH.
Qed.

Lemma dict_get_set_other k k' v d :
  k <> k' -> dict_get k' (dict_set k v d) = dict_get k' d.
Proof.
  intros Hne; induction d as [|[k2 v2] r IH]; simpl.
  - destruct (String.eqb k' k) eqn:E; [apply String.eqb_eq in E; congruence | reflexivity].
  - destruct (String.eqb k k2) eqn:E; simpl.
    + apply String.eqb_eq in E; subst k2.
      destruct (String.eqb k' k) eqn:E'; [apply String.eqb_eq in E'; congruence | reflexivity].
    + rewrite IH; reflexivity.
Qed.

Lemma dict_get_none k d : dict_get k d = None <-> ~ In k (keys d).
Proof.
  induction d as [|[k' v'] r IH]; simpl; [tauto|].
  destruct (String.eqb k k') eqn:E.
  - apply String.eqb_eq in E; subst; split; [discriminate | tauto].
  - apply String.eqb_neq in E; rewrite IH; split; [intros H [H'|H']; congruence | tauto].
Qed.

Lemma dict_get_in k v d : dict_get k d = Some v -> In (k, v) d.
Proof.
  induction d as [|[k' v'] r IH]; simpl; [discriminate|].
  destruct (String.eqb k k') eqn:E.
  - apply String.eqb_eq in E; subst; intros [= ->]; auto.
  - auto.
Qed.

Lemma dict_get_in_keys k v d : dict_get k d = Some v -> In k (keys d).
Proof. intros H; apply dict_get_in in H; apply (in_map fst) in H; exact H. Qed.

Lemma dict_in_get k v d : NoDup (keys d) -> In (k, v) d -> dict_get k d = Some v.
Proof.
  induction d as [|[k' v'] r IH]; simpl; [tauto|].
  intros Hnd [H|H].
  - injection H as -> ->; rewrite String.eqb_refl; reflexivity.
  - inversion Hnd as [|? ? Hni Hnd']; subst.
    destruct (String.eqb k k') eqn:E.
    + apply String.eqb_eq in E; subst. exfalso; apply Hni.
      apply (in_map fst) in H; exact H.
    + auto.
Qed.

Lemma dict_set_set k v v' d : dict_set k v (dict_set k v' d) = dict_set k v d.
Proof.
  induction d as [|[k' v0] r IH]; simpl.
  - rewrite String.eqb_refl; reflexivity.
  - destruct (String.eqb k k') eqn:E; simpl.
    + rewrite String.eqb_refl; reflexivity.
    + rewrite E, IH; reflexivity.
Qed.

Lemma keys_dict_set_present k v d :
  In k (keys d) -> keys (dict_set k v d) = keys d.
Proof.
  induction d as [|[k' v'] r IH]; simpl; [tauto|].
  intros H; destruct (String.eqb k k') eqn:E; simpl.
  - apply String.eqb_eq in E; subst; reflexivity.
  - apply String.eqb_neq in E; f_equal; apply IH; destruct H; congruence.
Qed.

Lemma dict_set_absent k v d :
  ~ In k (keys d) -> dict_set k v d = (d ++ [(k, v)])%list.
Proof.
  induction d as [|[k' v'] r IH]; simpl; [reflexivity|].
  intros H; destruct (String.eqb k k') eqn:E.
  - apply String.eqb_eq in E; subst; tauto.
  - rewrite IH by tauto; reflexivity.
Qed.

Lemma keys_dict_set k v d :
  keys (dict_set k v d)
  = match dict_get k d with Some _ => keys d | None => (keys d ++ [k])%list end.
Proof.
  destruct (dict_get k d) eqn:E.
  - apply keys_dict_set_present; eapply dict_get_in_keys; eauto.
  - apply dict_get_none in E; rewrite dict_set_absent by assumption.
    unfold keys; rewrite map_app; reflexivity.
Qed.

Lemma NoDup_keys_dict_set k v d : NoDup (keys d) -> NoDup (keys (dict_set k v d)).
Proof.
  intros H; rewrite keys_dict_set; destruct (dict_get k d) eqn:E; auto.
  apply dict_get_none in E.
  apply NoDup_rev in H. rewrite <- (rev_involutive (keys d ++ [k])%list).
  apply NoDup_rev. rewrite rev_app_distr; simpl.
  constructor; auto. rewrite <- in_rev; assumption.
Qed.

Lemma in_keys_dict_set k k' v d :
  In k' (keys (dict_set k v d)) <-> k' = k \/ In k' (keys d).
Proof.
  rewrite keys_dict_set; destruct (dict_get k d) eqn:E.
  - split; auto. intros [->|H]; auto. eapply dict_get_in_keys; eauto.
  - rewrite in_app_iff; simpl; intuition congruence.
Qed.

Lemma dict_set_middle k v v0 (pre suf : dict V) :
  ~ In k (keys pre) ->
  dict_set k v (pre ++ (k, v0) :: suf)%list = (pre ++ (k, v) :: suf)%list.
Proof.
  induction pre as [|[k' v'] r IH]; simpl.
  - rewrite String.eqb_refl; reflexivity.
  - intros H; destruct (String.eqb k k') eqn:E.
    + apply String.eqb_eq in E; subst; tauto.
    + rewrite IH by tauto; reflexivity.
Qed.

Lemma dict_get_middle k v (pre suf : dict V) :
  ~ In k (keys pre) -> dict_get k (pre ++ (k, v) :: suf)%list = Some v.
Proof.
  induction pre as [|[k' v'] r IH]; simpl.
  - rewrite String.eqb_refl; reflexivity.
  - intros H; destruct (String.eqb k k') eqn:E.
    + apply String.eqb_eq in E; subst; tauto.
    + apply IH; tauto.
Qed.

End DictFacts.

(** ** The console *)

Lemma emits_nil (w : World) : emits [] w = w.
Proof. destruct w; unfold emits; simpl; rewrite List.app_nil_r; reflexivity. Qed.

Lemma emits_emits (l l' : list event) (w : World) :
  emits l' (emits l w) = emits (l ++ l') w.
Proof. unfold emits; simpl; rewrite List.app_assoc; reflexivity. Qed.

Lemma emit_emits (e : event) (w : World) : emit e w = emits [e] w.
Proof. reflexivity. Qed.

Lemma print_run (s : string) (w : World) : print s w = (Ok tt, emits [Printed s] w).
Proof. reflexivity. Qed.

(** ** The low-stock scan *)

Section Scan.

Lemma scan_loop (inv : Inventory) (found : bool) (w : World) :
  for_each inv alert_body found w
  = (Ok (found || existsb is_low inv), emits (map alert_event (filter is_low inv)) w).
Proof.
  revert found w; induction inv as [|[name item] r IH]; intros found w; simpl.
  - rewrite orb_false_r, emits_nil; reflexivity.
  - unfold bind at 1. unfold is_low at 1 3; simpl.
    destruct (quantity item <? critical_level item) eqn:E; simpl.
    + unfold bind, print, ret; simpl. rewrite IH, emit_emits, emits_emits; simpl.
      rewrite orb_true_r; reflexivity.
    + unfold ret; rewrite IH; reflexivity.
Qed.

Lemma show_low_stock_alerts_run (w : World) :
  show_low_stock_alerts w
  = (Ok tt,
     emits (scan_header :: map alert_event (filter is_low (table w))
            ++ (if existsb is_low (table w) then [] else [stocked_event]))%list w).
Proof.
  unfold show_low_stock_alerts, get_table, bind at 1 2; simpl.
  unfold bind at 1.
  rewrite scan_loop; simpl.
  destruct (existsb is_low (table w)); simpl; unfold ret, print; simpl;
    rewrite !emit_emits, !emits_emits; simpl; try rewrite List.app_nil_r; reflexivity.
Qed.

End Scan.

(** ** What a computation may change

    A relation [R] between the world before and after is kept by a
    computation when it is kept by every step; [Compat] lists what the
    console steps need, and the handlers are then covered once for all
    relations. *)

Definition respects (R : World -> World -> Prop) {A : Type} (m : M A) : Prop :=
  forall w, R w (snd (m w)).

Class Compat (R : World -> World -> Prop) : Prop :=
  { compat_refl : forall w, R w w;
    compat_trans : forall w1 w2 w3, R w1 w2 -> R w2 w3 -> R w1 w3;
    compat_emit : forall e w, R w (emit e w);
    compat_read : forall l r w, stdin w = l :: r -> R w (with_stdin r w) }.

Section Respects.

Variable R : World -> World -> Prop.
Context {HR : Compat R}.

Lemma respects_ret {A : Type} (a : A) : respects R (ret a).
Proof. intros w; apply compat_refl. Qed.

Lemma respects_raise {A : Type} (e : exn) : respects R (@raise A e).
Proof. intros w; apply compat_refl. Qed.

Lemma respects_bind {A B : Type} (m : M A) (k : A -> M B) :
  respects R m -> (forall a, respects R (k a)) -> respects R (bind m k).
Proof.
  intros Hm Hk w; unfold bind.
  specialize (Hm w); destruct (m w) as [[a|e|] w']; simpl in *; auto.
  eapply compat_trans; [exact Hm | apply Hk].
Qed.

Lemma respects_try_except {A : Type} (body handler : M A) (e : exn) :
  respects R body -> respects R handler -> respects R (try_except body e handler).
Proof.
  intros Hb Hh w; unfold try_except.
  specialize (Hb w); destruct (body w) as [[a|e'|] w']; simpl in *; auto.
  destruct (exn_eqb e' e); simpl; auto.
  eapply compat_trans; [exact Hb | apply Hh].
Qed.

Lemma respects_print (s : string) : respects R (print s).
Proof. intros w; apply compat_emit. Qed.

Lemma respects_input (p : string) : respects R (input p).
Proof.
  intros w; unfold input.
  destruct (stdin (emit (Prompted p) w)) as [|l r] eqn:E; simpl.
  - apply compat_emit.
  - eapply compat_trans; [apply compat_emit | apply (compat_read _ _ _ E)].
Qed.

Lemma respects_get_table : respects R get_table.
Proof. intros w; apply compat_refl. Qed.

Lemma respects_for_each {X S : Type} (xs : list X) (body : X -> S -> M S) (s : S) :
  (forall x s, respects R (body x s)) -> respects R (for_each xs body s).
Proof.
  intros Hb; revert s; induction xs as [|x r IH]; intros s; simpl.
  - apply respects_ret.
  - apply respects_bind; auto.
Qed.

Lemma respects_while_fuel {S A : Type} (fuel : nat) (body : S -> M (ctl S A)) (s : S) :
  (forall s, respects R (body s)) -> respects R (while_fuel fuel body s).
Proof.
  intros Hb; revert s; induction fuel as [|k IH]; intros s w; simpl.
  - apply compat_refl.
  - specialize (Hb s w); destruct (body s w) as [[[s'|r]|e|] w']; simpl in *; auto.
    eapply compat_trans; [exact Hb | apply IH].
Qed.

Lemma respects_while_input {S A : Type} (body : S -> M (ctl S A)) (s : S) :
  (forall s, respects R (body s)) -> respects R (while_input body s).
Proof. intros Hb w; unfold while_input; apply respects_while_fuel; exact Hb. Qed.

End Respects.

Create HintDb respects discriminated.

#[export] Hint Resolve respects_ret respects_raise respects_print respects_input
  respects_get_table : respects.

(** Splits a goal [respects R m] along the structure of [m]. *)
Ltac respects_step :=
  match goal with
  | |- respects _ (bind _ _) => apply respects_bind; try exact _; [| intros ?]
  | |- respects _ (try_except _ _ _) => apply respects_try_except; try exact _
  | |- respects _ (for_each _ _ _) => apply respects_for_each; try exact _; intros ? ?
  | |- respects _ (while_input _ _) => apply respects_while_input; try exact _; intros ?
  | |- respects _ (if ?c then _ else _) => destruct c
  | |- respects _ (match ?x with _ => _ end) => destruct x
  | |- respects _ _ => solve [auto with respects]
  end.

Ltac respects_auto := repeat respects_step.

Section Handlers.

Context {FT : FloatText} {PY : Python}.
Variable R : World -> World -> Prop.
Context {HR : Compat R}.

Lemma respects_int_of_str (s : string) : respects R (int_of_str s).
Proof. unfold int_of_str; respects_auto. Qed.

Lemma respects_mul_float_int (x : float) (n : Z) : respects R (mul_float_int x n).
Proof. unfold mul_float_int; respects_auto. Qed.

Lemma respects_mul_int_float (n : Z) (x : float) : respects R (mul_int_float n x).
Proof. unfold mul_int_float; respects_auto. Qed.

Lemma respects_get_item (name : string) : respects R (get_item name).
Proof. unfold get_item; respects_auto. Qed.

Hint Resolve respects_int_of_str respects_mul_float_int respects_mul_int_float
  respects_get_item : respects.

Lemma respects_show_inventory : respects R show_inventory.
Proof. unfold show_inventory; respects_auto. Qed.

Lemma respects_show_low_stock_alerts : respects R show_low_stock_alerts.
Proof. unfold show_low_stock_alerts, alert_body; respects_auto. Qed.

Lemma respects_waste_entry : respects R waste_entry.
Proof. unfold waste_entry, waste_body; respects_auto. Qed.

Lemma respects_order_summary (order : Order) : respects R (order_summary order).
Proof. unfold order_summary; respects_auto. Qed.

(** The handlers that write need [R] to allow their writes. *)
Hypothesis R_set_quantity : forall name q, respects R (set_quantity name q).
Hypothesis R_open_write : forall filename, respects R (open_write filename).
Hypothesis R_write_record : forall filename row, respects R (write_record filename row).

Hint Resolve R_set_quantity R_open_write R_write_record respects_show_inventory
  respects_show_low_stock_alerts respects_waste_entry respects_order_summary : respects.

Lemma respects_daily_inventory_entry : respects R daily_inventory_entry.
Proof. unfold daily_inventory_entry, daily_entry_body; respects_auto. Qed.

Lemma respects_order_body (items : list string) (order : Order) :
  respects R (order_body items order).
Proof. unfold order_body; respects_auto. Qed.

Hint Resolve respects_order_body : respects.

Lemma respects_place_order : respects R place_order.
Proof. unfold place_order; respects_auto. Qed.

Lemma respects_save_inventory (filename : string) : respects R (save_inventory filename).
Proof. unfold save_inventory, save_row, str_cell; respects_auto. Qed.

Hint Resolve respects_daily_inventory_entry respects_place_order
  respects_save_inventory : respects.

Lemma respects_menu_body (filename : string) (u : unit) :
  respects R (menu_body filename u).
Proof. unfold menu_body; respects_auto. Qed.

End Handlers.

(** ** Three relations the handlers keep *)

#[export] Instance same_store_compat : Compat same_store.
Proof.
  split; unfold same_store; simpl; auto.
  intros w1 w2 w3 [H1 H2] [H3 H4]; split; congruence.
Qed.

#[export] Instance only_quantities_compat : Compat only_quantities.
Proof.
  split; unfold only_quantities; simpl; auto.
  intros w1 w2 w3 H1 H2; congruence.
Qed.

#[export] Instance reads_on_compat : Compat reads_on.
Proof.
  split; unfold reads_on; simpl; auto.
  - intros w1 w2 w3 H1 H2; lia.
  - intros l r w ->; simpl; lia.
Qed.

Lemma frozen_dict_set (name : string) (q : Z) (item : Item) (t : Inventory) :
  dict_get name t = Some item ->
  frozen (dict_set name (with_quantity q item) t) = frozen t.
Proof.
  induction t as [|[k v] r IH]; simpl; [discriminate|].
  destruct (String.eqb name k) eqn:E; simpl.
  - apply String.eqb_eq in E; subst k; intros [= ->]; reflexivity.
  - intros H; rewrite IH by assumption; reflexivity.
Qed.

Lemma frozen_keys (t t' : Inventory) : frozen t' = frozen t -> keys t' = keys t.
Proof.
  intros H; apply (f_equal (map fst)) in H; unfold frozen in H.
  rewrite !map_map in H; exact H.
Qed.

Lemma frozen_get (t t' : Inventory) (name : string) (item : Item) :
  frozen t' = frozen t -> dict_get name t = Some item ->
  exists item', dict_get name t' = Some item' /\ fixed_fields item' = fixed_fields item.
Proof.
  revert t'; induction t as [|[k v] r IH]; intros [|[k' v'] r']; simpl; try discriminate.
  intros Hf Hg; injection Hf; intros; subst k'.
  destruct (String.eqb name k).
  - injection Hg as <-; exists v'; split; [reflexivity | unfold fixed_fields; congruence].
  - apply IH; assumption.
Qed.

Lemma only_quantities_set_quantity (name : string) (q : Z) :
  respects only_quantities (set_quantity name q).
Proof.
  intros w; unfold set_quantity, bind, get_table, set_table, only_quantities; simpl.
  destruct (dict_get name (table w)) eqn:E; simpl; auto using frozen_dict_set.
Qed.

Lemma only_quantities_open_write (filename : string) :
  respects only_quantities (open_write filename).
Proof. intros w; reflexivity. Qed.

Lemma only_quantities_write_record (filename : string) (row : list string) :
  respects only_quantities (write_record filename row).
Proof. intros w; reflexivity. Qed.

Lemma reads_on_set_quantity (name : string) (q : Z) :
  respects reads_on (set_quantity name q).
Proof.
  intros w; unfold set_quantity, bind, get_table, set_table, reads_on; simpl.
  destruct (dict_get name (table w)); simpl; auto.
Qed.

Lemma reads_on_open_write (filename : string) :
  respects reads_on (open_write filename).
Proof. intros w; unfold reads_on; simpl; auto. Qed.

Lemma reads_on_write_record (filename : string) (row : list string) :
  respects reads_on (write_record filename row).
Proof. intros w; unfold reads_on; simpl; auto. Qed.

(** ** The [while True] loops

    A body that reads a line before it goes round again can be unrolled
    without looking at the fuel, and never runs out of it. *)

Definition advances {S A : Type} (body : S -> M (ctl S A)) : Prop :=
  forall s w s' w',
    body s w = (Ok (Continue s'), w') ->
    (List.length (stdin w') < List.length (stdin w))%nat.

Lemma while_fuel_enough {S A : Type} (body : S -> M (ctl S A)) :
  advances body ->
  forall fuel1 fuel2 s w,
    (List.length (stdin w) < fuel1)%nat ->
    (List.length (stdin w) < fuel2)%nat ->
    while_fuel fuel1 body s w = while_fuel fuel2 body s w.
Proof.
  intros Hadv; induction fuel1 as [|k IH]; intros fuel2 s w H1 H2; [lia|].
  destruct fuel2 as [|k2]; [lia|]; simpl.
  destruct (body s w) as [[[s'|r]|e|] w'] eqn:E; auto.
  apply Hadv in E; apply IH; lia.
Qed.

Lemma while_input_unroll {S A : Type} (body : S -> M (ctl S A)) (s : S) (w : World) :
  advances body ->
  while_input body s w
  = match body s w with
    | (Ok (Continue s'), w') => while_input body s' w'
    | (Ok (Break r), w') => (Ok r, w')
    | (Raise e, w') => (Raise e, w')
    | (OutOfFuel, w') => (OutOfFuel, w')
    end.
Proof.
  intros Hadv; unfold while_input at 1; simpl.
  destruct (body s w) as [[[s'|r]|e|] w'] eqn:E; auto.
  unfold while_input; apply while_fuel_enough; auto.
  apply Hadv in E; lia.
Qed.

Definition never_out_of_fuel {A : Type} (m : M A) : Prop :=
  forall w, fst (m w) <> OutOfFuel.

Lemma while_input_fuel {S A : Type} (body : S -> M (ctl S A)) :
  advances body ->
  (forall s, never_out_of_fuel (body s)) ->
  forall s, never_out_of_fuel (while_input body s).
Proof.
  intros Hadv Hb s w.
  remember (List.length (stdin w)) as n eqn:Hn.
  revert s w Hn; induction n as [n IH] using lt_wf_ind; intros s w Hn.
  rewrite while_input_unroll by assumption.
  specialize (Hb s w).
  destruct (body s w) as [[[s'|r]|e|] w'] eqn:E; simpl in *; try congruence.
  apply Hadv in E. eapply IH; [|reflexivity]. lia.
Qed.

(** A computation that starts by reading a line has consumed it. *)
Lemma input_then_advances {A : Type} (p : string) (k : string -> M A) (w w' : World) (r : outcome A) :
  (forall line, respects reads_on (k line)) ->
  bind (input p) k w = (r, w') ->
  (exists a, r = Ok a) ->
  (List.length (stdin w') < List.length (stdin w))%nat.
Proof.
  intros Hk Hrun [a ->]; unfold bind, input in Hrun; simpl in Hrun.
  destruct (stdin w) as [|l rest] eqn:E; [discriminate|].
  specialize (Hk l (with_stdin rest (emit (Prompted p) w))).
  rewrite Hrun in Hk; unfold reads_on in Hk; simpl in *. lia.
Qed.

(** ** One round of the order loop *)

Lemma with_stdin_emits (l : list string) (evs : list event) (w : World) :
  with_stdin l (emits evs w) = emits evs (with_stdin l w).
Proof. reflexivity. Qed.

Lemma input_run (p l : string) (r : list string) (w : World) :
  stdin w = l :: r -> input p w = (Ok l, with_stdin r (emits [Prompted p] w)).
Proof. intros H; unfold input; simpl; rewrite H; reflexivity. Qed.

Lemma input_eof (p : string) (w : World) :
  stdin w = [] -> input p w = (Raise EOFError, emits [Prompted p] w).
Proof. intros H; unfold input; simpl; rewrite H; reflexivity. Qed.

Lemma order_body_stop (items : list string) (order : Order) (w : World) (line : string) (rest : list string) :
  stdin w = line :: rest ->
  lower (strip line) = "done" ->
  order_body items order w = (Ok (Break order), with_stdin rest (emits [prompt_choice] w)).
Proof.
  intros Hin Hd; unfold order_body, bind.
  rewrite (input_run _ _ _ _ Hin), Hd; reflexivity.
Qed.

Lemma isdigit_not_done (s : string) : isdigit s = true -> String.eqb s "done" = false.
Proof.
  intros H; destruct (String.eqb s "done") eqn:E; [|reflexivity].
  apply String.eqb_eq in E; subst s; discriminate.
Qed.

Lemma in_range_true (n : Z) (items : list string) :
  1 <= n <= Z.of_nat (List.length items) ->
  negb ((1 <=? n) && (n <=? Z.of_nat (List.length items))) = false.
Proof.
  intros [H1 H2]; apply Z.leb_le in H1; apply Z.leb_le in H2.
  rewrite H1, H2; reflexivity.
Qed.

(** The rounds start alike once the line typed selects an item. *)
Lemma order_body_selected (items : list string) (order : Order) (w : World)
    (line name : string) (rest : list string) :
  stdin w = line :: rest ->
  selects items line name ->
  order_body items order w
  = try_except
      (line <- input ("How many boxes of " ++ title name ++ " to order? ") ;;
       qty <- int_of_str line ;;
       if qty <=? 0 then print "Must be > 0" ;; ret (Continue order)
       else
         item <- get_item name ;;
         let box_price := price item in
         sub <- mul_float_int box_price qty ;;
         let order := dict_set name {| qty := qty; unit_price := box_price; subtotal := sub |} order in
         item <- get_item name ;;
         set_quantity name (quantity item + qty) ;;
         ret (Continue order))
      ValueError
      (print "Invalid quantity." ;; ret (Continue order))
      (with_stdin rest (emits [prompt_choice] w)).
Proof.
  intros Hin (Hd & n & Hn & Hr & Hnth).
  unfold order_body; unfold bind at 1.
  rewrite (input_run _ _ _ _ Hin).
  cbv zeta. rewrite (isdigit_not_done _ Hd), Hd; cbn [negb].
  unfold bind at 1, int_of_str at 1. rewrite Hn; unfold ret at 1.
  rewrite (in_range_true _ _ Hr).
  unfold bind at 1. rewrite Hnth; unfold ret at 1.
  reflexivity.
Qed.

(** Runs the monadic steps whose outcome is determined. *)
Ltac run :=
  repeat (progress unfold try_except, bind, input, int_of_str, get_item, get_table,
            mul_float_int, mul_int_float, set_quantity, set_table, ret, raise, print);
  simpl.

(** Two worlds are the same when their fields are. *)
Ltac same_world :=
  unfold emits, with_table, with_stdin, with_files, emit; simpl;
  rewrite <- ?List.app_assoc; reflexivity.

Lemma order_body_pick (items : list string) (order : Order) (w : World)
    (line name ql : string) (rest : list string) (q : Z) (fq : float) (item : Item) :
  stdin w = line :: ql :: rest ->
  selects items line name ->
  py_int ql = Some q -> 0 < q ->
  float_of_Z q = Some fq ->
  dict_get name (table w) = Some item ->
  order_body items order w
  = (Ok (Continue (dict_set name (line_for item q fq) order)),
     with_table (dict_set name (with_quantity (quantity item + q) item) (table w))
       (with_stdin rest (emits [prompt_choice; prompt_boxes name] w))).
Proof.
  intros Hin Hsel Hq Hpos Hf Hget.
  rewrite (order_body_selected _ _ _ _ _ _ Hin Hsel).
  run. rewrite Hq; run.
  destruct (q <=? 0) eqn:E; [apply Z.leb_le in E; lia|]; run.
  repeat (first [rewrite Hget | rewrite Hf]; run).
  same_world.
Qed.

Lemma order_body_overflow (items : list string) (order : Order) (w : World)
    (line name ql : string) (rest : list string) (q : Z) (item : Item) :
  stdin w = line :: ql :: rest ->
  selects items line name ->
  py_int ql = Some q -> 0 < q ->
  float_of_Z q = None ->
  dict_get name (table w) = Some item ->
  order_body items order w
  = (Raise OverflowError, with_stdin rest (emits [prompt_choice; prompt_boxes name] w)).
Proof.
  intros Hin Hsel Hq Hpos Hf Hget.
  rewrite (order_body_selected _ _ _ _ _ _ Hin Hsel).
  run. rewrite Hq; run.
  destruct (q <=? 0) eqn:E; [apply Z.leb_le in E; lia|]; run.
  repeat (first [rewrite Hget | rewrite Hf]; run).
  same_world.
Qed.

Lemma order_body_not_a_number (items : list string) (order : Order) (w : World)
    (line name ql : string) (rest : list string) :
  stdin w = line :: ql :: rest ->
  selects items line name ->
  py_int ql = None ->
  order_body items order w
  = (Ok (Continue order),
     with_stdin rest
       (emits [prompt_choice; prompt_boxes name; Printed "Invalid quantity."] w)).
Proof.
  intros Hin Hsel Hq.
  rewrite (order_body_selected _ _ _ _ _ _ Hin Hsel).
  run. rewrite Hq; run.
  same_world.
Qed.

Lemma order_body_not_positive (items : list string) (order : Order) (w : World)
    (line name ql : string) (rest : list string) (q : Z) :
  stdin w = line :: ql :: rest ->
  selects items line name ->
  py_int ql = Some q -> q <= 0 ->
  order_body items order w
  = (Ok (Continue order),
     with_stdin rest
       (emits [prompt_choice; prompt_boxes name; Printed "Must be > 0"] w)).
Proof.
  intros Hin Hsel Hq Hle.
  rewrite (order_body_selected _ _ _ _ _ _ Hin Hsel).
  run. rewrite Hq; run.
  apply Z.leb_le in Hle; rewrite Hle; run.
  same_world.
Qed.

Lemma order_body_invalid_choice (items : list string) (order : Order) (w : World)
    (line : string) (rest : list string) :
  stdin w = line :: rest ->
  String.eqb (lower (strip line)) "done" = false ->
  isdigit (lower (strip line)) = false
  \/ (exists n, py_int (lower (strip line)) = Some n
                /\ negb ((1 <=? n) && (n <=? Z.of_nat (List.length items))) = true) ->
  order_body items order w
  = (Ok (Continue order),
     with_stdin rest (emits [prompt_choice; Printed "Invalid choice."] w)).
Proof.
  intros Hin Hnd Hbad.
  unfold order_body; unfold bind at 1.
  rewrite (input_run _ _ _ _ Hin); cbv zeta; rewrite Hnd.
  destruct (isdigit (lower (strip line))) eqn:Hd; cbn [negb].
  - destruct Hbad as [Hbad|(n & Hn & Hr)]; [discriminate|].
    unfold bind at 1, int_of_str at 1; rewrite Hn; unfold ret at 1; rewrite Hr.
    run. same_world.
  - run. same_world.
Qed.

#[export] Hint Resolve respects_int_of_str respects_mul_float_int respects_mul_int_float
  respects_get_item respects_show_inventory respects_show_low_stock_alerts
  respects_waste_entry respects_order_summary : respects.

#[export] Hint Resolve same_store_compat only_quantities_compat reads_on_compat
  reads_on_set_quantity reads_on_open_write reads_on_write_record
  only_quantities_set_quantity only_quantities_open_write
  only_quantities_write_record : respects.

Lemma order_body_advances (items : list string) : advances (order_body items).
Proof.
  intros order w order' w' H; unfold order_body in H.
  eapply input_then_advances; [| exact H | eauto].
  intros line; cbv beta zeta; respects_auto.
Qed.

Lemma read_choice_item (items : list string) (line name : string) :
  read_choice items line = ChItem name <-> selects items line name.
Proof.
  unfold read_choice, selects; cbv zeta.
  destruct (String.eqb (lower (strip line)) "done") eqn:Ed.
  { apply String.eqb_eq in Ed; rewrite Ed; simpl.
    split; [discriminate | intros [H _]; discriminate]. }
  destruct (isdigit (lower (strip line))) eqn:Hd; cbn [negb].
  2:{ split; [discriminate | intros [H _]; discriminate]. }
  destruct (py_int (lower (strip line))) as [n|] eqn:Hn.
  2:{ split; [discriminate | intros [_ (n & H & _)]; discriminate]. }
  destruct ((1 <=? n) && (n <=? Z.of_nat (List.length items))) eqn:Hr; cbn [negb].
  - apply andb_true_iff in Hr as [H1 H2]; apply Z.leb_le in H1; apply Z.leb_le in H2.
    destruct (nth_error items (Z.to_nat (n - 1))) as [name'|] eqn:Hnth.
    + split.
      * intros [= ->]; split; auto. exists n; auto.
      * intros [_ (n' & [= <-] & _ & Hnth')]; congruence.
    + split; [discriminate|].
      intros [_ (n' & [= <-] & _ & Hnth')]; congruence.
  - split; [discriminate|].
    intros [_ (n' & [= <-] & [H1 H2] & _)].
    apply Z.leb_le in H1; apply Z.leb_le in H2; rewrite H1, H2 in Hr; discriminate.
Qed.

Lemma order_body_eof (items : list string) (order : Order) (w : World) :
  stdin w = [] -> fst (order_body items order w) = Raise EOFError.
Proof.
  intros H; unfold order_body, bind; rewrite (input_eof _ _ H); reflexivity.
Qed.

Lemma order_body_selected_eof (items : list string) (order : Order) (w : World)
    (line name : string) :
  stdin w = [line] -> selects items line name ->
  fst (order_body items order w) = Raise EOFError.
Proof.
  intros Hin Hsel.
  rewrite (order_body_selected _ _ _ _ _ _ Hin Hsel); run; reflexivity.
Qed.

Lemma order_body_error (items : list string) (order : Order) (w : World)
    (line : string) (rest : list string) :
  stdin w = line :: rest -> read_choice items line = ChError ->
  exists e, fst (order_body items order w) = Raise e.
Proof.
  intros Hin Hc; unfold read_choice in Hc; cbv zeta in Hc.
  unfold order_body; unfold bind at 1.
  rewrite (input_run _ _ _ _ Hin); cbv zeta.
  destruct (String.eqb (lower (strip line)) "done"); [discriminate|].
  destruct (negb (isdigit (lower (strip line)))); [discriminate|].
  unfold bind at 1, int_of_str at 1.
  destruct (py_int (lower (strip line))) as [n|]; [|eexists; reflexivity].
  unfold ret at 1.
  destruct (negb ((1 <=? n) && (n <=? Z.of_nat (List.length items)))); [discriminate|].
  unfold bind at 1.
  destruct (nth_error items (Z.to_nat (n - 1))); [discriminate|].
  eexists; reflexivity.
Qed.

Lemma read_choice_invalid (items : list string) (line : string) :
  read_choice items line = ChInvalid ->
  String.eqb (lower (strip line)) "done" = false
  /\ (isdigit (lower (strip line)) = false
      \/ (exists n, py_int (lower (strip line)) = Some n
                    /\ negb ((1 <=? n) && (n <=? Z.of_nat (List.length items))) = true)).
Proof.
  unfold read_choice; cbv zeta.
  destruct (String.eqb (lower (strip line)) "done"); [discriminate|].
  destruct (isdigit (lower (strip line))); cbn [negb]; [|auto].
  destruct (py_int (lower (strip line))) as [n|]; [|discriminate].
  destruct (negb ((1 <=? n) && (n <=? Z.of_nat (List.length items)))) eqn:E.
  - intros _; split; auto. right; exists n; auto.
  - destruct (nth_error items (Z.to_nat (n - 1))); discriminate.
Qed.

Lemma read_choice_done (items : list string) (line : string) :
  read_choice items line = ChDone -> lower (strip line) = "done".
Proof.
  unfold read_choice; cbv zeta.
  destruct (String.eqb (lower (strip line)) "done") eqn:E.
  - intros _; apply String.eqb_eq; exact E.
  - destruct (negb (isdigit (lower (strip line)))); [discriminate|].
    destruct (py_int (lower (strip line))) as [n|]; [|discriminate].
    destruct (negb ((1 <=? n) && (n <=? Z.of_nat (List.length items)))); [discriminate|].
    destruct (nth_error items (Z.to_nat (n - 1))); discriminate.
Qed.

(** ** The order loop as a whole *)

Lemma with_quantity_same (item : Item) : with_quantity (quantity item) item = item.
Proof. destruct item; reflexivity. Qed.

Lemma in_keys_get {V : Type} (k : string) (d : dict V) :
  In k (keys d) -> exists v, dict_get k d = Some v.
Proof.
  intros H; destruct (dict_get k d) eqn:E; eauto.
  apply dict_get_none in E; tauto.
Qed.

Lemma picked_for_cons_same (name : string) (q : Z) (picks : list (string * Z)) :
  picked_for name ((name, q) :: picks) = q :: picked_for name picks.
Proof. unfold picked_for; simpl; rewrite String.eqb_refl; reflexivity. Qed.

Lemma picked_for_cons_other (name name' : string) (q : Z) (picks : list (string * Z)) :
  name' <> name -> picked_for name ((name', q) :: picks) = picked_for name picks.
Proof.
  intros H; unfold picked_for; simpl.
  destruct (String.eqb name' name) eqn:E; [apply String.eqb_eq in E; congruence | reflexivity].
Qed.

(** How the picks are read off the lines typed. *)
Lemma accepted_picks_pick (items : list string) (line name ql : string)
    (rest : list string) (q : Z) :
  selects items line name -> py_int ql = Some q -> 0 < q ->
  accepted_picks items (line :: ql :: rest) = (name, q) :: accepted_picks items rest.
Proof.
  intros Hsel Hq Hpos; apply read_choice_item in Hsel; simpl.
  rewrite Hsel, Hq.
  destruct (q <=? 0) eqn:E; [apply Z.leb_le in E; lia | reflexivity].
Qed.

Lemma accepted_picks_bad_quantity (items : list string) (line name ql : string)
    (rest : list string) :
  selects items line name ->
  py_int ql = None \/ (exists q, py_int ql = Some q /\ q <= 0) ->
  accepted_picks items (line :: ql :: rest) = accepted_picks items rest.
Proof.
  intros Hsel Hq; apply read_choice_item in Hsel; simpl; rewrite Hsel.
  destruct Hq as [->|(q & -> & Hle)]; [reflexivity|].
  apply Z.leb_le in Hle; rewrite Hle; reflexivity.
Qed.

Lemma accepted_picks_done (items : list string) (line : string) (rest : list string) :
  lower (strip line) = "done" -> accepted_picks items (line :: rest) = [].
Proof.
  intros H; simpl; unfold read_choice; cbv zeta; rewrite H; reflexivity.
Qed.

(** A round that raises ends the loop with that exception. *)
Ltac round_raises Hfst Hrun :=
  match type of Hrun with
  | context [order_body ?items ?order ?w] =>
      destruct (order_body items order w) as [[[?|?]|?|] ?];
      simpl in Hfst; try discriminate Hfst; try discriminate Hrun
  end.

Lemma order_loop_log (items : list string) (n : nat) :
  forall (order : Order) (w : World) (order' : Order) (w' : World),
    (List.length (stdin w) < n)%nat ->
    keys (table w) = items ->
    while_input (order_body items) order w = (Ok order', w') ->
    keys (table w') = items
    /\ forall name item,
        dict_get name (table w) = Some item ->
        let qs := picked_for name (accepted_picks items (stdin w)) in
        dict_get name (table w') = Some (with_quantity (quantity item + sum_Z qs) item)
        /\ match rev qs with
           | [] => dict_get name order' = dict_get name order
           | q :: _ =>
               exists fq, float_of_Z q = Some fq
                          /\ dict_get name order' = Some (line_for item q fq)
           end.
Proof.
  induction n as [|n IH]; intros order w order' w' Hlen Hkeys Hrun; [lia|].
  rewrite while_input_unroll in Hrun by apply order_body_advances.
  destruct (stdin w) as [|line rest] eqn:Hin.
  { pose proof (order_body_eof items order w Hin) as Hfst. round_raises Hfst Hrun. }
  cbn [accepted_picks].
  destruct (read_choice items line) eqn:Hc.
  - (* the sentinel *)
    rewrite (order_body_stop _ _ _ _ _ Hin (read_choice_done _ _ Hc)) in Hrun.
    injection Hrun as <- <-; simpl; split; auto.
    intros name item Hget; simpl.
    rewrite Z.add_0_r, with_quantity_same; auto.
  - (* not a row number *)
    destruct (read_choice_invalid _ _ Hc) as [Hnd Hbad].
    rewrite (order_body_invalid_choice _ _ _ _ _ Hin Hnd Hbad) in Hrun.
    apply IH in Hrun; simpl in *; auto; lia.
  - (* an item is selected *)
    apply read_choice_item in Hc.
    destruct rest as [|ql rest'].
    { pose proof (order_body_selected_eof _ order _ _ _ Hin Hc) as Hfst.
      round_raises Hfst Hrun. }
    destruct (py_int ql) as [q|] eqn:Hq.
    2:{ rewrite (order_body_not_a_number _ _ _ _ _ _ _ Hin Hc Hq) in Hrun.
        apply IH in Hrun; simpl in *; auto; lia. }
    destruct (q <=? 0) eqn:Hle.
    { apply Z.leb_le in Hle.
      rewrite (order_body_not_positive _ _ _ _ _ _ _ _ Hin Hc Hq Hle) in Hrun.
      apply IH in Hrun; simpl in *; auto; lia. }
    apply Z.leb_gt in Hle.
    assert (Hin0 : In name items).
    { destruct Hc as (_ & k & _ & _ & Hnth); eapply nth_error_In; eauto. }
    rewrite <- Hkeys in Hin0. destruct (in_keys_get _ _ Hin0) as [item0 Hget0].
    destruct (float_of_Z q) as [fq|] eqn:Hf.
    2:{ pose proof (order_body_overflow _ order _ _ _ _ _ _ _ Hin Hc Hq Hle Hf Hget0) as Hfst.
        apply (f_equal fst) in Hfst; simpl in Hfst. round_raises Hfst Hrun. }
    rewrite (order_body_pick _ _ _ _ _ _ _ _ _ _ Hin Hc Hq Hle Hf Hget0) in Hrun.
    apply IH in Hrun; simpl in *; try lia.
    2:{ rewrite keys_dict_set_present; auto. }
    destruct Hrun as [Hk Hall]; split; auto.
    intros name' item Hget.
    destruct (String.eqb name name') eqn:Hnm.
    + apply String.eqb_eq in Hnm; subst name'.
      assert (item = item0) by congruence; subst item.
      specialize (Hall name _ (dict_get_set_same _ _ _ _)).
      destruct Hall as [Hq' Hl'].
      rewrite picked_for_cons_same; simpl.
      split.
      * rewrite Hq'; f_equal. destruct item0; unfold with_quantity; simpl; f_equal; lia.
      * destruct (rev (picked_for name (accepted_picks items rest'))) as [|q' t]; simpl.
        -- exists fq; split; auto. rewrite Hl'; apply dict_get_set_same.
        -- exact Hl'.
    + apply String.eqb_neq in Hnm.
      rewrite picked_for_cons_other by assumption.
      assert (Hget' : dict_get name'
                        (dict_set name (with_quantity (quantity item0 + q) item0) (table w))
                      = Some item)
        by (rewrite dict_get_set_other; auto).
      specialize (Hall name' item Hget'); destruct Hall as [Hq' Hl'].
      split; auto.
      destruct (rev (picked_for name' (accepted_picks items rest'))); auto.
      rewrite Hl'; apply dict_get_set_other; auto.
  - (* the choice raises *)
    destruct (order_body_error _ order _ _ _ Hin Hc) as [e Hfst].
    round_raises Hfst Hrun.
Qed.

(** ** The count updater *)

Lemma daily_entry_body_run (i : Z) (name : string) (item item0 : Item) (w : World)
    (line : string) (rest : list string) :
  stdin w = line :: rest ->
  dict_get name (table w) = Some item0 ->
  exists evs,
    daily_entry_body (i, (name, item)) tt w
    = (Ok tt,
       with_table (dict_set name (snd (entered (name, item0) line)) (table w))
         (with_stdin rest (emits evs w))).
Proof.
  intros Hin Hget; unfold daily_entry_body, entered.
  destruct (py_int line) as [v|] eqn:Hv.
  - eexists [_]; run; rewrite Hin; run; rewrite Hv; run; rewrite Hget; run.
    same_world.
  - eexists [_; _]; run; rewrite Hin; run; rewrite Hv; run.
    replace (dict_set name item0 (table w)) with (table w).
    + same_world.
    + clear - Hget; induction (table w) as [|[k v] r IH]; simpl in *; [discriminate|].
      destruct (String.eqb name k) eqn:E.
      * apply String.eqb_eq in E; subst; congruence.
      * rewrite <- IH; auto.
Qed.

Lemma count_update_cons (entry : string * Item) (t : Inventory) (line : string) (lines : list string) :
  count_update (entry :: t) (line :: lines) = entered entry line :: count_update t lines.
Proof. reflexivity. Qed.

Lemma entered_fst (entry : string * Item) (line : string) : fst (entered entry line) = fst entry.
Proof. unfold entered; destruct (py_int line); reflexivity. Qed.

Lemma daily_loop (suf : Inventory) :
  forall (pre : Inventory) (k : Z) (lines rest : list string) (w : World),
    table w = (pre ++ suf)%list ->
    NoDup (keys (pre ++ suf)%list) ->
    stdin w = (lines ++ rest)%list ->
    List.length lines = List.length suf ->
    exists evs,
      for_each (enumerate k suf) daily_entry_body tt w
      = (Ok tt, with_table (pre ++ count_update suf lines)%list (with_stdin rest (emits evs w))).
Proof.
  induction suf as [|[name item] suf IH]; intros pre k lines rest w Ht Hnd Hin Hlen.
  - destruct lines; [|discriminate]; simpl in *.
    exists []; unfold ret; f_equal.
    destruct w; unfold with_table, with_stdin, emits; simpl in *.
    rewrite List.app_nil_r; subst; reflexivity.
  - destruct lines as [|line lines]; [discriminate|]; simpl in Hin, Hlen.
    assert (Hpre : ~ In name (keys pre)).
    { unfold keys in Hnd; rewrite map_app in Hnd; simpl in Hnd.
      apply NoDup_remove_2 in Hnd; rewrite in_app_iff in Hnd; tauto. }
    assert (Hget : dict_get name (table w) = Some item)
      by (rewrite Ht; apply dict_get_middle; assumption).
    destruct (daily_entry_body_run k name item item w line _ Hin Hget) as [evs1 Hrun].
    cbn [enumerate for_each]; unfold bind at 1; rewrite Hrun.
    rewrite Ht, dict_set_middle by assumption.
    set (w1 := with_table _ _).
    destruct (IH (pre ++ [entered (name, item) line])%list (k + 1) lines rest w1)
      as [evs2 Hrun2].
    + subst w1; simpl. rewrite <- List.app_assoc; simpl.
      unfold entered; destruct (py_int line); reflexivity.
    + rewrite <- List.app_assoc; simpl.
      unfold keys in *; rewrite map_app in *; simpl in *.
      rewrite entered_fst; exact Hnd.
    + reflexivity.
    + lia.
    + exists (evs1 ++ evs2)%list; rewrite Hrun2; f_equal.
      subst w1; rewrite count_update_cons.
      unfold with_table, with_stdin, emits; simpl.
      rewrite <- !List.app_assoc; reflexivity.
Qed.

Lemma daily_inventory_entry_run (w : World) (lines rest : list string) :
  NoDup (keys (table w)) ->
  stdin w = (lines ++ rest)%list ->
  List.length lines = List.length (table w) ->
  exists evs,
    daily_inventory_entry w
    = (Ok tt, with_table (count_update (table w) lines) (with_stdin rest (emits evs w))).
Proof.
  intros Hnd Hin Hlen; unfold daily_inventory_entry.
  unfold bind at 1, get_table at 1; unfold bind at 1; rewrite print_run.
  destruct (daily_loop (table w) [] 1 lines rest (emits [Printed (nl ++ "================= Daily Inventory Entry =================")] w))
    as [evs Hrun]; auto.
  exists (Printed (nl ++ "================= Daily Inventory Entry =================") :: evs).
  rewrite Hrun; same_world.
Qed.

Lemma nth_error_count_update (t : Inventory) (lines : list string) (i : nat)
    (entry : string * Item) (line : string) :
  nth_error t i = Some entry -> nth_error lines i = Some line ->
  nth_error (count_update t lines) i = Some (entered entry line).
Proof.
  revert lines i; induction t as [|e t IH]; intros [|l lines] [|i]; simpl; try discriminate.
  - intros [= ->] [= ->]; reflexivity.
  - intros H1 H2; apply IH; assumption.
Qed.

Lemma keys_count_update (t : Inventory) (lines : list string) :
  List.length lines = List.length t -> keys (count_update t lines) = keys t.
Proof.
  revert lines; induction t as [|e t IH]; intros [|l lines] Hlen;
    try discriminate; [reflexivity|].
  rewrite count_update_cons; simpl; rewrite entered_fst.
  f_equal; apply IH; simpl in Hlen; lia.
Qed.

(** The items past the last line typed are as they were. *)
Lemma nth_error_count_update_short (t : Inventory) :
  forall (lines : list string) (i : nat) (entry : string * Item),
    nth_error t i = Some entry ->
    nth_error (count_update t lines ++ skipn (List.length lines) t)%list i
    = Some (match nth_error lines i with
            | Some line => entered entry line
            | None => entry
            end).
Proof.
  induction t as [|e t IH]; intros lines i entry Hnth; [destruct i; discriminate|].
  destruct lines as [|l lines].
  - simpl; rewrite Hnth; destruct i; reflexivity.
  - rewrite count_update_cons; destruct i as [|i]; simpl in *.
    + injection Hnth as ->; reflexivity.
    + apply IH; exact Hnth.
Qed.

(** What [entered] leaves of an item: the count typed, or the old one, and
    the other fields. *)
Lemma entered_fields (name : string) (item : Item) (line : string) :
  exists item',
    entered (name, item) line = (name, item')
    /\ quantity item' = match py_int line with
                        | Some v => v
                        | None => quantity item
                        end
    /\ price item' = price item
    /\ units_per_box item' = units_per_box item
    /\ critical_level item' = critical_level item
    /\ per_unit_price item' = per_unit_price item.
Proof.
  unfold entered; destruct (py_int line) as [v|]; eexists; repeat split.
Qed.

Lemma entered_writable (entry : string * Item) (line : string) :
  writable (snd entry) = true -> writable (snd (entered entry line)) = true.
Proof.
  unfold entered; destruct (py_int line) as [v|] eqn:E; auto.
  unfold writable; simpl; intros H.
  apply andb_true_iff in H as [H Hc]; apply andb_true_iff in H as [_ Hu].
  rewrite (py_int_fits _ _ E), Hu, Hc; reflexivity.
Qed.

Lemma count_update_writable (t : Inventory) :
  forall lines,
    forallb (fun e => writable (snd e)) t = true ->
    forallb (fun e => writable (snd e)) (count_update t lines) = true.
Proof.
  induction t as [|e t IH]; intros [|l lines] H; try reflexivity.
  rewrite count_update_cons; simpl in *.
  apply andb_true_iff in H as [He Ht].
  rewrite (entered_writable _ _ He), IH; auto.
Qed.

(** ** Loading *)

Section Loading.

Context {FT : FloatText} {PY : Python}.

Ltac unfold_load_row :=
  unfold load_row, int_cell, float_cell, row_cell, int_of_str, div_float_int,
    bind, ret, raise.

Ltac split_load_row :=
  repeat match goal with
    | |- context [match dict_get ?k ?row with _ => _ end] =>
        let E := fresh "E" in destruct (dict_get k row) as [[?|]|] eqn:E
    | |- context [match py_int ?s with _ => _ end] =>
        let E := fresh "E" in destruct (py_int s) eqn:E
    | |- context [match float_of_string ?s with _ => _ end] =>
        let E := fresh "E" in destruct (float_of_string s) eqn:E
    | |- context [match float_of_Z ?s with _ => _ end] =>
        let E := fresh "E" in destruct (float_of_Z s) eqn:E
    | |- context [if PrimFloat.eqb ?a ?b then _ else _] =>
        let E := fresh "E" in destruct (PrimFloat.eqb a b) eqn:E
    end.

Lemma load_row_ok (row : dict (option string)) (name : string) (item : Item)
    (inv : Inventory) (w : World) :
  row_parses row name item ->
  load_row row inv w = (Ok (dict_set name item inv), w).
Proof.
  intros (name_s & qs & ps & us & cs & fu & H1 & -> & H2 & H3 & H4 & H5 & H6 & H7
          & H8 & H9 & H10 & H11 & H12).
  unfold_load_row.
  rewrite H1, H2, H3, H4, H5, H6, H7, H8, H9, H10, H11.
  destruct item; simpl in *; subst; reflexivity.
Qed.

Lemma load_row_inv (row : dict (option string)) (inv inv' : Inventory) (w w' : World) :
  load_row row inv w = (Ok inv', w') ->
  w' = w /\ exists name item, row_parses row name item /\ inv' = dict_set name item inv.
Proof.
  unfold_load_row; split_load_row; try discriminate.
  intros [= <- <-]; split; auto.
  do 2 eexists; split; [|reflexivity].
  unfold row_parses; simpl.
  do 6 eexists; repeat split; eauto.
Qed.

Lemma load_row_world (row : dict (option string)) (inv : Inventory) (w : World) :
  snd (load_row row inv w) = w /\ fst (load_row row inv w) <> Raise FileNotFoundError
  /\ fst (load_row row inv w) <> OutOfFuel.
Proof.
  unfold_load_row; split_load_row; simpl; repeat split; congruence.
Qed.

Lemma load_rows_ok (rows : list (dict (option string))) :
  forall (entries : list (string * Item)) (inv : Inventory) (w : World),
    Forall2 (fun row e => row_parses row (fst e) (snd e)) rows entries ->
    for_each rows load_row inv w = (Ok (table_of entries inv), w).
Proof.
  induction rows as [|row rows IH]; intros entries inv w H; inversion H; subst; simpl.
  - reflexivity.
  - unfold bind; rewrite (load_row_ok _ _ _ _ _ H2); apply IH; assumption.
Qed.

Lemma load_rows_inv (rows : list (dict (option string))) :
  forall (inv inv' : Inventory) (w w' : World),
    for_each rows load_row inv w = (Ok inv', w') ->
    w' = w
    /\ exists entries,
        Forall2 (fun row e => row_parses row (fst e) (snd e)) rows entries
        /\ inv' = table_of entries inv.
Proof.
  induction rows as [|row rows IH]; intros inv inv' w w'; simpl.
  - intros [= <- <-]; split; auto. exists []; split; auto.
  - unfold bind at 1.
    destruct (load_row row inv w) as [[inv1|e|] w1] eqn:E; try discriminate.
    apply load_row_inv in E as (-> & name & item & Hrow & ->).
    intros H; apply IH in H as (-> & entries & HF & ->); split; auto.
    exists ((name, item) :: entries); split; auto.
Qed.

Lemma load_rows_world (rows : list (dict (option string))) :
  forall (inv : Inventory) (w : World),
    snd (for_each rows load_row inv w) = w
    /\ fst (for_each rows load_row inv w) <> Raise FileNotFoundError
    /\ fst (for_each rows load_row inv w) <> OutOfFuel.
Proof.
  induction rows as [|row rows IH]; intros inv w; simpl.
  - repeat split; discriminate.
  - unfold bind.
    destruct (load_row_world row inv w) as (Hw & Hf & Ho).
    destruct (load_row row inv w) as [[inv1|e|] w1]; simpl in *; subst.
    + apply IH.
    + repeat split; congruence.
    + congruence.
Qed.

(** With the file there, loading is the loop over its rows. *)
Lemma load_inventory_present (filename : string) (rows : csv_file) (w : World) :
  dict_get filename (files w) = Some rows ->
  load_inventory filename w = for_each (dict_reader rows) load_row [] w.
Proof.
  intros H; unfold load_inventory, try_except, bind at 1, read_csv; rewrite H.
  destruct (load_rows_world (dict_reader rows) [] w) as (Hw & Hf & _).
  destruct (for_each (dict_reader rows) load_row [] w) as [[inv|e|] w1]; simpl in *; auto.
  destruct e; simpl; auto; congruence.
Qed.

Lemma load_inventory_missing (filename : string) (w : World) :
  dict_get filename (files w) = None ->
  load_inventory filename w = (Ok [], emits [Printed "inventory.csv not found."] w).
Proof.
  intros H; unfold load_inventory, try_except, bind at 1, read_csv; rewrite H; reflexivity.
Qed.

End Loading.

(** ** Tables built from rows *)

Lemma table_of_app (e1 e2 : list (string * Item)) (inv : Inventory) :
  table_of (e1 ++ e2) inv = table_of e2 (table_of e1 inv).
Proof. unfold table_of; apply fold_left_app. Qed.

Lemma NoDup_table_of (entries : list (string * Item)) (inv : Inventory) :
  NoDup (keys inv) -> NoDup (keys (table_of entries inv)).
Proof.
  revert inv; induction entries as [|[n it] r IH]; intros inv H; simpl; auto.
  apply IH, NoDup_keys_dict_set, H.
Qed.

Lemma in_keys_table_of (entries : list (string * Item)) (inv : Inventory) (n : string) :
  In n (keys (table_of entries inv)) <-> In n (keys inv) \/ In n (map fst entries).
Proof.
  revert inv; induction entries as [|[n' it] r IH]; intros inv; simpl; [tauto|].
  rewrite IH, in_keys_dict_set; intuition congruence.
Qed.

Lemma table_of_get_other (entries : list (string * Item)) (inv : Inventory) (n : string) :
  ~ In n (map fst entries) -> dict_get n (table_of entries inv) = dict_get n inv.
Proof.
  revert inv; induction entries as [|[n' it] r IH]; intros inv H; simpl in *; auto.
  rewrite IH by tauto; apply dict_get_set_other; intros ->; tauto.
Qed.

(** The last entry under a name is the one the table holds. *)
Lemma table_of_last (pre post : list (string * Item)) (inv : Inventory) (n : string) (it : Item) :
  ~ In n (map fst post) ->
  dict_get n (table_of (pre ++ (n, it) :: post) inv) = Some it.
Proof.
  intros H; rewrite table_of_app; simpl.
  rewrite table_of_get_other by assumption; apply dict_get_set_same.
Qed.

Lemma table_of_get (entries : list (string * Item)) (inv : Inventory) (n : string) (it : Item) :
  dict_get n (table_of entries inv) = Some it ->
  dict_get n inv = Some it \/ In (n, it) entries.
Proof.
  revert inv; induction entries as [|[n' it'] r IH]; intros inv H; simpl in *; auto.
  apply IH in H as [H|H]; auto.
  destruct (String.eqb n' n) eqn:E.
  - apply String.eqb_eq in E; subst n'; rewrite dict_get_set_same in H.
    injection H as ->; auto.
  - apply String.eqb_neq in E; rewrite dict_get_set_other in H; auto.
Qed.

(** Entries with distinct new names are appended as they are. *)
Lemma table_of_fresh (entries : list (string * Item)) (inv : Inventory) :
  NoDup (keys inv ++ map fst entries) ->
  table_of entries inv = (inv ++ entries)%list.
Proof.
  revert inv; induction entries as [|[n it] r IH]; intros inv H; simpl.
  - rewrite List.app_nil_r; reflexivity.
  - assert (Hn : ~ In n (keys inv)).
    { apply NoDup_remove_2 in H; rewrite in_app_iff in H; tauto. }
    rewrite dict_set_absent by assumption.
    rewrite IH.
    + rewrite <- List.app_assoc; reflexivity.
    + unfold keys in *; rewrite map_app, <- List.app_assoc; exact H.
Qed.

(** ** Saving and loading again *)

Section RoundTrip.

Context {FT : FloatText} {PY : Python}.

(** What loading guarantees about an entry of the table. *)
Definition loaded_entry (e : string * Item) : Prop :=
  lower (fst e) = fst e
  /\ writable (snd e) = true
  /\ exists fu, float_of_Z (units_per_box (snd e)) = Some fu
                /\ PrimFloat.eqb fu 0%float = false
                /\ per_unit_price (snd e) = PrimFloat.div (price (snd e)) fu.

Lemma row_parses_loaded (row : dict (option string)) (n : string) (it : Item) :
  row_parses row n it -> loaded_entry (n, it).
Proof.
  intros (name_s & qs & ps & us & cs & fu & H1 & -> & H2 & H3 & H4 & H5 & H6 & H7
          & H8 & H9 & H10 & H11 & H12).
  split; [apply lower_idem|]; split; simpl; [|eauto].
  unfold writable.
  rewrite (py_int_fits _ _ H3), (py_int_fits _ _ H7), (py_int_fits _ _ H9); reflexivity.
Qed.

Lemma loaded_entries (filename : string) (w w1 : World) (T : Inventory) :
  load_inventory filename w = (Ok T, w1) ->
  NoDup (keys T) /\ Forall loaded_entry T.
Proof.
  intros H; destruct (dict_get filename (files w)) as [rows|] eqn:E.
  - rewrite (load_inventory_present _ _ _ E) in H.
    apply load_rows_inv in H as (_ & entries & HF & ->); split.
    + apply NoDup_table_of; constructor.
    + apply Forall_forall; intros [n it] Hin.
      assert (Hg : dict_get n (table_of entries []) = Some it)
        by (apply dict_in_get; [apply NoDup_table_of; constructor | exact Hin]).
      apply table_of_get in Hg as [Hg|Hg]; [discriminate|].
      clear - HF Hg. induction HF as [|row e rows' entries' Hr HF IH]; [contradiction|].
      destruct Hg as [->|Hg]; [exact (row_parses_loaded _ _ _ Hr) | auto].
  - rewrite (load_inventory_missing _ _ E) in H; injection H as <- _.
    split; constructor.
Qed.

(** The record written for a loaded entry reads back as that entry. *)
Lemma saved_row_parses (n : string) (it : Item) :
  loaded_entry (n, it) ->
  float_of_string (repr_float (price it)) = Some (price it) ->
  row_parses (row_dict fieldnames (item_record (n, it))) n it.
Proof.
  intros (Hl & Hw & fu & Hf & Hz & Hp) Hrepr; simpl in *.
  unfold writable in Hw.
  apply andb_true_iff in Hw as [Hw Hc]; apply andb_true_iff in Hw as [Hq Hu].
  exists n, (str_int (quantity it)), (repr_float (price it)),
    (str_int (units_per_box it)), (str_int (critical_level it)), fu.
  rewrite !py_int_str_int by assumption.
  repeat split; auto.
Qed.

Lemma dict_reader_saved (T : Inventory) :
  dict_reader (fieldnames :: map item_record T)
  = map (fun e => row_dict fieldnames (item_record e)) T.
Proof.
  unfold dict_reader; rewrite <- map_map; f_equal.
  induction T as [|[n it] r IH]; simpl; [reflexivity|].
  rewrite IH; reflexivity.
Qed.

Lemma written_all (T : Inventory) :
  forallb (fun e => writable (snd e)) T = true -> written T = T.
Proof.
  induction T as [|e r IH]; simpl; [reflexivity|].
  intros H; apply andb_true_iff in H as [He Hr]; rewrite He, IH; auto.
Qed.

Lemma written_prefix (T : Inventory) :
  exists k, written T = firstn k T
            /\ (forallb (fun e => writable (snd e)) T = true -> k = List.length T)
            /\ (forallb (fun e => writable (snd e)) T = false ->
                exists e, nth_error T k = Some e /\ writable (snd e) = false).
Proof.
  induction T as [|e r (k & Hk & Hall & Hnot)]; simpl.
  - exists O; split; [reflexivity|]; split; [reflexivity | discriminate].
  - destruct (writable (snd e)) eqn:He; simpl.
    + exists (S k); simpl; rewrite Hk; split; [reflexivity|]; split.
      * intros H; rewrite (Hall H); reflexivity.
      * exact Hnot.
    + exists O; split; [reflexivity|]; split; [discriminate|].
      intros _; exists e; split; [reflexivity | exact He].
Qed.

Lemma written_writable (T : Inventory) :
  Forall (fun e => writable (snd e) = true) (written T).
Proof.
  induction T as [|e r IH]; simpl; [constructor|].
  destruct (writable (snd e)) eqn:He; constructor; assumption.
Qed.

Lemma loaded_writable (T : Inventory) :
  Forall loaded_entry T -> forallb (fun e => writable (snd e)) T = true.
Proof.
  induction 1 as [|e r (_ & He & _) _ IH]; simpl; [reflexivity|].
  rewrite He, IH; reflexivity.
Qed.

(** One record more in the file that is being written. *)
Lemma write_record_run (filename : string) (row : list string) (rows : csv_file)
    (d : dict csv_file) (w : World) :
  write_record filename row (with_files (dict_set filename rows d) w)
  = (Ok tt, with_files (dict_set filename (rows ++ [row])%list d) w).
Proof.
  unfold write_record; simpl.
  rewrite dict_get_set_same, dict_set_set; reflexivity.
Qed.

Lemma save_row_run (filename : string) (e : string * Item) (rows : csv_file)
    (d : dict csv_file) (w : World) :
  save_row filename e tt (with_files (dict_set filename rows d) w)
  = if writable (snd e)
    then (Ok tt, with_files (dict_set filename (rows ++ [item_record e])%list d) w)
    else (Raise ValueError, with_files (dict_set filename rows d) w).
Proof.
  destruct e as [n it]; unfold save_row, str_cell, py_str_int, writable, bind; simpl.
  destruct (digits_fit (quantity it)); simpl; [|reflexivity].
  destruct (digits_fit (units_per_box it)); simpl; [|reflexivity].
  destruct (digits_fit (critical_level it)); simpl; [|reflexivity].
  apply write_record_run.
Qed.

Lemma save_rows_run (filename : string) (T : Inventory) :
  forall (rows : csv_file) (d : dict csv_file) (w : World),
    for_each T (save_row filename) tt (with_files (dict_set filename rows d) w)
    = (if forallb (fun e => writable (snd e)) T then Ok tt else Raise ValueError,
       with_files (dict_set filename (rows ++ map item_record (written T))%list d) w).
Proof.
  induction T as [|e r IH]; intros rows d w; simpl.
  - rewrite List.app_nil_r; reflexivity.
  - unfold bind; rewrite save_row_run.
    destruct (writable (snd e)); simpl.
    + rewrite IH, <- List.app_assoc; reflexivity.
    + rewrite List.app_nil_r; reflexivity.
Qed.

(** Saving writes the header and then the records of the items up to the
    first that cannot be written; it returns when there is none. *)
Lemma save_inventory_run (filename : string) (w : World) :
  save_inventory filename w
  = (if forallb (fun e => writable (snd e)) (table w) then Ok tt else Raise ValueError,
     with_files
       (dict_set filename (fieldnames :: map item_record (written (table w))) (files w)) w).
Proof.
  unfold save_inventory, bind, get_table, open_write; cbv beta iota.
  rewrite write_record_run; cbv beta iota.
  rewrite save_rows_run; reflexivity.
Qed.

Lemma save_inventory_ok (filename : string) (w : World) :
  forallb (fun e => writable (snd e)) (table w) = true ->
  save_inventory filename w
  = (Ok tt, with_files (dict_set filename (fieldnames :: map item_record (table w)) (files w)) w).
Proof. intros H; rewrite save_inventory_run, H, written_all by assumption; reflexivity. Qed.

Lemma save_inventory_inv (filename : string) (w w' : World) :
  save_inventory filename w = (Ok tt, w') ->
  forallb (fun e => writable (snd e)) (table w) = true
  /\ w' = with_files (dict_set filename (fieldnames :: map item_record (table w)) (files w)) w.
Proof.
  rewrite save_inventory_run.
  destruct (forallb _ (table w)) eqn:E; [|discriminate].
  rewrite written_all by assumption; intros [= <-]; auto.
Qed.

Lemma reload_saved (filename : string) (T : Inventory) (w : World) :
  NoDup (keys T) -> Forall loaded_entry T ->
  (forall n it, In (n, it) T -> float_of_string (repr_float (price it)) = Some (price it)) ->
  dict_get filename (files w) = Some (fieldnames :: map item_record T) ->
  load_inventory filename w = (Ok T, w).
Proof.
  intros Hnd Hl Hrepr Hfile.
  rewrite (load_inventory_present _ _ _ Hfile), dict_reader_saved.
  rewrite (load_rows_ok _ T).
  - rewrite table_of_fresh; auto.
  - clear Hnd Hfile; induction T as [|[n it] r IH]; simpl; constructor.
    + inversion Hl; subst; apply saved_row_parses; auto. apply (Hrepr n); left; reflexivity.
    + inversion Hl; subst; apply IH; auto. intros; eapply Hrepr; right; eauto.
Qed.

End RoundTrip.

(** ** The handlers read on and change quantities only *)

Section HandlersKeep.

Context {FT : FloatText} {PY : Python}.

Lemma reads_on_menu_body (filename : string) (u : unit) :
  respects reads_on (menu_body filename u).
Proof. apply respects_menu_body; auto with respects. Qed.

Lemma only_quantities_menu_body (filename : string) (u : unit) :
  respects only_quantities (menu_body filename u).
Proof. apply respects_menu_body; auto with respects. Qed.

(** No round of the menu adds, removes or renames an item. *)
Lemma menu_body_keeps_keys (filename : string) (u : unit) (w : World) :
  keys (table (snd (menu_body filename u w))) = keys (table w).
Proof. apply frozen_keys, only_quantities_menu_body. Qed.

Lemma reads_on_handlers :
  respects reads_on daily_inventory_entry
  /\ respects reads_on place_order
  /\ (forall filename, respects reads_on (save_inventory filename)).
Proof.
  repeat split; intros;
    [apply respects_daily_inventory_entry | apply respects_place_order
     | apply respects_save_inventory]; auto with respects.
Qed.

Lemma menu_body_advances (filename : string) : advances (menu_body filename).
Proof.
  intros u w u' w' H; unfold menu_body in H; unfold bind at 1 in H.
  rewrite print_run in H.
  change (List.length (stdin w)) with (List.length (stdin (emits [Printed menu_text] w))).
  eapply input_then_advances; [| exact H | eauto].
  destruct reads_on_handlers as (Hd & Hp & Hs).
  intros line; cbv beta zeta; respects_auto.
Qed.

End HandlersKeep.

(** ** The order processor around its loop *)

Lemma for_each_print {X : Type} (xs : list X) (f : X -> string) (w : World) :
  for_each xs (fun x _ => print (f x)) tt w
  = (Ok tt, emits (map (fun x => Printed (f x)) xs) w).
Proof.
  revert w; induction xs as [|x r IH]; intros w; simpl.
  - unfold ret; rewrite emits_nil; reflexivity.
  - unfold bind; rewrite print_run, IH, emits_emits; reflexivity.
Qed.

Lemma show_inventory_run (w : World) :
  show_inventory w = (Ok tt, emits (listing (table w)) w).
Proof.
  unfold show_inventory, bind at 1, get_table at 1.
  unfold bind at 1; rewrite print_run.
  unfold bind at 1; rewrite print_run.
  unfold bind at 1; rewrite for_each_print.
  rewrite print_run, !emits_emits; reflexivity.
Qed.

(** For a single float both versions of [sum] add it to the integer [0]. *)
Lemma py_sum_one {PY : Python} (x : float) : py_sum [x] = PrimFloat.add 0%float x.
Proof.
  unfold py_sum, sum_compensated, sum_left; destruct compensated_sum; reflexivity.
Qed.

Lemma order_summary_run {PY : Python} (order : Order) (w : World) :
  order <> [] ->
  exists evs, order_summary order w = (Ok tt, emits (evs ++ totals order) w).
Proof.
  intros Hne; destruct order as [|e r]; [congruence|].
  unfold order_summary.
  eexists (_ :: _ :: (map (fun x => Printed (order_line x)) (e :: r) ++ [_]))%list.
  unfold bind at 1; rewrite print_run.
  cbv zeta; unfold bind at 1; rewrite print_run.
  unfold bind at 1; rewrite for_each_print.
  unfold bind at 1; rewrite print_run.
  unfold bind at 1; rewrite print_run.
  unfold bind at 1; rewrite print_run.
  rewrite print_run, !emits_emits.
  unfold totals, order_grand_total, order_gst, order_total, GST_RATE, values.
  rewrite map_map.
  f_equal; f_equal. simpl. rewrite <- !List.app_assoc; reflexivity.
Qed.

Lemma place_order_run {PY : Python} (w : World) :
  place_order w
  = match while_input (order_body (keys (table w))) []
            (emits (listing (table w)
                    ++ [Printed (nl ++ "================= Place Order =================")])%list w)
    with
    | (Ok order, w2) => order_summary order w2
    | (Raise e, w2) => (Raise e, w2)
    | (OutOfFuel, w2) => (OutOfFuel, w2)
    end.
Proof.
  unfold place_order; unfold bind at 1; rewrite show_inventory_run.
  unfold bind at 1; rewrite print_run, emits_emits.
  unfold bind at 1, get_table at 1; cbv zeta; unfold bind at 1.
  reflexivity.
Qed.

(** ** The loops never run out of fuel *)

Lemma fuel_ret {A : Type} (a : A) : never_out_of_fuel (ret a).
Proof. intros w; discriminate. Qed.

Lemma fuel_raise {A : Type} (e : exn) : never_out_of_fuel (@raise A e).
Proof. intros w; discriminate. Qed.

Lemma fuel_print (s : string) : never_out_of_fuel (print s).
Proof. intros w; discriminate. Qed.

Lemma fuel_input (p : string) : never_out_of_fuel (input p).
Proof. intros w; unfold input; destruct (stdin _); discriminate. Qed.

Lemma fuel_get_table : never_out_of_fuel get_table.
Proof. intros w; discriminate. Qed.

Lemma fuel_set_table (t : Inventory) : never_out_of_fuel (set_table t).
Proof. intros w; discriminate. Qed.

Lemma fuel_open_write (filename : string) : never_out_of_fuel (open_write filename).
Proof. intros w; discriminate. Qed.

Lemma fuel_write_record (filename : string) (row : list string) :
  never_out_of_fuel (write_record filename row).
Proof. intros w; discriminate. Qed.

Lemma fuel_bind {A B : Type} (m : M A) (k : A -> M B) :
  never_out_of_fuel m -> (forall a, never_out_of_fuel (k a)) -> never_out_of_fuel (bind m k).
Proof.
  intros Hm Hk w; unfold bind; specialize (Hm w).
  destruct (m w) as [[a|e|] w']; simpl in *; [apply Hk | discriminate | congruence].
Qed.

Lemma fuel_try_except {A : Type} (body handler : M A) (e : exn) :
  never_out_of_fuel body -> never_out_of_fuel handler ->
  never_out_of_fuel (try_except body e handler).
Proof.
  intros Hb Hh w; unfold try_except; specialize (Hb w).
  destruct (body w) as [[a|e'|] w']; simpl in *; try discriminate; try congruence.
  destruct (exn_eqb e' e); [apply Hh | discriminate].
Qed.

Lemma fuel_for_each {X S : Type} (xs : list X) (body : X -> S -> M S) (s : S) :
  (forall x s, never_out_of_fuel (body x s)) -> never_out_of_fuel (for_each xs body s).
Proof.
  intros Hb; revert s; induction xs as [|x r IH]; intros s; simpl.
  - apply fuel_ret.
  - apply fuel_bind; auto.
Qed.

Create HintDb fuel discriminated.

#[export] Hint Resolve fuel_ret fuel_raise fuel_print fuel_input fuel_get_table
  fuel_set_table fuel_open_write fuel_write_record : fuel.

Ltac fuel_step :=
  match goal with
  | |- never_out_of_fuel (bind _ _) => apply fuel_bind; [| intros ?]
  | |- never_out_of_fuel (try_except _ _ _) => apply fuel_try_except
  | |- never_out_of_fuel (for_each _ _ _) => apply fuel_for_each; intros ? ?
  | |- never_out_of_fuel (while_input _ _) => apply while_input_fuel; [| intros ?]
  | |- never_out_of_fuel (if ?c then _ else _) => destruct c
  | |- never_out_of_fuel (match ?x with _ => _ end) => destruct x
  | |- never_out_of_fuel _ => solve [auto with fuel]
  end.

Ltac fuel_auto := repeat fuel_step.

Section Fuel.

Context {FT : FloatText} {PY : Python}.

Lemma fuel_load_inventory (filename : string) : never_out_of_fuel (load_inventory filename).
Proof.
  intros w; destruct (dict_get filename (files w)) as [rows|] eqn:E.
  - rewrite (load_inventory_present _ _ _ E); apply load_rows_world.
  - rewrite (load_inventory_missing _ _ E); discriminate.
Qed.

Lemma fuel_order_body (items : list string) (order : Order) :
  never_out_of_fuel (order_body items order).
Proof.
  unfold order_body, int_of_str, get_item, set_quantity, mul_float_int; cbv zeta; fuel_auto.
Qed.

Lemma fuel_place_order : never_out_of_fuel place_order.
Proof.
  unfold place_order, show_inventory, order_summary; cbv zeta; fuel_auto.
  - apply order_body_advances.
  - apply fuel_order_body.
Qed.

Lemma fuel_menu_body (filename : string) (u : unit) :
  never_out_of_fuel (menu_body filename u).
Proof.
  pose proof fuel_place_order as Hp.
  unfold menu_body, show_low_stock_alerts, alert_body, show_inventory,
    daily_inventory_entry, daily_entry_body, waste_entry, waste_body, save_inventory,
    save_row, str_cell, int_of_str, set_quantity, mul_int_float; cbv zeta; fuel_auto.
Qed.

(** Whatever is typed, [main] ends with a value or an exception. *)
Lemma main_never_out_of_fuel : never_out_of_fuel main.
Proof.
  unfold main, show_low_stock_alerts, alert_body; cbv zeta; fuel_auto.
  - apply fuel_load_inventory.
  - apply menu_body_advances.
  - apply fuel_menu_body.
Qed.

End Fuel.

(** ** The claims *)

Section Claims.

Context {FT : FloatText} {PY : Python}.

(** C3. The low-stock scan prints its header, then one warning for each
    item with [quantity < critical_level], in table order and for no other
    item, and then the "sufficiently stocked" line exactly when no item is
    below its level. *)
Theorem low_stock_scan_exact (w : World) :
  let low := filter is_low (table w) in
  let tail := if existsb is_low (table w) then [] else [stocked_event] in
  show_low_stock_alerts w = (Ok tt, emits (scan_header :: map alert_event low ++ tail)%list w)
  /\ (forall entry, In entry low <->
                    In entry (table w) /\ quantity (snd entry) < critical_level (snd entry))
  /\ (In stocked_event (scan_header :: map alert_event low ++ tail)%list <->
      forall entry, In entry (table w) -> ~ quantity (snd entry) < critical_level (snd entry)).
Proof.
  cbv zeta; split; [apply show_low_stock_alerts_run|]; split.
  - intros entry; rewrite filter_In; unfold is_low; rewrite Z.ltb_lt; tauto.
  - assert (Hno : ~ In stocked_event
                    (scan_header :: map alert_event (filter is_low (table w)))).
    { intros [H|H]; [discriminate|].
      apply in_map_iff in H as ([n it] & H & _); discriminate. }
    destruct (existsb is_low (table w)) eqn:E.
    + rewrite List.app_nil_r; split; [tauto|].
      intros Hall; apply existsb_exists in E as (entry & Hin & Hlow).
      unfold is_low in Hlow; apply Z.ltb_lt in Hlow; exfalso; eapply Hall; eauto.
    + split.
      * intros _ entry Hin Hlt.
        assert (Hex : existsb is_low (table w) = true)
          by (apply existsb_exists; exists entry; split; auto;
              unfold is_low; apply Z.ltb_lt; exact Hlt).
        congruence.
      * intros _; right; apply in_or_app; right; left; reflexivity.
Qed.

(** C8. The waste logger changes neither the table (no quantity, no other
    field, no key) nor any file, however it ends; when it returns, the
    last thing it printed is the total cost of the waste. *)
Theorem waste_logger_is_read_only (w : World) :
  table (snd (waste_entry w)) = table w
  /\ files (snd (waste_entry w)) = files w
  /\ (fst (waste_entry w) = Ok tt ->
      exists out total,
        stdout (snd (waste_entry w))
        = (out ++ [Printed ("Total cost of waste: $" ++ format_fixed 2 total)])%list).
Proof.
  destruct (respects_waste_entry same_store w) as [Ht Hf].
  split; [exact Ht|]; split; [exact Hf|].
  assert (Hrun : waste_entry w
                 = match for_each (enumerate 1 (table w)) waste_body 0%float
                           (emits [Printed (nl ++ "=== Waste Tracking ===")] w) with
                   | (Ok total, w2) =>
                       (Ok tt, emits [Printed ("Total cost of waste: $" ++ format_fixed 2 total)] w2)
                   | (Raise e, w2) => (Raise e, w2)
                   | (OutOfFuel, w2) => (OutOfFuel, w2)
                   end) by reflexivity.
  rewrite Hrun.
  destruct (for_each _ waste_body _ _) as [[total| |] w2]; simpl; try discriminate.
  intros _; exists (stdout w2), total; reflexivity.
Qed.

(** C5. With one line typed per item, the count updater returns normally
    having read exactly those lines; an item whose line is an integer [v]
    (as [int] reads it) has quantity [v] afterwards, whatever it was, an
    item whose line is not an integer has the quantity it had, no item
    changes in another field, and the other lines do not matter. *)
Theorem count_updater_sets_or_skips (w : World) (lines rest : list string) :
  NoDup (keys (table w)) ->
  stdin w = (lines ++ rest)%list ->
  List.length lines = List.length (table w) ->
  exists w',
    daily_inventory_entry w = (Ok tt, w')
    /\ stdin w' = rest
    /\ files w' = files w
    /\ keys (table w') = keys (table w)
    /\ forall i name item line,
        nth_error (table w) i = Some (name, item) ->
        nth_error lines i = Some line ->
        exists item',
          dict_get name (table w') = Some item'
          /\ quantity item' = match py_int line with
                              | Some v => v
                              | None => quantity item
                              end
          /\ price item' = price item
          /\ units_per_box item' = units_per_box item
          /\ critical_level item' = critical_level item
          /\ per_unit_price item' = per_unit_price item.
Proof.
  intros Hnd Hin Hlen.
  destruct (daily_inventory_entry_run w lines rest Hnd Hin Hlen) as [evs Hrun].
  eexists; split; [exact Hrun|]; simpl.
  repeat split; auto using keys_count_update.
  intros i name item line Ht Hl.
  pose proof (nth_error_count_update _ _ _ _ _ Ht Hl) as Hnth.
  apply nth_error_In in Hnth.
  assert (Hnd' : NoDup (keys (count_update (table w) lines)))
    by (rewrite keys_count_update; assumption).
  destruct (entered_fields name item line) as (item' & He & Hfields).
  rewrite He in Hnth.
  exists item'; split; [apply dict_in_get; assumption | exact Hfields].
Qed.

(** C6. A pick whose box quantity does not parse as an integer, or is not
    positive, changes nothing but the console: the round ends with the
    order record it started with, the table and the files are the same,
    and the loop goes on from there with the next line as a product number. *)
Theorem bad_quantity_abandons_pick (items : list string) (order : Order) (w : World)
    (line name ql : string) (rest : list string) :
  stdin w = line :: ql :: rest ->
  selects items line name ->
  py_int ql = None \/ (exists q, py_int ql = Some q /\ q <= 0) ->
  exists msg,
    let w' := with_stdin rest (emits [prompt_choice; prompt_boxes name; Printed msg] w) in
    order_body items order w = (Ok (Continue order), w')
    /\ table w' = table w
    /\ files w' = files w
    /\ while_input (order_body items) order w = while_input (order_body items) order w'.
Proof.
  intros Hin Hsel [Hq|(q & Hq & Hle)].
  - exists "Invalid quantity."; cbv zeta.
    pose proof (order_body_not_a_number items order w _ _ _ _ Hin Hsel Hq) as Hrun.
    repeat split; auto.
    rewrite while_input_unroll by apply order_body_advances.
    rewrite Hrun; reflexivity.
  - exists "Must be > 0"; cbv zeta.
    pose proof (order_body_not_positive items order w _ _ _ _ _ Hin Hsel Hq Hle) as Hrun.
    repeat split; auto.
    rewrite while_input_unroll by apply order_body_advances.
    rewrite Hrun; reflexivity.
Qed.

(** C9. Without the file, the loader prints that it was not found and
    returns the empty table; [main] then is the menu loop over the empty
    table, after the scan found everything stocked: typing 5 at the
    first menu saves an empty inventory and ends the program normally. *)
Theorem missing_file_is_not_fatal (w : World) :
  dict_get "inventory.csv" (files w) = None ->
  let w1 := emits [Printed "inventory.csv not found."; scan_header; stocked_event]
              (with_table [] w) in
  load_inventory "inventory.csv" w = (Ok [], emits [Printed "inventory.csv not found."] w)
  /\ main w = while_input (menu_body "inventory.csv") tt w1
  /\ forall line rest,
      stdin w = line :: rest -> strip line = "5" ->
      main w
      = (Ok tt,
         with_files (dict_set "inventory.csv" [fieldnames] (files w))
           (with_stdin rest
              (emits [Printed menu_text; Prompted "Choose an option: ";
                      Printed "Saved and exiting."] w1))).
Proof.
  intros Hmiss w1.
  assert (Hmain : main w = while_input (menu_body "inventory.csv") tt w1).
  { unfold main; cbv zeta; unfold bind at 1.
    rewrite (load_inventory_missing _ _ Hmiss).
    unfold bind at 1, set_table at 1; unfold bind at 1.
    rewrite show_low_stock_alerts_run; simpl; subst w1; f_equal; same_world. }
  split; [apply load_inventory_missing; exact Hmiss|]; split; [exact Hmain|].
  intros line rest Hin H5; rewrite Hmain.
  rewrite while_input_unroll by apply menu_body_advances.
  unfold menu_body; unfold bind at 1; rewrite print_run; unfold bind at 1.
  rewrite (input_run _ line rest) by exact Hin.
  cbv zeta; rewrite H5; cbn [String.eqb Ascii.eqb Bool.eqb].
  unfold bind at 1; rewrite save_inventory_ok by reflexivity.
  unfold bind at 1; rewrite print_run; unfold ret; cbv iota beta.
  f_equal; same_world.
Qed.

(** Saving a loaded table gives a file that loads as the table, in every
    world that holds it. *)
Lemma round_trip_core (filename : string) (w w1 w2 : World) (T : Inventory) :
  load_inventory filename w = (Ok T, w1) ->
  (forall n it, In (n, it) T -> float_of_string (repr_float (price it)) = Some (price it)) ->
  table w2 = T ->
  exists w3,
    save_inventory filename w2 = (Ok tt, w3)
    /\ dict_get filename (files w3) = Some (fieldnames :: map item_record T)
    /\ forall w4,
        dict_get filename (files w4) = Some (fieldnames :: map item_record T) ->
        load_inventory filename w4 = (Ok T, w4).
Proof.
  intros Hload Hrepr Ht.
  destruct (loaded_entries _ _ _ _ Hload) as [Hnd Hl].
  eexists; split;
    [apply save_inventory_ok; rewrite Ht; apply loaded_writable; exact Hl|].
  split; [simpl; rewrite dict_get_set_same, Ht; reflexivity|].
  intros w4 Hfile; apply reload_saved; assumption.
Qed.

(** C2. For a table [T] that loading produced, saving [T] returns and
    leaves a file from which loading returns [T] itself: the same names
    in the same order, with the same quantity, price, units per box and
    critical level, and the per-unit price computed again is the one [T]
    has.  This holds in the world the save left and in every other world
    that holds the saved file, whatever its table, console and other
    files are.  ([repr] of each price is taken to read back as that
    price.) *)
Theorem save_then_load_round_trip (filename : string) (w w1 w2 : World) (T : Inventory) :
  load_inventory filename w = (Ok T, w1) ->
  (forall n it, In (n, it) T -> float_of_string (repr_float (price it)) = Some (price it)) ->
  table w2 = T ->
  exists w3 saved,
    save_inventory filename w2 = (Ok tt, w3)
    /\ dict_get filename (files w3) = Some saved
    /\ load_inventory filename w3 = (Ok T, w3)
    /\ forall w4,
        dict_get filename (files w4) = Some saved ->
        load_inventory filename w4 = (Ok T, w4).
Proof.
  intros Hload Hrepr Ht.
  destruct (round_trip_core _ _ _ _ _ Hload Hrepr Ht) as (w3 & Hs & Hf & Hl).
  exists w3, (fieldnames :: map item_record T); auto.
Qed.

(** The entries of the rows after a row do not have its name when the
    rows do not. *)
Lemma later_names (post : list (dict (option string))) (epost : list (string * Item))
    (n : string) :
  Forall2 (fun row e => row_parses row (fst e) (snd e)) post epost ->
  (forall r s, In r post -> dict_get "name" r = Some (Some s) -> lower s <> n) ->
  ~ In n (map fst epost).
Proof.
  induction 1 as [|row e post epost Hr HF IH]; intros Hno; simpl; [tauto|].
  intros [He|Hin].
  - destruct Hr as (name_s & qs & ps & us & cs & fu & H1 & H2 & _).
    apply (Hno row name_s); [left; reflexivity | exact H1 | congruence].
  - apply IH; auto. intros r s Hr'; apply Hno; right; exact Hr'.
Qed.

(** C7. After a load that succeeds, every row of the file has its item in
    the table, under the lower-cased name of the row, and the per-unit
    price of that item is its box price divided by its units per box; for
    a row that is the last with its name, these are the price and the
    units read from the cells of the row.  The saved file has the five
    columns of the header, none of them the per-unit price, and its
    records are the same for two items that differ in that field only.
    No round of the menu changes the field of any item. *)
Theorem per_unit_price_is_derived_at_load (filename : string) (w w1 : World)
    (rows : csv_file) (T : Inventory) :
  dict_get filename (files w) = Some rows ->
  load_inventory filename w = (Ok T, w1) ->
  (forall pre row post,
      dict_reader rows = (pre ++ row :: post)%list ->
      exists name_s ps us p u fu item fu',
        dict_get "name" row = Some (Some name_s)
        /\ dict_get "price" row = Some (Some ps) /\ float_of_string ps = Some p
        /\ dict_get "units_per_box" row = Some (Some us) /\ py_int us = Some u
        /\ float_of_Z u = Some fu
        /\ dict_get (lower name_s) T = Some item
        /\ float_of_Z (units_per_box item) = Some fu'
        /\ per_unit_price item = PrimFloat.div (price item) fu'
        /\ ((forall r s, In r post -> dict_get "name" r = Some (Some s) ->
                         lower s <> lower name_s) ->
            price item = p /\ units_per_box item = u
            /\ per_unit_price item = PrimFloat.div p fu))
  /\ (forall w2 r w3,
        save_inventory filename w2 = (r, w3) ->
        exists k, dict_get filename (files w3)
                  = Some (fieldnames :: firstn k (map item_record (table w2))))
  /\ fieldnames = ["name"; "quantity"; "price"; "units_per_box"; "critical_level"]
  /\ (forall name a b,
        quantity a = quantity b -> price a = price b ->
        units_per_box a = units_per_box b -> critical_level a = critical_level b ->
        item_record (name, a) = item_record (name, b))
  /\ (forall u w2 name item,
        dict_get name (table w2) = Some item ->
        exists item',
          dict_get name (table (snd (menu_body filename u w2))) = Some item'
          /\ per_unit_price item' = per_unit_price item).
Proof.
  intros Hfile Hload; pose proof Hload as Hload'.
  destruct (loaded_entries _ _ _ _ Hload) as [Hnd Hl].
  rewrite (load_inventory_present _ _ _ Hfile) in Hload.
  apply load_rows_inv in Hload as (_ & entries & HF & ->).
  split; [|split; [|split; [|split]]].
  - intros pre row post Hrows; rewrite Hrows in HF.
    apply Forall2_app_inv_l in HF as (epre & erest & Hpre & Hrest & ->).
    inversion Hrest as [|row' e post' epost Hrow Hpost]; subst.
    destruct e as [nm it].
    pose proof Hrow as Hrow'.
    destruct Hrow' as (name_s & qs & ps & us & cs & fu & H1 & H2 & _ & _ & H5 & H6 & H7
                       & H8 & _ & _ & H11 & _ & H13); simpl in *.
    assert (Hin : In nm (keys (table_of (epre ++ (nm, it) :: epost) [])))
      by (apply in_keys_table_of; right; rewrite map_app, in_app_iff; simpl; auto).
    destruct (in_keys_get _ _ Hin) as [item Hget].
    rewrite Forall_forall in Hl.
    destruct (Hl _ (dict_get_in _ _ _ _ Hget)) as (_ & _ & fu' & Hf' & _ & Hp'); simpl in *.
    exists name_s, ps, us, (price it), (units_per_box it), fu, item, fu'.
    subst nm; repeat split; auto;
      match goal with
      | Hlast : forall r s, In r post -> _ |- _ =>
          rewrite (table_of_last _ _ _ _ it (later_names _ _ _ Hpost Hlast)) in Hget;
          injection Hget as <-; auto
      end.
  - intros w2 r w3; rewrite save_inventory_run; intros [= _ <-]; simpl.
    destruct (written_prefix (table w2)) as (k & Hk & _).
    exists k; rewrite dict_get_set_same, Hk, firstn_map; reflexivity.
  - reflexivity.
  - intros name a b Hq Hp Hu Hc; simpl; congruence.
  - intros u w2 name item Hget.
    pose proof (only_quantities_menu_body filename u w2) as Hq.
    destruct (frozen_get _ _ _ _ Hq Hget) as (item' & Hg & Hf).
    exists item'; split; auto.
    unfold fixed_fields in Hf; congruence.
Qed.

(** C10 (amended). Loading keeps, for every lower-cased name, one entry
    holding the values of the last row with that name; the keys of the
    table are exactly the lower-cased names of the rows; and saving and
    loading again returns this table, also when rows collided. *)
Theorem colliding_names_keep_last_row (filename : string) (w w1 : World)
    (rows : csv_file) (T : Inventory) :
  dict_get filename (files w) = Some rows ->
  load_inventory filename w = (Ok T, w1) ->
  exists entries,
    Forall2 (fun row e => row_parses row (fst e) (snd e)) (dict_reader rows) entries
    /\ NoDup (keys T)
    /\ (forall n, In n (keys T) <-> In n (map fst entries))
    /\ (forall pre n it post,
          entries = (pre ++ (n, it) :: post)%list ->
          ~ In n (map fst post) ->
          dict_get n T = Some it)
    /\ ((forall n it, In (n, it) T ->
                      float_of_string (repr_float (price it)) = Some (price it)) ->
        forall w2, table w2 = T ->
        exists w3, save_inventory filename w2 = (Ok tt, w3)
                   /\ load_inventory filename w3 = (Ok T, w3)).
Proof.
  intros Hfile Hload; pose proof Hload as Hload'.
  rewrite (load_inventory_present _ _ _ Hfile) in Hload.
  apply load_rows_inv in Hload as (_ & entries & HF & ->).
  exists entries; split; [exact HF|]; split; [apply NoDup_table_of; constructor|].
  split; [|split].
  - intros n; rewrite in_keys_table_of; simpl; tauto.
  - intros pre n it post -> Hlast; apply table_of_last; assumption.
  - intros Hrepr w2 Ht.
    destruct (round_trip_core _ _ _ _ _ Hload' Hrepr Ht) as (w3 & Hs & Hf & Hl); eauto.
Qed.

(** C4. When the order processor returns, the stock of every item has
    grown by the boxes of every pick accepted for it, its other fields are
    as before, and the order record holds for the item the line of the
    last of these picks only (no line when it was not picked): that many
    boxes, the box price, and the price times the boxes as a float. *)
Theorem repicking_keeps_last_line_and_every_increment (w w' : World) :
  place_order w = (Ok tt, w') ->
  exists order w2,
    while_input (order_body (keys (table w))) []
      (emits (listing (table w)
              ++ [Printed (nl ++ "================= Place Order =================")])%list w)
    = (Ok order, w2)
    /\ order_summary order w2 = (Ok tt, w')
    /\ forall name item,
        dict_get name (table w) = Some item ->
        let qs := picked_for name (accepted_picks (keys (table w)) (stdin w)) in
        (exists item',
            dict_get name (table w') = Some item'
            /\ quantity item' = quantity item + sum_Z qs
            /\ price item' = price item
            /\ units_per_box item' = units_per_box item
            /\ critical_level item' = critical_level item
            /\ per_unit_price item' = per_unit_price item)
        /\ match rev qs with
           | [] => dict_get name order = None
           | q :: _ =>
               exists fq,
                 float_of_Z q = Some fq
                 /\ dict_get name order
                    = Some {| qty := q; unit_price := price item;
                              subtotal := PrimFloat.mul (price item) fq |}
           end.
Proof.
  intros Hrun; rewrite place_order_run in Hrun.
  destruct (while_input _ _ _) as [[order| |] w2] eqn:Hloop; try discriminate.
  exists order, w2; split; [reflexivity|]; split; [exact Hrun|].
  intros name item Hget.
  pose proof (fun n H1 H2 => order_loop_log (keys (table w)) n _ _ _ _ H1 H2 Hloop) as Hlog.
  destruct (Hlog _ (Nat.lt_succ_diag_r _) eq_refl) as [_ Hall].
  destruct (Hall name item Hget) as [Hq Hl]; simpl in Hq, Hl.
  pose proof (respects_order_summary same_store order w2) as [Ht _].
  rewrite Hrun in Ht; simpl in Ht.
  cbv zeta; rewrite Ht; split; [|exact Hl].
  eexists; split; [exact Hq|]; repeat split.
Qed.

(** C1 (amended). A valid pick of [q > 0] boxes of an item, with [q] in
    the range of a float, raises the item's quantity by exactly [q],
    leaves its other fields and the other items as they were, and records
    the line [{qty = q, unit_price = price, subtotal = price * float(q)}].
    An empty order prints nothing; the summary of any other order ends
    with three lines: the subtotal [t], which is [sum] over the line
    subtotals in the order of the record (for a single line [s], the float
    [0 + s]); the GST, the float product [t * 0.05]; and the total, the
    float sum of the two; each printed with two decimals. *)
Theorem valid_pick_adds_stock_and_bills (items : list string) (order : Order) (w : World)
    (line name ql : string) (rest : list string) (q : Z) (fq : float) (item : Item) :
  stdin w = line :: ql :: rest ->
  selects items line name ->
  py_int ql = Some q -> 0 < q ->
  float_of_Z q = Some fq ->
  dict_get name (table w) = Some item ->
  exists order' w' item',
    order_body items order w = (Ok (Continue order'), w')
    /\ dict_get name (table w') = Some item'
    /\ quantity item' = quantity item + q
    /\ price item' = price item
    /\ units_per_box item' = units_per_box item
    /\ critical_level item' = critical_level item
    /\ per_unit_price item' = per_unit_price item
    /\ (forall other, other <> name -> dict_get other (table w') = dict_get other (table w))
    /\ dict_get name order'
       = Some {| qty := q; unit_price := price item;
                 subtotal := PrimFloat.mul (price item) fq |}
    /\ (forall other, other <> name -> dict_get other order' = dict_get other order)
    /\ (forall w0, order_summary [] w0 = (Ok tt, w0))
    /\ (forall o w0,
          o <> [] ->
          let t := py_sum (map (fun e => subtotal (snd e)) o) in
          exists evs,
            order_summary o w0
            = (Ok tt,
               emits (evs ++ [Printed ("Subtotal: $" ++ format_fixed 2 t);
                              Printed ("GST (5%): $"
                                       ++ format_fixed 2 (PrimFloat.mul t 0.05%float));
                              Printed ("Total: $"
                                       ++ format_fixed 2
                                            (PrimFloat.add t (PrimFloat.mul t 0.05%float)))])
                 w0))
    /\ (forall s, py_sum [s] = PrimFloat.add 0%float s).
Proof.
  intros Hin Hsel Hq Hpos Hf Hget.
  do 3 eexists; split;
    [apply (order_body_pick items order w _ _ _ _ _ _ _ Hin Hsel Hq Hpos Hf Hget)|].
  simpl; rewrite !dict_get_set_same.
  split; [reflexivity|]; repeat split.
  - intros other Hne; apply dict_get_set_other; congruence.
  - intros other Hne; apply dict_get_set_other; congruence.
  - intros o w0 Hne; apply order_summary_run; assumption.
  - intros s; apply py_sum_one.
Qed.

End Claims.

(** ** The claims on sample data

    The sample runs are those of Python 3.12; the runs that show a claim
    to fail are given for both versions. *)

#[local] Existing Instance python312.

Lemma sample_file_loads :
  load_inventory (FT := DecimalText.text) "inventory.csv" (sample_world [])
  = (Ok sample_table, sample_world []).
Proof. vm_compute; reflexivity. Defined.

Lemma sample_prices_read_back (n : string) (it : Item) :
  In (n, it) sample_table ->
  DecimalText.of_string (DecimalText.to_string (price it)) = Some (price it).
Proof.
  intros [H|[H|[]]]; injection H as <- <-; vm_compute; reflexivity.
Defined.

Lemma selects_first : selects ["patty"; "big mac bun"] "1" "patty".
Proof.
  split; [reflexivity|]; exists 1; repeat split; try reflexivity; simpl; lia.
Defined.

(** C1, on the order of 3 boxes of patties at 20.00. *)
Lemma valid_pick_witness :
  exists order' w' item',
    order_body ["patty"; "big mac bun"] [] (session ["1"; "3"; "done"])
    = (Ok (Continue order'), w')
    /\ dict_get "patty" (table w') = Some item'
    /\ quantity item' = 13
    /\ dict_get "big mac bun" (table w') = Some sample_bun
    /\ dict_get "patty" order'
       = Some {| qty := 3; unit_price := 20%float; subtotal := 60%float |}.
Proof.
  destruct (valid_pick_adds_stock_and_bills ["patty"; "big mac bun"] []
              (session ["1"; "3"; "done"]) "1" "patty" "3" ["done"] 3 3%float sample_patty)
    as (o & w' & it' & H1 & H2 & H3 & _ & _ & _ & _ & H8 & H9 & _).
  - reflexivity.
  - exact selects_first.
  - reflexivity.
  - lia.
  - reflexivity.
  - reflexivity.
  - exists o, w', it'; split; [exact H1|]; split; [exact H2|]; split; [exact H3|].
    split; [|exact H9].
    rewrite (H8 "big mac bun") by discriminate; reflexivity.
Defined.

(** C2, on the sample file. *)
Lemma round_trip_witness :
  exists w3 saved,
    save_inventory (FT := DecimalText.text) "inventory.csv" (session []) = (Ok tt, w3)
    /\ dict_get "inventory.csv" (files w3) = Some saved
    /\ load_inventory (FT := DecimalText.text) "inventory.csv" w3 = (Ok sample_table, w3)
    /\ forall w4,
        dict_get "inventory.csv" (files w4) = Some saved ->
        load_inventory (FT := DecimalText.text) "inventory.csv" w4 = (Ok sample_table, w4).
Proof.
  apply (save_then_load_round_trip (FT := DecimalText.text) "inventory.csv"
           (sample_world []) (sample_world []) (session []) sample_table).
  - exact sample_file_loads.
  - exact sample_prices_read_back.
  - reflexivity.
Defined.

(** C4, on patties picked twice: 3 boxes, then 4. *)
Lemma repicking_witness :
  exists order w2 w',
    place_order (session ["1"; "3"; "1"; "4"; "done"]) = (Ok tt, w')
    /\ while_input (order_body (keys sample_table)) []
         (emits (listing sample_table
                 ++ [Printed (nl ++ "================= Place Order =================")])%list
            (session ["1"; "3"; "1"; "4"; "done"]))
       = (Ok order, w2)
    /\ (exists item', dict_get "patty" (table w') = Some item' /\ quantity item' = 17)
    /\ dict_get "patty" order
       = Some {| qty := 4; unit_price := 20%float; subtotal := 80%float |}.
Proof.
  assert (Hrun : place_order (session ["1"; "3"; "1"; "4"; "done"])
                 = (Ok tt, snd (place_order (session ["1"; "3"; "1"; "4"; "done"]))))
    by (vm_compute; reflexivity).
  destruct (repicking_keeps_last_line_and_every_increment _ _ Hrun)
    as (order & w2 & Hloop & _ & Hall).
  destruct (Hall "patty" sample_patty eq_refl) as [(it' & Hg & Hq & _) Hl].
  exists order, w2, (snd (place_order (session ["1"; "3"; "1"; "4"; "done"]))).
  split; [exact Hrun|]; split; [exact Hloop|]; split; [exists it'; split; [exact Hg | exact Hq]|].
  vm_compute in Hl; destruct Hl as (fq & Hf & Hline).
  injection Hf as <-; exact Hline.
Defined.

(** C5, on one valid count and one entry that is not a number. *)
Lemma count_updater_witness :
  exists w' patty bun,
    daily_inventory_entry (session ["7"; "lots"; "5"]) = (Ok tt, w')
    /\ stdin w' = ["5"]
    /\ dict_get "patty" (table w') = Some patty /\ quantity patty = 7
    /\ dict_get "big mac bun" (table w') = Some bun /\ quantity bun = 2.
Proof.
  destruct (count_updater_sets_or_skips (session ["7"; "lots"; "5"]) ["7"; "lots"] ["5"])
    as (w' & Hrun & Hin & _ & _ & Hall).
  - repeat constructor; simpl; intuition discriminate.
  - reflexivity.
  - reflexivity.
  - destruct (Hall 0%nat "patty" sample_patty "7" eq_refl eq_refl) as (patty & Hp & Hq & _).
    destruct (Hall 1%nat "big mac bun" sample_bun "lots" eq_refl eq_refl)
      as (bun & Hb & Hqb & _).
    exists w', patty, bun.
    split; [exact Hrun|]; split; [exact Hin|]; split; [exact Hp|]; split; [exact Hq|].
    split; [exact Hb | exact Hqb].
Defined.

(** C6, on a quantity that is not a number. *)
Lemma bad_quantity_witness :
  exists msg,
    let w' := with_stdin ["done"]
                (emits [prompt_choice; prompt_boxes "patty"; Printed msg]
                   (session ["1"; "a few"; "done"])) in
    order_body ["patty"; "big mac bun"] [] (session ["1"; "a few"; "done"])
    = (Ok (Continue []), w')
    /\ table w' = sample_table
    /\ files w' = files (session [])
    /\ while_input (order_body ["patty"; "big mac bun"]) [] (session ["1"; "a few"; "done"])
       = while_input (order_body ["patty"; "big mac bun"]) [] w'.
Proof.
  apply (bad_quantity_abandons_pick ["patty"; "big mac bun"] []
           (session ["1"; "a few"; "done"]) "1" "patty" "a few" ["done"]).
  - reflexivity.
  - exact selects_first.
  - left; reflexivity.
Defined.

(** C7, on the sample file. *)
Lemma per_unit_price_witness :
  exists item,
    dict_get "big mac bun" sample_table = Some item
    /\ price item = 12.5%float
    /\ units_per_box item = 48
    /\ per_unit_price item = PrimFloat.div 12.5%float 48%float.
Proof.
  destruct (per_unit_price_is_derived_at_load (FT := DecimalText.text) "inventory.csv"
              (sample_world []) (sample_world []) sample_file sample_table
              eq_refl sample_file_loads)
    as (H1 & _).
  destruct (H1 [row_dict fieldnames ["Patty"; "10"; "20.00"; "50"; "5"]]
              (row_dict fieldnames ["Big Mac Bun"; "2"; "12.50"; "48"; "5"]) [] eq_refl)
    as (name_s & ps & us & p & u & fu & item & fu' & E1 & E2 & E3 & E4 & E5 & E6 & E7
        & _ & _ & Hlast).
  vm_compute in E1, E2, E4; injection E1 as <-; injection E2 as <-; injection E4 as <-.
  vm_compute in E3, E5; injection E3 as <-; injection E5 as <-.
  vm_compute in E6; injection E6 as <-.
  destruct Hlast as (Hp & Hu & Hpu); [intros r s []|].
  exists item; split; [exact E7|]; split; [exact Hp|]; split; [exact Hu | exact Hpu].
Defined.

(** C9, on a world without files. *)
Lemma missing_file_witness :
  load_inventory (FT := DecimalText.text) "inventory.csv"
    {| stdin := ["5"]; stdout := []; files := []; table := [] |}
  = (Ok [], {| stdin := ["5"]; stdout := [Printed "inventory.csv not found."];
               files := []; table := [] |})
  /\ fst (main (FT := DecimalText.text)
            {| stdin := ["5"]; stdout := []; files := []; table := [] |}) = Ok tt.
Proof.
  destruct (missing_file_is_not_fatal (FT := DecimalText.text)
              {| stdin := ["5"]; stdout := []; files := []; table := [] |} eq_refl)
    as (H1 & _ & H3).
  split; [exact H1|].
  rewrite (H3 "5" [] eq_refl eq_refl); reflexivity.
Defined.

Lemma collision_file_loads :
  load_inventory (FT := DecimalText.text) "inventory.csv" collision_world
  = (Ok collision_table, collision_world).
Proof. vm_compute; reflexivity. Defined.

(** C10 (amended), on a file with the rows Patty and PATTY. *)
Lemma colliding_names_witness :
  exists entries,
    map fst entries = ["patty"; "patty"]
    /\ option_map quantity (dict_get "patty" (table_of entries [])) = Some 3.
Proof.
  destruct (colliding_names_keep_last_row (FT := DecimalText.text) "inventory.csv"
              collision_world collision_world collision_file _ eq_refl collision_file_loads)
    as (entries & HF & _ & _ & Hlast & _).
  exists entries.
  inversion HF as [|r1 [n1 i1] rs1 es1 H1 HF1]; subst; clear HF.
  inversion HF1 as [|r2 [n2 i2] rs2 es2 H2 HF2]; subst; clear HF1.
  inversion HF2; subst; clear HF2.
  simpl fst in H1, H2; simpl snd in H1, H2.
  destruct H1 as (s1 & ? & ? & ? & ? & ? & E1 & Hn1 & _).
  destruct H2 as (s2 & q2 & ? & ? & ? & ? & E2 & Hn2 & Eq & Hq & _).
  vm_compute in E1, E2, Eq; injection E1 as <-; injection E2 as <-; injection Eq as <-.
  vm_compute in Hn1, Hn2, Hq; subst n1 n2; injection Hq as Hq.
  split; [reflexivity|].
  vm_compute; rewrite <- Hq; reflexivity.
Defined.

(** C1 as stated fails: for one box at 1.50 the program prints the total
    1.57, where 1.50 times 1.05 is 1.58 (as a float product, and as the
    decimal 1.575 rounded to cents); and 2^1024 boxes, a positive integer,
    end the program in [OverflowError] with the stock as it was. *)
Lemma grand_total_is_not_subtotal_times_1_05 :
  (exists w',
      place_order (PY := python311) (fries_session ["1"; "1"; "done"]) = (Ok tt, w')
      /\ place_order (PY := python312) (fries_session ["1"; "1"; "done"]) = (Ok tt, w')
      /\ In (Printed "Subtotal: $1.50") (stdout w')
      /\ last (stdout w') (Printed "") = Printed "Total: $1.57"
      /\ "Total: $" ++ format_fixed 2 (PrimFloat.mul 1.5%float 1.05%float) = "Total: $1.58")
  /\ py_int (str_int (2 ^ 1024)) = Some (2 ^ 1024)
  /\ 0 < 2 ^ 1024
  /\ fst (order_body ["fries"] [] (fries_session ["1"; str_int (2 ^ 1024); "done"]))
     = Raise OverflowError
  /\ table (snd (order_body ["fries"] [] (fries_session ["1"; str_int (2 ^ 1024); "done"])))
     = fries_table.
Proof.
  split.
  - exists (snd (place_order (fries_session ["1"; "1"; "done"]))).
    split; [vm_compute; reflexivity|].
    split; [vm_compute; reflexivity|].
    split; [vm_compute; tauto|].
    split; vm_compute; reflexivity.
  - split; [vm_compute; reflexivity|].
    split; [reflexivity|].
    split; vm_compute; reflexivity.
Qed.

(** C10 as stated fails in its last part: the file with the rows Patty
    and PATTY collides, and yet saving the table it loads as and loading
    again gives that table back. *)
Lemma round_trip_holds_despite_collision :
  lower "Patty" = lower "PATTY"
  /\ exists w3,
      load_inventory (FT := DecimalText.text) "inventory.csv" collision_world
      = (Ok collision_table, collision_world)
      /\ save_inventory (FT := DecimalText.text) "inventory.csv"
           (with_table collision_table collision_world)
         = (Ok tt, w3)
      /\ load_inventory (FT := DecimalText.text) "inventory.csv" w3
         = (Ok collision_table, w3).
Proof.
  split; [reflexivity|].
  exists (snd (save_inventory (FT := DecimalText.text) "inventory.csv"
                 (with_table collision_table collision_world))).
  split; [exact collision_file_loads|].
  split; vm_compute; reflexivity.
Qed.

(** ** The scenarios of the specification *)

Example py_int_accepts :
  map py_int [" 1_000 "; "-007"; "+5"; "0"] = [Some 1000; Some (-7); Some 5; Some 0].
Proof. vm_compute; reflexivity. Qed.

Example py_int_rejects :
  map py_int ["1__0"; "_1"; "1_"; ""; "+"; "1.5"; "+ 1"; "abc"; "done"]
  = [None; None; None; None; None; None; None; None; None].
Proof. vm_compute; reflexivity. Qed.

Example title_words :
  map title ["big mac bun"; "mcChicken"; "10:1 patty"]
  = ["Big Mac Bun"; "Mcchicken"; "10:1 Patty"].
Proof. vm_compute; reflexivity. Qed.

Example format_fixed_rounds :
  map (format_fixed 2) [20%float; 0.125%float; 0.375%float; 2.675%float; (-0.001)%float]
  = ["20.00"; "0.12"; "0.38"; "2.67"; "-0.00"].
Proof. vm_compute; reflexivity. Qed.

(** Ordering 3 boxes of patties at 20.00: the stock goes from 10 to 13 and
    the invoice shows 60.00, 3.00 and 63.00. *)
Example scenario_order :
  let r := place_order (session ["1"; "3"; "done"]) in
  fst r = Ok tt
  /\ dict_get "patty" (table (snd r)) = Some (with_quantity 13 sample_patty)
  /\ rev (firstn 3 (rev (stdout (snd r))))
     = [Printed "Subtotal: $60.00"; Printed "GST (5%): $3.00"; Printed "Total: $63.00"].
Proof. vm_compute; repeat split; reflexivity. Qed.

(** An item with quantity 2 and critical level 5 is warned about; the
    patties (10 against 5) are not. *)
Example scenario_low_stock :
  show_low_stock_alerts (session [])
  = (Ok tt,
     emits [scan_header; Printed "- Big Mac Bun: Only 2 boxes left (Critical: 5)"]
       (session [])).
Proof. vm_compute; reflexivity. Qed.

(** [int] skips TAB..CR and the space around the digits and nothing else:
    the separators FS..US, which [strip] removes, make it fail. *)
Example py_int_white_space :
  py_int (String (ascii_of_nat 11) "5 ") = Some 5
  /\ strip (String (ascii_of_nat 28) "5") = "5"
  /\ py_int (String (ascii_of_nat 28) "5") = None.
Proof. vm_compute; repeat split; reflexivity. Qed.

(** 4300 digits are read and 4301 are not, leading zeros counted, single
    underscores not. *)
Example py_int_digit_limit :
  py_int (repeat_str "0" 4299 ++ "7") = Some 7
  /\ py_int (repeat_str "0" 4300 ++ "7") = None
  /\ py_int (repeat_str "9" 4301) = None
  /\ py_int (repeat_str "0_" 4300 ++ "7") = None
  /\ py_int (repeat_str "0_" 4299 ++ "7") = Some 7.
Proof. vm_compute; repeat split; reflexivity. Qed.

(** The two versions of [sum] on three floats. *)
Example py_sum_versions :
  py_sum (PY := python311) [0.1; 0.2; 0.3]%float = 0.6000000000000001%float
  /\ py_sum (PY := python312) [0.1; 0.2; 0.3]%float = 0.6%float.
Proof. vm_compute; repeat split; reflexivity. Qed.

(** One box more than 4300 digits can say: the order goes through, and
    option 5 then raises [ValueError] with the file cut down to its
    header. *)
Example scenario_save_fails :
  let r := main (FT := DecimalText.text) (brim_world ["3"; "1"; "1"; "done"; "5"]) in
  fst r = Raise ValueError
  /\ dict_get "inventory.csv" (files (snd r))
     = Some [ ["name"; "quantity"; "price"; "units_per_box"; "critical_level"] ].
Proof. vm_compute; repeat split; reflexivity. Qed.

(** 100 units wasted of an item at 0.40 a unit cost 40.00 and leave the
    quantity as it was. *)
Example scenario_waste :
  let r := waste_entry (session ["100"; "0"]) in
  fst r = Ok tt
  /\ last (stdout (snd r)) (Printed "") = Printed "Total cost of waste: $40.00"
  /\ table (snd r) = sample_table.
Proof. vm_compute; repeat split; reflexivity. Qed.

(** * More of the program *)

(** ** Files and input through the handlers *)

#[export] Instance same_files_compat : Compat same_files.
Proof.
  split; unfold same_files; simpl; auto.
  intros w1 w2 w3 H1 H2; congruence.
Qed.

#[export] Instance input_suffix_compat : Compat input_suffix.
Proof.
  split; unfold input_suffix; simpl.
  - intros w; exists []; reflexivity.
  - intros w1 w2 w3 [p1 H1] [p2 H2]; exists (p1 ++ p2)%list.
    rewrite H1, H2, List.app_assoc; reflexivity.
  - intros e w; exists []; reflexivity.
  - intros l r w H; exists [l]; rewrite H; reflexivity.
Qed.

Lemma same_files_set_quantity (name : string) (q : Z) :
  respects same_files (set_quantity name q).
Proof.
  intros w; unfold set_quantity, bind, get_table, set_table, same_files; simpl.
  destruct (dict_get name (table w)); reflexivity.
Qed.

Lemma input_suffix_set_quantity (name : string) (q : Z) :
  respects input_suffix (set_quantity name q).
Proof.
  intros w; unfold set_quantity, bind, get_table, set_table, input_suffix; simpl.
  destruct (dict_get name (table w)); exists []; reflexivity.
Qed.

Lemma input_suffix_open_write (filename : string) :
  respects input_suffix (open_write filename).
Proof. intros w; exists []; reflexivity. Qed.

Lemma input_suffix_write_record (filename : string) (row : list string) :
  respects input_suffix (write_record filename row).
Proof. intros w; exists []; reflexivity. Qed.

#[export] Hint Resolve same_files_compat input_suffix_compat same_files_set_quantity
  input_suffix_set_quantity input_suffix_open_write input_suffix_write_record : respects.

(** A computation that goes on with [Continue] whatever happened before
    does not break the loop. *)
Lemma bind_no_break {S A X : Type} (m : M X) (k : X -> M (ctl S A)) (w : World) (r : A) :
  (forall x w', fst (k x w') <> Ok (Break r)) ->
  fst (bind m k w) <> Ok (Break r).
Proof.
  intros Hk; unfold bind; destruct (m w) as [[x|e|] w']; simpl;
    [apply Hk | discriminate | discriminate].
Qed.

Lemma ret_continue_no_break {S A : Type} (s : S) (w : World) (r : A) :
  fst (ret (Continue s) w) <> Ok (Break r).
Proof. discriminate. Qed.

Ltac no_break :=
  repeat (apply bind_no_break; intros ? ?); apply ret_continue_no_break.

Section MenuRounds.

Context {FT : FloatText} {PY : Python}.

Lemma menu_body_eof (filename : string) (u : unit) (w : World) :
  stdin w = [] ->
  menu_body filename u w
  = (Raise EOFError, emits [Printed menu_text; Prompted "Choose an option: "] w).
Proof.
  intros Hin; unfold menu_body; unfold bind at 1; rewrite print_run; unfold bind at 1.
  rewrite input_eof by exact Hin; f_equal; same_world.
Qed.

Lemma menu_body_read (filename : string) (u : unit) (w : World) (line : string)
    (rest : list string) :
  stdin w = line :: rest ->
  let w1 := with_stdin rest (emits [Printed menu_text; Prompted "Choose an option: "] w) in
  menu_body filename u w
  = (if String.eqb (strip line) "1" then
       show_low_stock_alerts ;; show_inventory ;; ret (Continue tt)
     else if String.eqb (strip line) "2" then
       show_low_stock_alerts ;; daily_inventory_entry ;; ret (Continue tt)
     else if String.eqb (strip line) "3" then
       show_low_stock_alerts ;; place_order ;; ret (Continue tt)
     else if String.eqb (strip line) "4" then
       waste_entry ;; ret (Continue tt)
     else if String.eqb (strip line) "5" then
       save_inventory filename ;; print "Saved and exiting." ;; ret (Break tt)
     else
       print "Invalid option." ;; ret (Continue tt)) w1.
Proof.
  intros Hin w1; unfold menu_body; unfold bind at 1; rewrite print_run; unfold bind at 1.
  rewrite (input_run _ line rest) by exact Hin.
  cbv beta iota zeta; subst w1.
  replace (with_stdin rest (emits [Prompted "Choose an option: "] (emits [Printed menu_text] w)))
    with (with_stdin rest (emits [Printed menu_text; Prompted "Choose an option: "] w))
    by same_world.
  reflexivity.
Qed.

(** The round that saves: it ends the loop when every item can be
    written, and raises with the file cut short at the first that cannot. *)
Lemma menu_body_save (filename : string) (u : unit) (w : World) (line : string)
    (rest : list string) :
  stdin w = line :: rest -> strip line = "5" ->
  menu_body filename u w
  = if forallb (fun e => writable (snd e)) (table w)
    then (Ok (Break tt), saved_world filename rest w)
    else (Raise ValueError,
          with_files
            (dict_set filename (fieldnames :: map item_record (written (table w))) (files w))
            (with_stdin rest (emits [Printed menu_text; Prompted "Choose an option: "] w))).
Proof.
  intros Hin H5; rewrite (menu_body_read _ _ _ _ _ Hin); cbv zeta; rewrite H5.
  cbn [String.eqb Ascii.eqb Bool.eqb].
  unfold bind at 1; rewrite save_inventory_run.
  cbn [table files with_stdin emits].
  destruct (forallb (fun e => writable (snd e)) (table w)) eqn:E.
  - rewrite written_all by exact E.
    unfold bind at 1; rewrite print_run; unfold ret, saved_world.
    f_equal; same_world.
  - reflexivity.
Qed.

(** Every round but the one that saves leaves the files alone and goes on
    or raises. *)
Lemma menu_body_other (filename : string) (u : unit) (w : World) (line : string)
    (rest : list string) :
  stdin w = line :: rest -> strip line <> "5" ->
  files (snd (menu_body filename u w)) = files w
  /\ forall r, fst (menu_body filename u w) <> Ok (Break r).
Proof.
  intros Hin H5; rewrite (menu_body_read _ _ _ _ _ Hin); cbv zeta.
  set (w1 := with_stdin rest _).
  assert (Hd : respects same_files daily_inventory_entry)
    by (apply respects_daily_inventory_entry; auto with respects).
  assert (Hp : respects same_files place_order)
    by (apply respects_place_order; auto with respects).
  assert (Hfiles : forall m : M (ctl unit unit),
             respects same_files m -> files (snd (m w1)) = files w)
    by (intros m Hm; rewrite (Hm w1); reflexivity).
  destruct (String.eqb (strip line) "1");
    [split; [apply Hfiles; respects_auto | intros r; no_break]|].
  destruct (String.eqb (strip line) "2");
    [split; [apply Hfiles; respects_auto | intros r; no_break]|].
  destruct (String.eqb (strip line) "3");
    [split; [apply Hfiles; respects_auto | intros r; no_break]|].
  destruct (String.eqb (strip line) "4");
    [split; [apply Hfiles; respects_auto | intros r; no_break]|].
  destruct (String.eqb (strip line) "5") eqn:E5;
    [apply String.eqb_eq in E5; contradiction|].
  split; [apply Hfiles; respects_auto | intros r; no_break].
Qed.

(** The lines a round leaves are the last of the lines it found. *)
Lemma menu_body_suffix (filename : string) (u : unit) :
  respects input_suffix (menu_body filename u).
Proof. apply respects_menu_body; auto with respects. Qed.

(** The menu loop: it returns only through the round that saves, and until
    then no file changes. *)
Lemma menu_loop_outcome (filename : string) (n : nat) :
  forall (w : World) (r : outcome unit) (w' : World),
    (List.length (stdin w) < n)%nat ->
    while_input (menu_body filename) tt w = (r, w') ->
    match r with
    | Ok _ =>
        exists w0 line rest,
          input_suffix w w0 /\ files w0 = files w
          /\ stdin w0 = line :: rest /\ strip line = "5"
          /\ w' = saved_world filename rest w0
    | Raise e =>
        files w' = files w
        \/ (e = ValueError
            /\ forallb (fun entry => writable (snd entry)) (table w') = false
            /\ files w'
               = dict_set filename (fieldnames :: map item_record (written (table w')))
                   (files w))
    | OutOfFuel => False
    end.
Proof.
  induction n as [|n IH]; intros w r w' Hlen Hrun; [lia|].
  rewrite while_input_unroll in Hrun by apply menu_body_advances.
  destruct (stdin w) as [|line rest] eqn:Hin.
  { rewrite (menu_body_eof _ _ _ Hin) in Hrun; injection Hrun as <- <-; left; reflexivity. }
  destruct (String.eqb (strip line) "5") eqn:E5.
  - apply String.eqb_eq in E5.
    rewrite (menu_body_save _ _ _ _ _ Hin E5) in Hrun.
    destruct (forallb (fun e => writable (snd e)) (table w)) eqn:Ew;
      injection Hrun as <- <-.
    + exists w, line, rest; repeat split; auto. apply compat_refl.
    + right; simpl; auto.
  - apply String.eqb_neq in E5.
    destruct (menu_body_other filename tt w line rest Hin E5) as [Hf Hnb].
    pose proof (menu_body_suffix filename tt w) as Hsuf.
    pose proof (menu_body_advances filename tt w) as Hadv.
    pose proof (fuel_menu_body filename tt w) as Hfuel.
    destruct (menu_body filename tt w) as [[[[]|[]]|e|] w1] eqn:E; simpl in *.
    + specialize (Hadv tt w1 eq_refl).
      apply IH in Hrun; [|rewrite Hin in Hadv; simpl in Hadv; lia].
      destruct r as [[]|e|]; auto.
      * destruct Hrun as (w0 & l0 & r0 & Hs0 & Hf0 & Hin0 & H50 & ->).
        exists w0, l0, r0; repeat split; auto; try congruence.
        eapply compat_trans; eauto.
      * destruct Hrun as [Hrun|(He & Hw & Hrun)]; [left; congruence|].
        right; rewrite <- Hf; auto.
    + exfalso; apply (Hnb tt); reflexivity.
    + injection Hrun as <- <-; left; exact Hf.
    + congruence.
Qed.

End MenuRounds.

(** ** The program as a whole *)

Section WholeProgram.

Context {FT : FloatText} {PY : Python}.

Lemma load_inventory_world (filename : string) (w : World) :
  files (snd (load_inventory filename w)) = files w
  /\ stdin (snd (load_inventory filename w)) = stdin w
  /\ table (snd (load_inventory filename w)) = table w.
Proof.
  destruct (dict_get filename (files w)) as [rows|] eqn:E.
  - rewrite (load_inventory_present _ _ _ E).
    destruct (load_rows_world (dict_reader rows) [] w) as (-> & _); auto.
  - rewrite (load_inventory_missing _ _ E); auto.
Qed.

Lemma main_run (w : World) :
  main w
  = match load_inventory "inventory.csv" w with
    | (Ok T, w1) =>
        while_input (menu_body "inventory.csv") tt (emits (scan_events T) (with_table T w1))
    | (Raise e, w1) => (Raise e, w1)
    | (OutOfFuel, w1) => (OutOfFuel, w1)
    end.
Proof.
  unfold main; cbv zeta; unfold bind at 1.
  destruct (load_inventory "inventory.csv" w) as [[T|e|] w1]; auto.
  unfold bind at 1, set_table at 1; unfold bind at 1.
  rewrite show_low_stock_alerts_run; reflexivity.
Qed.

(** X1. When [main] returns, it was through option 5: one of the lines
    typed is a 5 (white space aside), the last thing printed is
    "Saved and exiting.", the file [inventory.csv] holds the header and the
    record of every item of the final table, in table order, and no other
    file has changed. *)
Theorem main_returns_only_by_saving (w w' : World) :
  main w = (Ok tt, w') ->
  dict_get "inventory.csv" (files w') = Some (fieldnames :: map item_record (table w'))
  /\ (forall f, f <> "inventory.csv" -> dict_get f (files w') = dict_get f (files w))
  /\ last (stdout w') (Printed "") = Printed "Saved and exiting."
  /\ exists line, In line (stdin w) /\ strip line = "5".
Proof.
  intros Hrun; rewrite main_run in Hrun.
  destruct (load_inventory_world "inventory.csv" w) as (Hf & Hi & _).
  destruct (load_inventory "inventory.csv" w) as [[T|e|] w1]; try discriminate.
  simpl in Hf, Hi.
  apply (menu_loop_outcome _ _ _ _ _ (Nat.lt_succ_diag_r _)) in Hrun.
  destruct Hrun as (w0 & line & rest & [pre Hs] & Hf0 & Hin0 & H5 & ->).
  simpl in Hs, Hf0; unfold saved_world; simpl.
  rewrite dict_get_set_same; split; [reflexivity|]; split; [|split].
  - intros f Hne; rewrite dict_get_set_other by (intros E; apply Hne; symmetry; exact E).
    rewrite Hf0, Hf; reflexivity.
  - change (stdout w0 ++ [Printed menu_text; Prompted "Choose an option: ";
                          Printed "Saved and exiting."])%list
      with (stdout w0 ++ [Printed menu_text; Prompted "Choose an option: "]
            ++ [Printed "Saved and exiting."])%list.
    rewrite List.app_assoc; apply last_last.
  - exists line; split; [|exact H5].
    rewrite <- Hi, Hs, Hin0; apply in_or_app; right; left; reflexivity.
Qed.

(** X2. When [main] ends in an exception, either no file has changed (a
    malformed file, the end of the input, a number too large for a float:
    whatever was entered in the session is not saved), or the exception is
    the [ValueError] that saving raises at the first item with a count of
    more digits than [str] accepts: then [inventory.csv] holds the header
    and the records of the items before that one only, and no other file
    has changed. *)
Theorem main_failure_saves_nothing_or_part (w w' : World) (e : exn) :
  main w = (Raise e, w') ->
  files w' = files w
  \/ (e = ValueError
      /\ exists k entry,
          nth_error (table w') k = Some entry
          /\ writable (snd entry) = false
          /\ Forall (fun e' => writable (snd e') = true) (firstn k (table w'))
          /\ dict_get "inventory.csv" (files w')
             = Some (fieldnames :: map item_record (firstn k (table w')))
          /\ forall f, f <> "inventory.csv" -> dict_get f (files w') = dict_get f (files w)).
Proof.
  intros Hrun; rewrite main_run in Hrun.
  destruct (load_inventory_world "inventory.csv" w) as (Hf & _).
  destruct (load_inventory "inventory.csv" w) as [[T|e'|] w1]; try discriminate.
  - apply (menu_loop_outcome _ _ _ _ _ (Nat.lt_succ_diag_r _)) in Hrun.
    simpl in *.
    destruct Hrun as [Hrun|(-> & Hw & Hrun)]; [left; congruence|].
    right; split; [reflexivity|].
    destruct (written_prefix (table w')) as (k & Hk & _ & Hnot).
    destruct (Hnot Hw) as (entry & Hnth & Hentry).
    exists k, entry; split; [exact Hnth|]; split; [exact Hentry|].
    pose proof (written_writable (table w')) as Hall.
    rewrite Hk in Hall, Hrun; split; [exact Hall|].
    rewrite Hrun; split; [apply dict_get_set_same|].
    intros f Hne; rewrite dict_get_set_other by (intros E; apply Hne; symmetry; exact E).
    rewrite Hf; reflexivity.
  - injection Hrun as <- <-; left; exact Hf.
Qed.

Lemma main_starts_with_scan_aux (w w1 : World) (rows : csv_file) (T : Inventory) :
  dict_get "inventory.csv" (files w) = Some rows ->
  load_inventory "inventory.csv" w = (Ok T, w1) ->
  main w = while_input (menu_body "inventory.csv") tt (emits (scan_events T) (with_table T w)).
Proof.
  intros Hfile Hload; rewrite main_run, Hload.
  rewrite (load_inventory_present _ _ _ Hfile) in Hload.
  destruct (load_rows_world (dict_reader rows) [] w) as (Hw & _).
  rewrite Hload in Hw; simpl in Hw; subst w1; reflexivity.
Qed.

(** X3. With the file there and loading to the table [T], [main] prints
    the low-stock scan of [T] and then is the menu loop over [T]: nothing
    else is printed or read before the first menu. *)
Theorem main_starts_with_scan (w w1 : World) (rows : csv_file) (T : Inventory) :
  dict_get "inventory.csv" (files w) = Some rows ->
  load_inventory "inventory.csv" w = (Ok T, w1) ->
  main w = while_input (menu_body "inventory.csv") tt (emits (scan_events T) (with_table T w)).
Proof.
  intros Hfile Hload; rewrite main_run, Hload.
  rewrite (load_inventory_present _ _ _ Hfile) in Hload.
  destruct (load_rows_world (dict_reader rows) [] w) as (Hw & _).
  rewrite Hload in Hw; simpl in Hw; subst w1; reflexivity.
Qed.

(** X4. A line at the menu that is none of 1 to 5 (after stripping white
    space) prints "Invalid option." and changes nothing else; the menu is
    shown again. *)
Theorem invalid_option_changes_nothing (filename : string) (w : World) (line : string)
    (rest : list string) :
  stdin w = line :: rest ->
  no_option line ->
  let w' := with_stdin rest
              (emits [Printed menu_text; Prompted "Choose an option: ";
                      Printed "Invalid option."] w) in
  menu_body filename tt w = (Ok (Continue tt), w')
  /\ while_input (menu_body filename) tt w = while_input (menu_body filename) tt w'.
Proof.
  intros Hin (H1 & H2 & H3 & H4 & H5) w'.
  assert (Hrun : menu_body filename tt w = (Ok (Continue tt), w')).
  { rewrite (menu_body_read _ _ _ _ _ Hin); cbv zeta.
    apply String.eqb_neq in H1, H2, H3, H4, H5; rewrite H1, H2, H3, H4, H5.
    run; subst w'; f_equal; same_world. }
  split; [exact Hrun|].
  rewrite while_input_unroll by apply menu_body_advances.
  rewrite Hrun; reflexivity.
Qed.


End WholeProgram.

(** ** Files that do not load *)

Section BadFiles.

Context {FT : FloatText} {PY : Python}.

(** The first row that raises ends the loop over the rows. *)
Lemma load_rows_raise (pre post : list (dict (option string))) (row : dict (option string))
    (entries : list (string * Item)) (e : exn) (inv : Inventory) (w : World) :
  Forall2 (fun r en => row_parses r (fst en) (snd en)) pre entries ->
  (forall inv', load_row row inv' w = (Raise e, w)) ->
  for_each (pre ++ row :: post) load_row inv w = (Raise e, w).
Proof.
  intros HF Hrow; revert inv; induction HF as [|r en pre' entries' Hr HF IH]; intros inv; simpl.
  - unfold bind; rewrite Hrow; reflexivity.
  - unfold bind at 1; rewrite (load_row_ok _ _ _ _ _ Hr); apply IH.
Qed.

Lemma bad_row_is_fatal (w : World) (rows : csv_file)
    (pre post : list (dict (option string))) (row : dict (option string))
    (entries : list (string * Item)) (e : exn) :
  dict_get "inventory.csv" (files w) = Some rows ->
  dict_reader rows = (pre ++ row :: post)%list ->
  Forall2 (fun r en => row_parses r (fst en) (snd en)) pre entries ->
  (forall inv', load_row row inv' w = (Raise e, w)) ->
  load_inventory "inventory.csv" w = (Raise e, w) /\ main w = (Raise e, w).
Proof.
  intros Hfile Hrows HF Hrow.
  assert (Hload : load_inventory "inventory.csv" w = (Raise e, w)).
  { rewrite (load_inventory_present _ _ _ Hfile), Hrows.
    eapply load_rows_raise; eauto. }
  split; [exact Hload|]; rewrite main_run, Hload; reflexivity.
Qed.

(** X6. A row whose quantity cell is not an integer, after rows that are
    well formed, makes [load_inventory] raise [ValueError]; the exception
    is not caught, so [main] ends with it before anything is printed and
    without any file or table being touched. *)
Theorem non_integer_quantity_is_fatal (w : World) (rows : csv_file)
    (pre post : list (dict (option string))) (row : dict (option string))
    (entries : list (string * Item)) (s qs : string) :
  dict_get "inventory.csv" (files w) = Some rows ->
  dict_reader rows = (pre ++ row :: post)%list ->
  Forall2 (fun r en => row_parses r (fst en) (snd en)) pre entries ->
  dict_get "name" row = Some (Some s) ->
  dict_get "quantity" row = Some (Some qs) ->
  py_int qs = None ->
  load_inventory "inventory.csv" w = (Raise ValueError, w)
  /\ main w = (Raise ValueError, w).
Proof.
  intros Hfile Hrows HF Hn Hq Hbad.
  apply (bad_row_is_fatal w rows pre post row entries); auto.
  intros inv'; unfold load_row, int_cell, row_cell, int_of_str, bind, ret, raise.
  rewrite Hn, Hq, Hbad; reflexivity.
Qed.

(** X7. A row with all five cells readable and zero units per box makes
    the division [price / units] raise [ZeroDivisionError]; it is not
    caught either, so the program ends there. *)
Theorem zero_units_is_fatal (w : World) (rows : csv_file)
    (pre post : list (dict (option string))) (row : dict (option string))
    (entries : list (string * Item)) (s qs ps us cs : string) (q c : Z) (p : float) :
  dict_get "inventory.csv" (files w) = Some rows ->
  dict_reader rows = (pre ++ row :: post)%list ->
  Forall2 (fun r en => row_parses r (fst en) (snd en)) pre entries ->
  dict_get "name" row = Some (Some s) ->
  dict_get "quantity" row = Some (Some qs) -> py_int qs = Some q ->
  dict_get "price" row = Some (Some ps) -> float_of_string ps = Some p ->
  dict_get "units_per_box" row = Some (Some us) -> py_int us = Some 0 ->
  dict_get "critical_level" row = Some (Some cs) -> py_int cs = Some c ->
  load_inventory "inventory.csv" w = (Raise ZeroDivisionError, w)
  /\ main w = (Raise ZeroDivisionError, w).
Proof.
  intros Hfile Hrows HF Hn Hq Hq' Hp Hp' Hu Hu' Hc Hc'.
  apply (bad_row_is_fatal w rows pre post row entries); auto.
  intros inv'; unfold load_row, int_cell, float_cell, row_cell, int_of_str,
    div_float_int, bind, ret, raise.
  rewrite Hn, Hq, Hq', Hp, Hp', Hu, Hu', Hc, Hc'; reflexivity.
Qed.

(** X8. A file with no record, with the header only, or with nothing but
    blank records after the header loads as the empty table, and nothing
    is printed about it. *)
Theorem file_without_rows_loads_empty (filename : string) (w : World) (rows : csv_file) :
  dict_get filename (files w) = Some rows ->
  (forall r, In r (tl rows) -> r = []) ->
  load_inventory filename w = (Ok [], w).
Proof.
  intros Hfile Hblank; rewrite (load_inventory_present _ _ _ Hfile).
  assert (Hfilter : forall rest : csv_file,
             (forall r, In r rest -> r = []) ->
             filter (fun r => negb (is_blank r)) rest = []).
  { induction rest as [|r rest IH]; intros Hb; [reflexivity|]; simpl.
    rewrite (Hb r (or_introl eq_refl)); simpl.
    apply IH; intros r' Hin; apply Hb; right; exact Hin. }
  assert (Hr : dict_reader rows = []).
  { destruct rows as [|h rest]; [reflexivity|]; simpl in *.
    rewrite Hfilter by assumption; reflexivity. }
  rewrite Hr; reflexivity.
Qed.

(** X9. The keys of a loaded table are lower case: whatever the case of
    the names in the file, an item is stored, looked up and saved under
    its lower-cased name. *)
Theorem loaded_keys_are_lower_case (filename : string) (w w1 : World) (T : Inventory) :
  load_inventory filename w = (Ok T, w1) ->
  forall name, In name (keys T) -> lower name = name.
Proof.
  intros Hload name Hin.
  destruct (loaded_entries _ _ _ _ Hload) as [_ Hl].
  apply in_map_iff in Hin as ([n it] & <- & Hin).
  rewrite Forall_forall in Hl; exact (proj1 (Hl _ Hin)).
Qed.

(** X10. Whatever is typed, a round of the menu leaves the items, their
    order, and the price, units per box, critical level and per-unit price
    of each item as they were: only quantities can change in a session. *)
Theorem menu_round_changes_quantities_only (filename : string) (w : World) :
  frozen (table (snd (menu_body filename tt w))) = frozen (table w)
  /\ keys (table (snd (menu_body filename tt w))) = keys (table w).
Proof.
  split; [apply only_quantities_menu_body | apply menu_body_keeps_keys].
Qed.

End BadFiles.

(** ** More about the order processor *)







Section OrderEdges.

Context {FT : FloatText} {PY : Python}.

(** X12. At the product prompt, a line of ASCII text that is not the
    sentinel and is either not all digits or a number that [int] reads
    and that is outside 1..len(items) prints "Invalid choice." and
    changes nothing else; the quantity prompt is not reached and the loop
    asks for a product again.  (Digits that [int] does not read, more
    than it accepts or not ASCII, are not covered: [int(choice)] is
    outside every [try].) *)
Theorem invalid_choice_changes_nothing (items : list string) (order : Order) (w : World)
    (line : string) (rest : list string) :
  stdin w = line :: rest ->
  isascii line = true ->
  lower (strip line) <> "done" ->
  isdigit (lower (strip line)) = false
  \/ (exists n, py_int (lower (strip line)) = Some n
                /\ (n < 1 \/ Z.of_nat (List.length items) < n)) ->
  let w' := with_stdin rest (emits [prompt_choice; Printed "Invalid choice."] w) in
  order_body items order w = (Ok (Continue order), w')
  /\ while_input (order_body items) order w = while_input (order_body items) order w'.
Proof.
  intros Hin _ Hnd Hbad w'.
  assert (Hrun : order_body items order w = (Ok (Continue order), w')).
  { apply (order_body_invalid_choice items order w line rest Hin).
    - apply String.eqb_neq; exact Hnd.
    - destruct Hbad as [Hb|(n & Hn & Hr)]; [left; exact Hb|].
      right; exists n; split; [exact Hn|].
      apply negb_true_iff, andb_false_iff.
      destruct Hr; [left; apply Z.leb_gt | right; apply Z.leb_gt]; lia. }
  split; [exact Hrun|].
  rewrite while_input_unroll by apply order_body_advances.
  rewrite Hrun; reflexivity.
Qed.


Lemma accepted_picks_positive (items : list string) (n : nat) :
  forall lines, (List.length lines < n)%nat ->
                Forall (fun p => 0 < snd p) (accepted_picks items lines).
Proof.
  induction n as [|n IH]; intros lines Hlen; [lia|].
  destruct lines as [|line rest]; simpl; [constructor|].
  simpl in Hlen.
  destruct (read_choice items line); try constructor.
  - apply IH; lia.
  - destruct rest as [|ql rest']; [constructor|]; simpl in Hlen.
    destruct (py_int ql) as [q|]; [|apply IH; lia].
    destruct (q <=? 0) eqn:E; [apply IH; lia|].
    apply Z.leb_gt in E; constructor; [exact E | apply IH; lia].
Qed.

Lemma sum_Z_positive (qs : list Z) :
  Forall (fun q => 0 < q) qs -> 0 <= sum_Z qs /\ (sum_Z qs = 0 <-> qs = []).
Proof.
  induction 1 as [|q qs Hq HF [IH1 IH2]]; simpl.
  - split; [lia | tauto].
  - split; [lia|]; split; [lia | discriminate].
Qed.

Lemma picked_for_positive (name : string) (picks : list (string * Z)) :
  Forall (fun p => 0 < snd p) picks -> Forall (fun q => 0 < q) (picked_for name picks).
Proof.
  unfold picked_for; induction 1 as [|[n q] picks Hq HF IH]; simpl; [constructor|].
  destruct (String.eqb n name); simpl; [constructor|]; auto.
Qed.

(** X14. When the order processor returns, no item has fewer boxes than
    before and nothing but quantities has changed; an item has as many
    boxes as before exactly when no pick was accepted for it. *)
Theorem ordering_never_lowers_stock (w w' : World) :
  place_order w = (Ok tt, w') ->
  forall name item,
    dict_get name (table w) = Some item ->
    exists item',
      dict_get name (table w') = Some item'
      /\ quantity item <= quantity item'
      /\ fixed_fields item' = fixed_fields item
      /\ (quantity item' = quantity item
          <-> picked_for name (accepted_picks (keys (table w)) (stdin w)) = []).
Proof.
  intros Hrun name item Hget; rewrite place_order_run in Hrun.
  destruct (while_input _ _ _) as [[order| |] w2] eqn:Hloop; try discriminate.
  pose proof (fun n H1 H2 => order_loop_log (keys (table w)) n _ _ _ _ H1 H2 Hloop) as Hlog.
  destruct (Hlog _ (Nat.lt_succ_diag_r _) eq_refl) as [_ Hall].
  destruct (Hall name item Hget) as [Hq _]; simpl in Hq.
  pose proof (respects_order_summary same_store order w2) as [Ht _].
  rewrite Hrun in Ht; simpl in Ht.
  set (qs := picked_for name (accepted_picks (keys (table w)) (stdin w))) in *.
  assert (Hpos : Forall (fun q => 0 < q) qs)
    by (apply picked_for_positive,
          (accepted_picks_positive _ _ _ (Nat.lt_succ_diag_r _))).
  destruct (sum_Z_positive qs Hpos) as [H0 Hiff].
  eexists; split; [rewrite Ht; exact Hq|]; simpl.
  split; [lia|]; split; [reflexivity|].
  rewrite <- Hiff; lia.
Qed.

(** X15. Over a table whose quantities can be listed, a pick of more
    boxes than a float can hold (2^1024 and beyond, in no more digits than
    [int] reads) ends the order processor, and with it the program, in
    [OverflowError]: the product [box_price * qty] raises it, outside what
    the [try] catches, before the stock is changed. *)
Theorem huge_quantity_ends_order (w : World) (line name ql : string) (rest : list string)
    (q : Z) (item : Item) :
  listable (table w) = true ->
  stdin w = line :: ql :: rest ->
  selects (keys (table w)) line name ->
  py_int ql = Some q -> 0 < q ->
  float_of_Z q = None ->
  dict_get name (table w) = Some item ->
  exists w',
    place_order w = (Raise OverflowError, w')
    /\ table w' = table w
    /\ files w' = files w.
Proof.
  intros _ Hin Hsel Hq Hpos Hf Hget; rewrite place_order_run.
  rewrite while_input_unroll by apply order_body_advances.
  match goal with |- context [order_body _ _ ?x] => set (w0 := x) end.
  rewrite (order_body_overflow (keys (table w)) [] w0 line name ql rest q item
             Hin Hsel Hq Hpos Hf Hget).
  eexists; split; [reflexivity|]; split; reflexivity.
Qed.

(** X16. Over a table whose quantities can be listed: if the input ends
    after a valid pick, before the sentinel, the order processor ends in
    [EOFError] without an invoice, and the boxes of the pick stay added
    to the table: the item has [q] boxes more and is otherwise as it
    was. *)
Theorem end_of_input_keeps_the_pick (w : World) (line name ql : string)
    (q : Z) (fq : float) (item : Item) :
  listable (table w) = true ->
  stdin w = [line; ql] ->
  selects (keys (table w)) line name ->
  py_int ql = Some q -> 0 < q ->
  float_of_Z q = Some fq ->
  dict_get name (table w) = Some item ->
  exists w' item',
    place_order w = (Raise EOFError, w')
    /\ dict_get name (table w') = Some item'
    /\ quantity item' = quantity item + q
    /\ price item' = price item
    /\ units_per_box item' = units_per_box item
    /\ critical_level item' = critical_level item
    /\ per_unit_price item' = per_unit_price item
    /\ files w' = files w
    /\ stdout w'
       = (stdout w ++ listing (table w)
          ++ [Printed (nl ++ "================= Place Order =================");
              prompt_choice; prompt_boxes name; prompt_choice])%list.
Proof.
  intros _ Hin Hsel Hq Hpos Hf Hget; rewrite place_order_run.
  rewrite while_input_unroll by apply order_body_advances.
  match goal with |- context [order_body _ _ ?x] => set (w0 := x) end.
  rewrite (order_body_pick (keys (table w)) [] w0 line name ql [] q fq item
             Hin Hsel Hq Hpos Hf Hget).
  rewrite while_input_unroll by apply order_body_advances.
  unfold order_body at 1; unfold bind at 1; rewrite input_eof by reflexivity.
  do 2 eexists; split; [reflexivity|].
  subst w0; cbn [stdout table stdin files with_table with_stdin emits].
  rewrite dict_get_set_same; split; [reflexivity|].
  do 6 (split; [reflexivity|]).
  rewrite <- !List.app_assoc; reflexivity.
Qed.

(** X20. Over a table whose quantities can be listed: at the product
    prompt, a line of more digits than [int] reads (4300) ends the order
    processor, and with it the program, in [ValueError]: the line passes
    [isdigit], and [int(choice)] is outside the [try].  Nothing was
    ordered and nothing but the console has changed. *)
Theorem overlong_choice_ends_order (w : World) (line : string) (rest : list string) :
  listable (table w) = true ->
  stdin w = line :: rest ->
  isdigit (lower (strip line)) = true ->
  (max_str_digits < String.length (lower (strip line)))%nat ->
  place_order w
  = (Raise ValueError,
     with_stdin rest
       (emits (listing (table w)
               ++ [Printed (nl ++ "================= Place Order ================="); prompt_choice])%list
          w)).
Proof.
  intros _ Hin Hd Hlen; rewrite place_order_run.
  rewrite while_input_unroll by apply order_body_advances.
  unfold order_body; unfold bind at 1.
  rewrite (input_run _ line rest) by exact Hin.
  cbv zeta; rewrite (isdigit_not_done _ Hd), Hd; cbn [negb].
  unfold bind at 1, int_of_str at 1.
  rewrite (py_int_overlong _ Hd Hlen); unfold raise; f_equal.
  unfold with_stdin, emits; cbn [stdin stdout files table].
  rewrite <- !List.app_assoc; reflexivity.
Qed.

End OrderEdges.

(** ** More about the count updater and the waste logger *)

Section CountsAndWaste.

Context {FT : FloatText} {PY : Python}.

Lemma daily_loop_short (suf : Inventory) :
  forall (pre : Inventory) (k : Z) (lines : list string) (w : World),
    table w = (pre ++ suf)%list ->
    NoDup (keys (pre ++ suf)%list) ->
    stdin w = lines ->
    (List.length lines < List.length suf)%nat ->
    exists evs,
      for_each (enumerate k suf) daily_entry_body tt w
      = (Raise EOFError,
         with_table (pre ++ count_update suf lines ++ skipn (List.length lines) suf)%list
           (with_stdin [] (emits evs w))).
Proof.
  induction suf as [|[name item] suf IH]; intros pre k lines w Ht Hnd Hin Hlen;
    [simpl in Hlen; lia|].
  destruct lines as [|line lines].
  - exists [Prompted (str_int k ++ ". " ++ title name ++ " - Boxes on hand: ")].
    cbn [enumerate for_each]; unfold bind at 1, daily_entry_body, try_except, bind at 1.
    rewrite (input_eof _ _ Hin); simpl.
    f_equal; destruct w; unfold with_table, with_stdin, emits; simpl in *; subst; reflexivity.
  - simpl in Hlen.
    assert (Hpre : ~ In name (keys pre)).
    { unfold keys in Hnd; rewrite map_app in Hnd; simpl in Hnd.
      apply NoDup_remove_2 in Hnd; rewrite in_app_iff in Hnd; tauto. }
    assert (Hget : dict_get name (table w) = Some item)
      by (rewrite Ht; apply dict_get_middle; assumption).
    destruct (daily_entry_body_run k name item item w line _ Hin Hget) as [evs1 Hrun].
    cbn [enumerate for_each]; unfold bind at 1; rewrite Hrun.
    rewrite Ht, dict_set_middle by assumption.
    set (w1 := with_table _ _).
    destruct (IH (pre ++ [entered (name, item) line])%list (k + 1) lines w1)
      as [evs2 Hrun2].
    + subst w1; simpl. rewrite <- List.app_assoc; simpl.
      unfold entered; destruct (py_int line); reflexivity.
    + rewrite <- List.app_assoc; simpl.
      unfold keys in *; rewrite map_app in *; simpl in *.
      rewrite entered_fst; exact Hnd.
    + reflexivity.
    + lia.
    + exists (evs1 ++ evs2)%list; rewrite Hrun2; f_equal.
      subst w1; rewrite count_update_cons.
      unfold with_table, with_stdin, emits; simpl.
      rewrite <- !List.app_assoc; reflexivity.
Qed.

(** X17. If the input ends before every item has its line, the count
    updater ends in [EOFError] with the files as they were; an item whose
    line was read and is an integer has that count, every other item has
    the count it had, and no item has changed in another field, its name
    or its place. *)
Theorem count_updater_keeps_counts_at_end_of_input (w : World) :
  NoDup (keys (table w)) ->
  (List.length (stdin w) < List.length (table w))%nat ->
  exists w',
    daily_inventory_entry w = (Raise EOFError, w')
    /\ files w' = files w
    /\ List.length (table w') = List.length (table w)
    /\ forall i name item,
        nth_error (table w) i = Some (name, item) ->
        exists item',
          nth_error (table w') i = Some (name, item')
          /\ quantity item'
             = match nth_error (stdin w) i with
               | Some line => match py_int line with
                              | Some v => v
                              | None => quantity item
                              end
               | None => quantity item
               end
          /\ price item' = price item
          /\ units_per_box item' = units_per_box item
          /\ critical_level item' = critical_level item
          /\ per_unit_price item' = per_unit_price item.
Proof.
  intros Hnd Hlen; unfold daily_inventory_entry.
  unfold bind at 1, get_table at 1; unfold bind at 1; rewrite print_run.
  destruct (daily_loop_short (table w) [] 1 (stdin w)
              (emits [Printed (nl ++ "================= Daily Inventory Entry =================")] w))
    as [evs Hrun]; auto.
  rewrite Hrun; eexists; split; [reflexivity|]; split; [reflexivity|].
  cbn [table with_table with_stdin emits app].
  split.
  - rewrite length_app, length_skipn.
    unfold count_update; rewrite length_map, length_combine; lia.
  - intros i name item Hnth.
    rewrite (nth_error_count_update_short _ _ _ _ Hnth).
    destruct (nth_error (stdin w) i) as [line|].
    + destruct (entered_fields name item line) as (item' & -> & Hq & Hrest).
      exists item'; split; [reflexivity|]; split; [exact Hq | exact Hrest].
    + exists item; repeat split.
Qed.

Lemma waste_body_run (k : Z) (name : string) (item : Item) (acc : float) (w : World)
    (line : string) (rest : list string) :
  stdin w = line :: rest ->
  exists evs,
    waste_body (k, (name, item)) acc w
    = (match py_int line with
       | None => Ok acc
       | Some u =>
           match float_of_Z u with
           | None => Raise OverflowError
           | Some f => Ok (PrimFloat.add acc (PrimFloat.mul f (per_unit_price item)))
           end
       end,
       with_stdin rest (emits evs w)).
Proof.
  intros Hin; unfold waste_body.
  destruct (py_int line) as [u|] eqn:Hu.
  - exists [Prompted (str_int k ++ ". " ++ title name ++ " - Units wasted: ")].
    run; rewrite Hin; run; rewrite Hu; run.
    destruct (float_of_Z u); run; f_equal.
  - eexists [_; _]; run; rewrite Hin; run; rewrite Hu; run.
    f_equal; same_world.
Qed.

Lemma waste_loop (t : Inventory) :
  forall (k : Z) (lines rest : list string) (acc total : float) (w : World),
    stdin w = (lines ++ rest)%list ->
    List.length lines = List.length t ->
    waste_total t lines acc = Some total ->
    exists evs,
      for_each (enumerate k t) waste_body acc w = (Ok total, with_stdin rest (emits evs w)).
Proof.
  induction t as [|[name item] t IH]; intros k lines rest acc total w Hin Hlen Htot.
  - destruct lines; [|discriminate]; simpl in *.
    injection Htot as <-; exists []; unfold ret; f_equal.
    destruct w; unfold with_stdin, emits; simpl in *; subst.
    rewrite List.app_nil_r; reflexivity.
  - destruct lines as [|line lines]; [discriminate|]; simpl in Hin, Hlen, Htot.
    destruct (waste_body_run k name item acc w line _ Hin) as [evs1 Hrun].
    cbn [enumerate for_each]; unfold bind at 1; rewrite Hrun.
    destruct (py_int line) as [u|].
    + destruct (float_of_Z u) as [f|]; [|discriminate].
      destruct (IH (k + 1) lines rest _ total (with_stdin (lines ++ rest)%list (emits evs1 w))
                  eq_refl (eq_add_S _ _ Hlen) Htot)
        as [evs2 Hrun2].
      exists (evs1 ++ evs2)%list; rewrite Hrun2; f_equal; same_world.
    + destruct (IH (k + 1) lines rest _ total (with_stdin (lines ++ rest)%list (emits evs1 w))
                  eq_refl (eq_add_S _ _ Hlen) Htot)
        as [evs2 Hrun2].
      exists (evs1 ++ evs2)%list; rewrite Hrun2; f_equal; same_world.
Qed.

(** X18. With one line typed per item, the waste logger reads exactly
    these lines and ends by printing, with two decimals, the total it
    reaches from 0: each line that is an integer [u] (of any sign) adds
    [float(u) * per_unit_price] of its item, in table order, and each
    other line adds nothing. *)
Theorem waste_logger_prints_the_total (w : World) (lines rest : list string) (total : float) :
  stdin w = (lines ++ rest)%list ->
  List.length lines = List.length (table w) ->
  waste_total (table w) lines 0%float = Some total ->
  exists evs,
    waste_entry w
    = (Ok tt,
       with_stdin rest
         (emits (evs ++ [Printed ("Total cost of waste: $" ++ format_fixed 2 total)])%list w)).
Proof.
  intros Hin Hlen Htot; unfold waste_entry.
  unfold bind at 1, get_table at 1; unfold bind at 1; rewrite print_run.
  destruct (waste_loop (table w) 1 lines rest 0%float total
              (emits [Printed (nl ++ "=== Waste Tracking ===")] w) Hin Hlen Htot)
    as [evs Hrun].
  unfold bind at 1; rewrite Hrun, print_run.
  exists (Printed (nl ++ "=== Waste Tracking ===") :: evs); f_equal; same_world.
Qed.

End CountsAndWaste.

Section EndToEnd.

Context {FT : FloatText} {PY : Python}.

(** X19. A session that loads the file, chooses option 2, types one line
    per item and then chooses option 5 returns normally, and the lines
    after the 5 are not read.  The file then holds the header and one
    record for each item, in table order: the name, the count entered (the
    old count for an item whose line was not an integer), and the price,
    the units per box and the critical level the file had for it; the
    table in memory holds the same counts. *)
Theorem counts_entered_are_saved (w w1 : World) (rows : csv_file) (T : Inventory)
    (o2 o5 : string) (lines rest : list string) :
  dict_get "inventory.csv" (files w) = Some rows ->
  load_inventory "inventory.csv" w = (Ok T, w1) ->
  stdin w = (o2 :: lines ++ o5 :: rest)%list ->
  strip o2 = "2" -> strip o5 = "5" ->
  List.length lines = List.length T ->
  exists w' saved,
    main w = (Ok tt, w')
    /\ stdin w' = rest
    /\ dict_get "inventory.csv" (files w') = Some (fieldnames :: saved)
    /\ List.length saved = List.length T
    /\ List.length (table w') = List.length T
    /\ forall i name item line,
        nth_error T i = Some (name, item) ->
        nth_error lines i = Some line ->
        let v := match py_int line with
                 | Some v => v
                 | None => quantity item
                 end in
        nth_error saved i
        = Some [name; str_int v; repr_float (price item);
                str_int (units_per_box item); str_int (critical_level item)]
        /\ exists item',
            nth_error (table w') i = Some (name, item')
            /\ quantity item' = v
            /\ price item' = price item
            /\ units_per_box item' = units_per_box item
            /\ critical_level item' = critical_level item
            /\ per_unit_price item' = per_unit_price item.
Proof.
  intros Hfile Hload Hin H2 H5 Hlen.
  destruct (loaded_entries _ _ _ _ Hload) as [Hnd Hl].
  rewrite (main_starts_with_scan_aux w w1 rows T Hfile Hload).
  set (w0 := emits (scan_events T) (with_table T w)).
  rewrite while_input_unroll by apply menu_body_advances.
  rewrite (menu_body_read _ _ w0 o2 (lines ++ o5 :: rest)%list) by exact Hin.
  cbv zeta; rewrite H2; cbn [String.eqb Ascii.eqb Bool.eqb].
  unfold bind at 1; rewrite show_low_stock_alerts_run.
  set (w2 := emits _ (with_stdin _ _)).
  destruct (daily_inventory_entry_run w2 lines (o5 :: rest)) as [evs Hrun];
    [exact Hnd | reflexivity | exact Hlen |].
  unfold bind at 1; rewrite Hrun; unfold ret at 1.
  rewrite while_input_unroll by apply menu_body_advances.
  set (w3 := with_table _ _).
  rewrite (menu_body_save _ _ w3 o5 rest) by (reflexivity || assumption).
  assert (Hw : forallb (fun e => writable (snd e)) (table w3) = true)
    by (apply count_update_writable, loaded_writable, Hl).
  rewrite Hw.
  exists (saved_world "inventory.csv" rest w3), (map item_record (count_update T lines)).
  split; [reflexivity|].
  unfold saved_world; cbn [stdin files table with_files with_stdin with_table emits w3].
  rewrite dict_get_set_same.
  split; [reflexivity|]; split; [reflexivity|].
  assert (Hcount : List.length (count_update T lines) = List.length T)
    by (unfold count_update; rewrite length_map, length_combine; lia).
  split; [rewrite length_map; exact Hcount|]; split; [exact Hcount|].
  intros i name item line Hnth Hline.
  pose proof (nth_error_count_update _ _ _ _ _ Hnth Hline) as Hi.
  destruct (entered_fields name item line) as (item' & He & Hq & Hp & Hu & Hc & Hpu).
  rewrite He in Hi; cbv zeta; split.
  - rewrite nth_error_map, Hi; simpl; rewrite Hq, Hp, Hu, Hc; reflexivity.
  - exists item'; split; [exact Hi|]; auto.
Qed.

Lemma written_stops (pre post : Inventory) (entry : string * Item) :
  forallb (fun e => writable (snd e)) pre = true ->
  writable (snd entry) = false ->
  written (pre ++ entry :: post)%list = pre
  /\ forallb (fun e => writable (snd e)) (pre ++ entry :: post)%list = false.
Proof.
  intros Hpre He; induction pre as [|e pre IH]; simpl in *.
  - rewrite He; auto.
  - apply andb_true_iff in Hpre as [H1 H2]; rewrite H1.
    destruct (IH H2) as [-> ->]; auto.
Qed.

(** X21. Saving a table in which an item has a count of more digits than
    [str] writes (4300) raises [ValueError] after the file was opened for
    writing: the file is left with the header and the records of the items
    before the first such item, so the records from that item on, and
    whatever the file held before, are not in it. *)
Theorem overlong_count_cuts_the_save (filename : string) (w : World)
    (pre post : Inventory) (name : string) (item : Item) :
  table w = (pre ++ (name, item) :: post)%list ->
  (forall n it, In (n, it) pre ->
                digits_fit (quantity it) = true /\ digits_fit (units_per_box it) = true
                /\ digits_fit (critical_level it) = true) ->
  digits_fit (quantity item) = false \/ digits_fit (units_per_box item) = false
  \/ digits_fit (critical_level item) = false ->
  exists w',
    save_inventory filename w = (Raise ValueError, w')
    /\ dict_get filename (files w') = Some (fieldnames :: map item_record pre)
    /\ (forall f, f <> filename -> dict_get f (files w') = dict_get f (files w))
    /\ table w' = table w.
Proof.
  intros Ht Hpre Hitem.
  assert (Hp : forallb (fun e => writable (snd e)) pre = true).
  { apply forallb_forall; intros [n it] Hin; destruct (Hpre n it Hin) as (H1 & H2 & H3).
    unfold writable; simpl; rewrite H1, H2, H3; reflexivity. }
  assert (Hi : writable (snd (name, item)) = false).
  { unfold writable; simpl.
    destruct Hitem as [H|[H|H]]; rewrite H; rewrite ?andb_false_r; reflexivity. }
  destruct (written_stops pre post (name, item) Hp Hi) as [Hw Hall].
  rewrite save_inventory_run, Ht, Hall, Hw.
  eexists; split; [reflexivity|]; cbn [files table with_files].
  split; [apply dict_get_set_same|]; split; [|exact Ht].
  intros f Hne; apply dict_get_set_other; congruence.
Qed.

End EndToEnd.

(** ** More of the program, on sample data *)

#[local] Existing Instance DecimalText.text.

Lemma sample_file_loads_with :
  load_inventory (FT := DecimalText.text) "inventory.csv"
    (sample_world ["2"; "7"; "lots"; "5"; "1"])
  = (Ok sample_table, sample_world ["2"; "7"; "lots"; "5"; "1"]).
Proof. vm_compute; reflexivity. Defined.

Lemma main_returns_witness :
  let w' := snd (main (FT := DecimalText.text) (sample_world ["5"])) in
  dict_get "inventory.csv" (files w') = Some (fieldnames :: map item_record (table w'))
  /\ last (stdout w') (Printed "") = Printed "Saved and exiting."
  /\ exists line, In line ["5"] /\ strip line = "5".
Proof.
  assert (Hrun : main (FT := DecimalText.text) (sample_world ["5"])
                 = (Ok tt, snd (main (FT := DecimalText.text) (sample_world ["5"]))))
    by (vm_compute; reflexivity).
  destruct (main_returns_only_by_saving _ _ Hrun) as (H1 & _ & H3 & H4).
  cbv zeta; repeat split; assumption.
Defined.

Lemma main_failure_witness :
  fst (main (FT := DecimalText.text) (sample_world ["2"; "7"])) = Raise EOFError
  /\ files (snd (main (FT := DecimalText.text) (sample_world ["2"; "7"])))
     = files (sample_world []).
Proof.
  assert (Hrun : main (FT := DecimalText.text) (sample_world ["2"; "7"])
                 = (Raise EOFError,
                    snd (main (FT := DecimalText.text) (sample_world ["2"; "7"]))))
    by (vm_compute; reflexivity).
  split; [rewrite Hrun; reflexivity|].
  destruct (main_failure_saves_nothing_or_part (FT := DecimalText.text) _ _ _ Hrun)
    as [H|[He _]]; [exact H | discriminate He].
Defined.

Lemma main_starts_witness :
  main (FT := DecimalText.text) (sample_world ["5"])
  = while_input (menu_body (FT := DecimalText.text) "inventory.csv") tt
      (emits (scan_events sample_table) (with_table sample_table (sample_world ["5"]))).
Proof.
  apply (main_starts_with_scan (FT := DecimalText.text) (sample_world ["5"])
           (sample_world ["5"]) sample_file sample_table).
  - reflexivity.
  - vm_compute; reflexivity.
Defined.

Lemma invalid_option_witness :
  menu_body (FT := DecimalText.text) "inventory.csv" tt (session ["9"; "5"])
  = (Ok (Continue tt),
     with_stdin ["5"]
       (emits [Printed menu_text; Prompted "Choose an option: "; Printed "Invalid option."]
          (session ["9"; "5"]))).
Proof.
  apply (invalid_option_changes_nothing (FT := DecimalText.text) "inventory.csv"
           (session ["9"; "5"]) "9" ["5"]).
  - reflexivity.
  - repeat split; discriminate.
Defined.


Lemma non_integer_quantity_witness :
  load_inventory (FT := DecimalText.text) "inventory.csv" bad_quantity_world
  = (Raise ValueError, bad_quantity_world)
  /\ main (FT := DecimalText.text) bad_quantity_world = (Raise ValueError, bad_quantity_world).
Proof.
  eapply (non_integer_quantity_is_fatal (FT := DecimalText.text) bad_quantity_world _
            [] [] _ [] "Patty" "ten"); try reflexivity.
  constructor.
Defined.

Lemma zero_units_witness :
  load_inventory (FT := DecimalText.text) "inventory.csv" zero_units_world
  = (Raise ZeroDivisionError, zero_units_world)
  /\ main (FT := DecimalText.text) zero_units_world
     = (Raise ZeroDivisionError, zero_units_world).
Proof.
  eapply (zero_units_is_fatal (FT := DecimalText.text) zero_units_world _
            [] [] _ [] "Patty" "10" "20.00" "0" "5" 10 5 20%float); try reflexivity.
  constructor.
Defined.

Lemma file_without_rows_witness :
  load_inventory (FT := DecimalText.text) "inventory.csv" blank_world = (Ok [], blank_world).
Proof.
  eapply (file_without_rows_loads_empty (FT := DecimalText.text) "inventory.csv" blank_world).
  - reflexivity.
  - simpl; intros r [<-|[<-|[]]]; reflexivity.
Defined.

Lemma loaded_keys_witness : lower "big mac bun" = "big mac bun".
Proof.
  apply (loaded_keys_are_lower_case (FT := DecimalText.text) "inventory.csv"
           (sample_world []) (sample_world []) sample_table sample_file_loads).
  right; left; reflexivity.
Defined.


Lemma invalid_choice_witness :
  order_body ["patty"; "big mac bun"] [] (session ["7"; "done"])
  = (Ok (Continue []),
     with_stdin ["done"] (emits [prompt_choice; Printed "Invalid choice."] (session ["7"; "done"]))).
Proof.
  apply (invalid_choice_changes_nothing ["patty"; "big mac bun"] [] (session ["7"; "done"])
           "7" ["done"]).
  - reflexivity.
  - reflexivity.
  - discriminate.
  - right; exists 7; split; [reflexivity | right; simpl; lia].
Defined.


Lemma never_lowers_witness :
  exists item',
    dict_get "big mac bun" (table (snd (place_order (session ["1"; "3"; "done"])))) = Some item'
    /\ quantity sample_bun <= quantity item'
    /\ fixed_fields item' = fixed_fields sample_bun.
Proof.
  assert (Hrun : place_order (session ["1"; "3"; "done"])
                 = (Ok tt, snd (place_order (session ["1"; "3"; "done"]))))
    by (vm_compute; reflexivity).
  destruct (ordering_never_lowers_stock _ _ Hrun "big mac bun" sample_bun eq_refl)
    as (item' & H1 & H2 & H3 & _).
  exists item'; repeat split; assumption.
Defined.

Lemma huge_quantity_witness :
  exists w',
    place_order (session ["1"; str_int (2 ^ 1024); "done"]) = (Raise OverflowError, w')
    /\ table w' = sample_table
    /\ files w' = files (session []).
Proof.
  apply (huge_quantity_ends_order (session ["1"; str_int (2 ^ 1024); "done"])
           "1" "patty" (str_int (2 ^ 1024)) ["done"] (2 ^ 1024) sample_patty).
  - reflexivity.
  - reflexivity.
  - exact selects_first.
  - vm_compute; reflexivity.
  - reflexivity.
  - vm_compute; reflexivity.
  - reflexivity.
Defined.

Lemma end_of_input_witness :
  exists w' item',
    place_order (session ["1"; "3"]) = (Raise EOFError, w')
    /\ dict_get "patty" (table w') = Some item'
    /\ quantity item' = 13.
Proof.
  destruct (end_of_input_keeps_the_pick (session ["1"; "3"]) "1" "patty" "3" 3 3%float
              sample_patty eq_refl eq_refl selects_first eq_refl eq_refl eq_refl eq_refl)
    as (w' & item' & H1 & H2 & H3 & _).
  exists w', item'; split; [exact H1|]; split; [exact H2 | exact H3].
Defined.

Lemma counts_at_end_of_input_witness :
  exists w' patty bun,
    daily_inventory_entry (session ["7"]) = (Raise EOFError, w')
    /\ nth_error (table w') 0 = Some ("patty", patty) /\ quantity patty = 7
    /\ nth_error (table w') 1 = Some ("big mac bun", bun) /\ quantity bun = 2.
Proof.
  destruct (count_updater_keeps_counts_at_end_of_input (session ["7"]))
    as (w' & H1 & _ & _ & Hall).
  - repeat constructor; simpl; intuition discriminate.
  - simpl; lia.
  - destruct (Hall 0%nat "patty" sample_patty eq_refl) as (patty & Hp & Hq & _).
    destruct (Hall 1%nat "big mac bun" sample_bun eq_refl) as (bun & Hb & Hqb & _).
    exists w', patty, bun.
    split; [exact H1|]; split; [exact Hp|]; split; [exact Hq|]; split; [exact Hb | exact Hqb].
Defined.

Lemma overlong_choice_witness :
  fst (place_order (session [repeat_str "7" 4301; "done"])) = Raise ValueError
  /\ table (snd (place_order (session [repeat_str "7" 4301; "done"]))) = sample_table
  /\ stdin (snd (place_order (session [repeat_str "7" 4301; "done"]))) = ["done"].
Proof.
  rewrite (overlong_choice_ends_order (session [repeat_str "7" 4301; "done"])
             (repeat_str "7" 4301) ["done"]).
  - repeat split.
  - reflexivity.
  - reflexivity.
  - vm_compute; reflexivity.
  - vm_compute; apply Nat.leb_le; vm_compute; reflexivity.
Defined.

Lemma overlong_count_witness :
  exists w',
    save_inventory (FT := DecimalText.text) "inventory.csv"
      (with_table overfull_table (session []))
    = (Raise ValueError, w')
    /\ dict_get "inventory.csv" (files w')
       = Some [ ["name"; "quantity"; "price"; "units_per_box"; "critical_level"];
                ["patty"; "10"; "20.0"; "50"; "5"] ].
Proof.
  destruct (overlong_count_cuts_the_save (FT := DecimalText.text) "inventory.csv"
              (with_table overfull_table (session []))
              [("patty", sample_patty)]
              [("fries",
                {| quantity := 10; price := 1.5%float; units_per_box := 10;
                   critical_level := 2; per_unit_price := 0.15%float |})]
              "big mac bun"
              {| quantity := 10 ^ 4300; price := 12.5%float; units_per_box := 48;
                 critical_level := 5; per_unit_price := PrimFloat.div 12.5%float 48%float |})
    as (w' & H1 & H2 & _).
  - reflexivity.
  - intros n it [[= <- <-]|[]]; repeat split.
  - left; vm_compute; reflexivity.
  - exists w'; split; [exact H1 | exact H2].
Defined.

Lemma waste_total_witness :
  exists evs,
    waste_entry (session ["100"; "none"; "5"])
    = (Ok tt,
       with_stdin ["5"]
         (emits (evs ++ [Printed "Total cost of waste: $40.00"])%list
            (session ["100"; "none"; "5"]))).
Proof.
  apply (waste_logger_prints_the_total (session ["100"; "none"; "5"]) ["100"; "none"] ["5"]
           40%float).
  - reflexivity.
  - reflexivity.
  - vm_compute; reflexivity.
Defined.

Lemma counts_saved_witness :
  exists w' saved,
    main (FT := DecimalText.text) (sample_world ["2"; "7"; "lots"; "5"; "1"]) = (Ok tt, w')
    /\ stdin w' = ["1"]
    /\ dict_get "inventory.csv" (files w') = Some (fieldnames :: saved)
    /\ List.length saved = 2%nat
    /\ nth_error saved 0 = Some ["patty"; "7"; "20.0"; "50"; "5"]
    /\ nth_error saved 1 = Some ["big mac bun"; "2"; "12.5"; "48"; "5"].
Proof.
  destruct (counts_entered_are_saved (FT := DecimalText.text)
              (sample_world ["2"; "7"; "lots"; "5"; "1"])
              (sample_world ["2"; "7"; "lots"; "5"; "1"])
              sample_file sample_table "2" "5" ["7"; "lots"] ["1"]
              eq_refl sample_file_loads_with eq_refl eq_refl eq_refl eq_refl)
    as (w' & saved & H1 & H2 & H3 & H4 & _ & Hall).
  exists w', saved.
  split; [exact H1|]; split; [exact H2|]; split; [exact H3|]; split; [exact H4|].
  split.
  - exact (proj1 (Hall 0%nat "patty" sample_patty "7" eq_refl eq_refl)).
  - exact (proj1 (Hall 1%nat "big mac bun" sample_bun "lots" eq_refl eq_refl)).
Defined.
